(** * The OBD-II link of [src/hooks/useBluetoothOBD.ts]

    A shallow embedding of the hook's protocol code: the command channel
    ([sendOBDCommand]), the ELM327 handshake ([initializeOBDConnection],
    [connectToDevice]), the PID decoder ([parseOBDResponse]), the trouble
    code parser ([parseDTCCodes], [convertHexToDTC]) and the poller
    ([readOBDData], [startDataPolling]).

    JavaScript strings are [string]s of 8-bit code units.  Every response
    text is produced by [Buffer.toString('ascii')], which clears the top bit
    of each byte, so code units above 127 never reach the parsers.

    JavaScript numbers are modelled by exact rationals plus [NaN]; the
    rounding of binary floating point is not modelled.  The model gives the
    number the code computes wherever that number is exact: the bytes, their
    sums and products, the engine speed (an integer below 2^16 divided by 4),
    and whatever has passed through [Math.round] (the quotients by 5 and by
    255 are rounded by the code to doubles, but the exact quotients are never
    within 1/102 of a half-integer, so [Math.round] gives the same integer).
    Where the code uses an inexact result unrounded, its double differs from
    the rational of the model: the coolant temperature as [parseOBDResponse]
    returns it, when the byte less 40 is no multiple of 5, and the simulated
    fields [12.0 + Math.random() * 2], which can reach 14, and
    [Math.floor(Math.random() * 10)], which can be one above the floor of
    the exact product.  Where a statement names these two expressions, it
    names the rational; the bounds and the rounded values stated of them
    hold of the doubles as well. *)

From Stdlib Require Import ZArith QArith Qround List Bool Lia.
From Stdlib Require Import Strings.Ascii Strings.String Numbers.DecimalString.
Import ListNotations.

Local Open Scope string_scope.

(* ================================================================== *)
(** * JavaScript primitives used by the hook *)
(* ================================================================== *)

Module JS.

(** ** Numbers *)

Inductive number : Type :=
| Num (q : Q)
| NaN.

Definition ofZ (z : Z) : number := Num (inject_Z z).

Definition lift2 (f : Q -> Q -> Q) (x y : number) : number :=
  match x, y with
  | Num a, Num b => Num (f a b)
  | _, _ => NaN
  end.

Definition add := lift2 Qplus.
Definition sub := lift2 Qminus.
Definition mul := lift2 Qmult.
(** [div] is only ever applied to the non-zero literals 4, 5 and 255. *)
Definition div := lift2 Qdiv.

(** [x > 0] and [x >= 0]; any comparison with [NaN] is false. *)
Definition gt0 (x : number) : bool :=
  match x with
  | Num q => negb (Qle_bool q 0)
  | NaN => false
  end.

Definition ge0 (x : number) : bool :=
  match x with
  | Num q => Qle_bool 0 q
  | NaN => false
  end.

(** [Math.round]: the nearest integer, halves going up. *)
Definition Math_round (x : number) : number :=
  match x with
  | Num q => ofZ (Qfloor (q + (1 # 2)))
  | NaN => NaN
  end.

Definition Math_floor (x : number) : number :=
  match x with
  | Num q => ofZ (Qfloor q)
  | NaN => NaN
  end.

(** Truthiness of an optional number: [undefined], [0] and [NaN] are the
    falsy ones. *)
Definition truthy (o : option number) : bool :=
  match o with
  | Some (Num q) => negb (Qeq_bool q 0)
  | Some NaN => false
  | None => false
  end.

(** [o || d] *)
Definition orElse (o : option number) (d : number) : number :=
  match o with
  | Some v => if truthy o then v else d
  | None => d
  end.

(** ** Characters and strings *)

Definition charCode (c : ascii) : Z := Z.of_N (N_of_ascii c).

Definition between (lo hi : Z) (c : ascii) : bool :=
  (lo <=? charCode c)%Z && (charCode c <=? hi)%Z.

(** The class [\s] on 8-bit code units: TAB, LF, VT, FF, CR, space and the
    no-break space. *)
Definition isWhitespace (c : ascii) : bool :=
  between 9 13 c || (charCode c =? 32)%Z || (charCode c =? 160)%Z.

(** The class [[0-9A-F]]. *)
Definition isHexDigit (c : ascii) : bool :=
  between 48 57 c || between 65 70 c.

(** [s.replace(/\s/g, '')] *)
Fixpoint removeWhitespace (s : string) : string :=
  match s with
  | EmptyString => EmptyString
  | String c r =>
      if isWhitespace c then removeWhitespace r
      else String c (removeWhitespace r)
  end.

Definition upper (c : ascii) : ascii :=
  if between 97 122 c then ascii_of_N (N_of_ascii c - 32) else c.

(** [s.toUpperCase()].  Only [a]..[z] change among the code units below 128;
    the ones above are left alone here, where JavaScript maps some of them to
    other non-ASCII letters: neither they nor their images are hexadecimal
    digits, so no match of the patterns below can contain them. *)
Fixpoint toUpperCase (s : string) : string :=
  match s with
  | EmptyString => EmptyString
  | String c r => String (upper c) (toUpperCase r)
  end.

(** [s.substr(start, len)] for non-negative arguments. *)
Definition substr (s : string) (start len : nat) : string :=
  substring start len s.

(** The value of a digit in radix 16; [parseInt] accepts both cases. *)
Definition hexVal (c : ascii) : option Z :=
  if between 48 57 c then Some (charCode c - 48)%Z
  else if between 65 70 c then Some (charCode c - 55)%Z
  else if between 97 102 c then Some (charCode c - 87)%Z
  else None.

Fixpoint parseDigits (s : string) (acc : option Z) : option Z :=
  match s with
  | EmptyString => acc
  | String c r =>
      match hexVal c with
      | Some v =>
          parseDigits r (Some (16 * match acc with Some a => a | None => 0 end + v)%Z)
      | None => acc
      end
  end.

(** [parseInt(s, 16)] on a string that starts with its digits: the longest
    prefix of hexadecimal digits is read, and [None] stands for [NaN] (no
    digit at all).  The callers pass pieces of a run of [[0-9A-F]], so the
    optional blanks, sign and [0x] prefix that [parseInt] skips cannot
    occur. *)
Definition parseInt16 (s : string) : option Z := parseDigits s None.

Definition ofInt (o : option Z) : number :=
  match o with
  | Some z => ofZ z
  | None => NaN
  end.

(** Decimal rendering of an integer, as in a template string. *)
Definition showInt (z : Z) : string := NilZero.string_of_int (Z.to_int z).

Definition hexChar (d : Z) : ascii :=
  if (d <? 10)%Z then ascii_of_N (Z.to_N (d + 48)) else ascii_of_N (Z.to_N (d + 55)).

(** [n.toString(16).padStart(2, '0').toUpperCase()] for [0 <= n < 256]. *)
Definition hex2 (n : Z) : string :=
  String (hexChar (n / 16)) (String (hexChar (n mod 16)) EmptyString).

End JS.

Import JS.

(* ================================================================== *)
(** * The PID decoder: [parseOBDResponse] *)
(* ================================================================== *)

(** The longest run of [[0-9A-F]] at the head of [s]: what a greedy
    [[0-9A-F]+] with nothing after it consumes. *)
Fixpoint takeHex (s : string) : string :=
  match s with
  | EmptyString => EmptyString
  | String c r => if isHexDigit c then String c (takeHex r) else EmptyString
  end.

(** A match of [/41[0-9A-F]{2}([0-9A-F]+)/] that starts at the head of [s];
    the result is capture group 1. *)
Definition matchPidAt (s : string) : option string :=
  match s with
  | String c1 (String c2 (String x (String y rest))) =>
      if (c1 =? "4")%char && (c2 =? "1")%char && isHexDigit x && isHexDigit y then
        match takeHex rest with
        | EmptyString => None
        | dataBytes => Some dataBytes
        end
      else None
  | _ => None
  end.

(** [s.match(/41[0-9A-F]{2}([0-9A-F]+)/)]: the leftmost match, [None] for
    [null]. *)
Fixpoint matchPid (s : string) : option string :=
  match matchPidAt s with
  | Some dataBytes => Some dataBytes
  | None =>
      match s with
      | EmptyString => None
      | String _ r => matchPid r
      end
  end.

Definition cleanResponse (response : string) : string :=
  toUpperCase (removeWhitespace response).

(** [parseInt(dataBytes.substr(start, 2), 16)] *)
Definition byteAt (dataBytes : string) (start : nat) : number :=
  ofInt (parseInt16 (substr dataBytes start 2)).

(** [parseOBDResponse(pid, response)]; [None] is [null].  Nothing in the
    body throws on a string, so the [catch] branch is never taken. *)
Definition parseOBDResponse (pid response : string) : option number :=
  match matchPid (cleanResponse response) with
  | None => None
  | Some dataBytes =>
      if (pid =? "0C")%string then
        if (4 <=? length dataBytes)%nat then
          let a := byteAt dataBytes 0 in
          let b := byteAt dataBytes 2 in
          Some (div (add (mul a (ofZ 256)) b) (ofZ 4))
        else None
      else if (pid =? "0D")%string then
        if (2 <=? length dataBytes)%nat then Some (byteAt dataBytes 0) else None
      else if (pid =? "05")%string then
        if (2 <=? length dataBytes)%nat then
          let temp := sub (byteAt dataBytes 0) (ofZ 40) in
          Some (add (div (mul temp (ofZ 9)) (ofZ 5)) (ofZ 32))
        else None
      else if (pid =? "0A")%string then
        if (2 <=? length dataBytes)%nat then Some (mul (byteAt dataBytes 0) (ofZ 3))
        else None
      else if (pid =? "04")%string then
        if (2 <=? length dataBytes)%nat then
          Some (Math_round (div (mul (byteAt dataBytes 0) (ofZ 100)) (ofZ 255)))
        else None
      else None
  end.

(* ================================================================== *)
(** * The trouble-code parser: [parseDTCCodes] *)
(* ================================================================== *)

Inductive Severity : Type := low | medium | high.

Record DTCCode : Type := mkDTCCode {
  code : string;
  description : string;
  severity : Severity
}.

(** A template-string slot holding a number: decimal digits, or [NaN]. *)
Definition showNumber (o : option Z) : string :=
  match o with
  | Some z => showInt z
  | None => "NaN"
  end.

(** [convertHexToDTC(hex)].  Bytes are [option Z], [None] being [NaN]; the
    result is always a string, the [catch] that returns [null] is never
    reached. *)
Definition convertHexToDTC (hex : string) : option string :=
  let firstByte := parseInt16 (substr hex 0 2) in
  let secondByte := parseInt16 (substr hex 2 2) in
  let firstChar :=
    match firstByte with
    | Some f => nth_error ["P"; "C"; "B"; "U"] (Z.to_nat (f / 64))
    | None => None
    end in
  let secondChar := option_map (fun f => (f mod 64) / 16)%Z firstByte in
  let thirdChar := option_map (fun f => f mod 16)%Z firstByte in
  let fourthFifthChar :=
    match secondByte with
    | Some s => hex2 s
    | None => "NAN"
    end in
  Some (match firstChar with Some c => c | None => "undefined" end
        ++ showNumber secondChar ++ showNumber thirdChar ++ fourthFifthChar).

Definition descriptions : list (string * string) :=
  [ ("P0420", "Catalyst System Efficiency Below Threshold");
    ("P0171", "System Too Lean (Bank 1)");
    ("P0172", "System Too Rich (Bank 1)");
    ("P0300", "Random/Multiple Cylinder Misfire Detected");
    ("P0301", "Cylinder 1 Misfire Detected");
    ("P0302", "Cylinder 2 Misfire Detected");
    ("P0303", "Cylinder 3 Misfire Detected");
    ("P0304", "Cylinder 4 Misfire Detected");
    ("P0440", "Evaporative Emission Control System Malfunction");
    ("P0442", "Evaporative Emission Control System Leak Detected (Small Leak)");
    ("P0455", "Evaporative Emission Control System Leak Detected (Large Leak)");
    ("P0506", "Idle Control System RPM Lower Than Expected");
    ("P0507", "Idle Control System RPM Higher Than Expected") ].

Fixpoint lookup (k : string) (table : list (string * string)) : option string :=
  match table with
  | [] => None
  | (k', v) :: rest => if (k =? k')%string then Some v else lookup k rest
  end.

(** [descriptions[code] || `Diagnostic trouble code: ${code}`].  The table
    is an object literal, so indexing it also finds the members every object
    inherits ([toString], [constructor], ...); the list has none of these.
    The two agree on every code [parseDTCCodes] passes in: such a code
    starts with an upper-case category letter, which no inherited member
    does. *)
Definition getDTCDescription (c : string) : string :=
  match lookup c descriptions with
  | Some d => d
  | None => "Diagnostic trouble code: " ++ c
  end.

Definition includes (l : list string) (c : string) : bool :=
  existsb (String.eqb c) l.

Definition getDTCSeverity (c : string) : Severity :=
  let highSeverityCodes :=
    ["P0171"; "P0172"; "P0300"; "P0301"; "P0302"; "P0303"; "P0304"] in
  let mediumSeverityCodes := ["P0420"; "P0440"; "P0442"; "P0455"] in
  if includes highSeverityCodes c then high
  else if includes mediumSeverityCodes c then medium
  else low.

(** The successive matches of [/43([0-9A-F]{4})/g] found by the [exec] loop,
    each given by its capture group: after a match the search resumes behind
    its six characters, otherwise one character further on. *)
Fixpoint dtcMatches (s : string) : list string :=
  match s with
  | EmptyString => []
  | String c1 r =>
      match r with
      | String c2 (String a (String b (String c (String d rest)))) =>
          if (c1 =? "4")%char && (c2 =? "3")%char
             && isHexDigit a && isHexDigit b && isHexDigit c && isHexDigit d
          then String a (String b (String c (String d EmptyString))) :: dtcMatches rest
          else dtcMatches r
      | _ => dtcMatches r
      end
  end.

(** The body of the [while] loop for one match. *)
Definition surface (dtcHex : string) : list DTCCode :=
  match convertHexToDTC dtcHex with
  | Some dtcCode =>
      if negb (dtcCode =? "")%string && negb (dtcCode =? "P0000")%string
      then [mkDTCCode dtcCode (getDTCDescription dtcCode) (getDTCSeverity dtcCode)]
      else []
  | None => []
  end.

Definition parseDTCCodes (response : string) : list DTCCode :=
  flat_map surface (dtcMatches (cleanResponse response)).

(* ================================================================== *)
(** * The command channel and the hook's state *)
(* ================================================================== *)

(** The outcome of an awaited call: a value, or a thrown error, kept as the
    text [String(error)] gives. *)
Inductive result (T : Type) : Type :=
| Ok (v : T)
| Throw (error : string).
Arguments Ok {T} v.
Arguments Throw {T} error.

(** The adapter behind the selected characteristic, as far as the hook can
    see it: a state, changed by [characteristic.writeWithResponse(data)] and
    [characteristic.read()], either of which may throw.  The BLE library
    exchanges base64 text; [Buffer.from(s, 'ascii').toString('base64')] and
    [Buffer.from(v, 'base64')] code the same bytes, so the model hands the
    bytes over directly.  [read] gives [response.value], [None] for [null]. *)
Record Adapter : Type := mkAdapter {
  Dev : Type;
  writeWithResponse : Dev -> string -> Dev * result unit;
  read : Dev -> Dev * result (option string)
}.

Record Characteristic : Type := mkCharacteristic {
  uuid : string;
  isWritableWithResponse : bool;
  isWritableWithoutResponse : bool
}.

Record Device : Type := mkDevice {
  id : string;
  name : option string
}.

Record OBDData : Type := mkOBDData {
  rpm : number;
  speed : number;
  coolantTemp : number;
  fuelPressure : number;
  voltage : number;
  engineLoad : number
}.

(** [Partial<OBDData>]: an own property is present exactly when its field is
    [Some]. *)
Module Partial.

Record t : Type := mk {
  rpm : option number;
  speed : option number;
  coolantTemp : option number;
  fuelPressure : option number;
  voltage : option number;
  engineLoad : option number
}.

Definition empty : t := mk None None None None None None.

Definition set_rpm v d :=
  mk (Some v) (speed d) (coolantTemp d) (fuelPressure d) (voltage d) (engineLoad d).
Definition set_speed v d :=
  mk (rpm d) (Some v) (coolantTemp d) (fuelPressure d) (voltage d) (engineLoad d).
Definition set_coolantTemp v d :=
  mk (rpm d) (speed d) (Some v) (fuelPressure d) (voltage d) (engineLoad d).
Definition set_fuelPressure v d :=
  mk (rpm d) (speed d) (coolantTemp d) (Some v) (voltage d) (engineLoad d).
Definition set_voltage v d :=
  mk (rpm d) (speed d) (coolantTemp d) (fuelPressure d) (Some v) (engineLoad d).
Definition set_engineLoad v d :=
  mk (rpm d) (speed d) (coolantTemp d) (fuelPressure d) (voltage d) (Some v).

Definition present (o : option number) : nat :=
  match o with Some _ => 1 | None => 0 end.

(** [Object.keys(data).length] *)
Definition keys (d : t) : nat :=
  present (rpm d) + present (speed d) + present (coolantTemp d)
  + present (fuelPressure d) + present (voltage d) + present (engineLoad d).

End Partial.

(** What the hook does to its surroundings: the state setters it calls and
    the callbacks it fires, in order. *)
Inductive Event : Type :=
| SetIsScanning (b : bool)
| SetIsConnecting (b : bool)
| SetIsConnected (b : bool)
| StopDeviceScan
| OnConnectionChange (connected : bool)
| OnError (error : string)
| OnDataReceived (data : OBDData).

(** The refs and state of one hook instance, the adapter it talks to, and
    the trace of its events. *)
Record World (A : Adapter) : Type := mkWorld {
  adapter : Dev A;
  bleManagerRef : bool;
  characteristicRef : option Characteristic;
  connectedDeviceRef : option Device;
  dataPollingRef : bool;
  isScanning : bool;
  isConnecting : bool;
  isConnected : bool;
  events : list Event
}.
Arguments mkWorld {A}.
Arguments adapter {A}.
Arguments bleManagerRef {A}.
Arguments characteristicRef {A}.
Arguments connectedDeviceRef {A}.
Arguments dataPollingRef {A}.
Arguments isScanning {A}.
Arguments isConnecting {A}.
Arguments isConnected {A}.
Arguments events {A}.

(** An async function: it changes the world and returns or throws. *)
Definition M (A : Adapter) (T : Type) : Type := World A -> World A * result T.

Definition ret {A T} (v : T) : M A T := fun w => (w, Ok v).

Definition bind {A T U} (m : M A T) (k : T -> M A U) : M A U :=
  fun w =>
    match m w with
    | (w', Ok v) => k v w'
    | (w', Throw e) => (w', Throw e)
    end.

(** [try { m } catch (error) { handler(error) }] *)
Definition tryCatch {A T} (m : M A T) (handler : string -> M A T) : M A T :=
  fun w =>
    match m w with
    | (w', Ok v) => (w', Ok v)
    | (w', Throw e) => handler e w'
    end.

Declare Scope async_scope.
Delimit Scope async_scope with async.
Notation "x <- m ;; k" := (bind m (fun x => k))
  (at level 61, m at next level, right associativity) : async_scope.
Notation "m ;;; k" := (bind m (fun _ => k))
  (at level 61, right associativity) : async_scope.
Local Open Scope async_scope.

Definition emit {A} (e : Event) : M A unit :=
  fun w =>
    (mkWorld (adapter w) (bleManagerRef w) (characteristicRef w)
       (connectedDeviceRef w) (dataPollingRef w) (isScanning w)
       (isConnecting w) (isConnected w) (events w ++ [e]), Ok tt).

Definition withAdapter {A} (d : Dev A) (w : World A) : World A :=
  mkWorld d (bleManagerRef w) (characteristicRef w) (connectedDeviceRef w)
    (dataPollingRef w) (isScanning w) (isConnecting w) (isConnected w) (events w).

Definition setIsScanning {A} (b : bool) : M A unit :=
  fun w =>
    emit (SetIsScanning b)
      (mkWorld (adapter w) (bleManagerRef w) (characteristicRef w)
         (connectedDeviceRef w) (dataPollingRef w) b
         (isConnecting w) (isConnected w) (events w)).

Definition setIsConnecting {A} (b : bool) : M A unit :=
  fun w =>
    emit (SetIsConnecting b)
      (mkWorld (adapter w) (bleManagerRef w) (characteristicRef w)
         (connectedDeviceRef w) (dataPollingRef w) (isScanning w)
         b (isConnected w) (events w)).

Definition setIsConnected {A} (b : bool) : M A unit :=
  fun w =>
    emit (SetIsConnected b)
      (mkWorld (adapter w) (bleManagerRef w) (characteristicRef w)
         (connectedDeviceRef w) (dataPollingRef w) (isScanning w)
         (isConnecting w) b (events w)).

Definition setRefs {A} (c : Characteristic) (d : Device) : M A unit :=
  fun w =>
    (mkWorld (adapter w) (bleManagerRef w) (Some c) (Some d)
       (dataPollingRef w) (isScanning w) (isConnecting w) (isConnected w)
       (events w), Ok tt).

Definition CR : string := String "013" EmptyString.

(** [buf.toString('ascii')]: every byte with its top bit cleared. *)
Fixpoint asciiSlice (bytes : string) : string :=
  match bytes with
  | EmptyString => EmptyString
  | String c r => String (ascii_of_N (N.land (N_of_ascii c) 127)) (asciiSlice r)
  end.

(** [sendOBDCommand] up to its first suspension: the guard on the two refs,
    and the write of the command with its carriage return. *)
Definition sendWrite {A} (command : string) : M A unit :=
  fun w =>
    match characteristicRef w, connectedDeviceRef w with
    | Some _, Some _ =>
        let commandWithCR := command ++ CR in
        let (d, r) := writeWithResponse A (adapter w) commandWithCR in
        (withAdapter d w, r)
    | _, _ => (w, Throw "Error: No active OBD connection")
    end.

(** [sendOBDCommand] after its one-second wait: the read through
    [characteristicRef.current] (a [TypeError] when it has been set to
    [null] meanwhile; the wording of its message is the engine's) and the
    decoding of the value; the text is returned as decoded. *)
Definition sendRead {A} : M A string :=
  fun w =>
    match characteristicRef w with
    | Some _ =>
        let (d, r) := read A (adapter w) in
        (withAdapter d w,
         match r with
         | Ok value =>
             Ok (asciiSlice (match value with Some v => v | None => "" end))
         | Throw e => Throw e
         end)
    | None => (w, Throw "TypeError: Cannot read property 'read' of null")
    end.

(** [sendOBDCommand(command)]; its [catch] logs and throws the error on. *)
Definition sendOBDCommand {A} (command : string) : M A string :=
  sendWrite command ;;; sendRead.

Module OBD_PIDS.
Definition ENGINE_RPM := "010C".
Definition VEHICLE_SPEED := "010D".
Definition COOLANT_TEMP := "0105".
Definition FUEL_PRESSURE := "010A".
Definition ENGINE_LOAD := "0104".
Definition BATTERY_VOLTAGE := "0142".
Definition DTC_COUNT := "0101".
Definition READ_DTCS := "03".
Definition CLEAR_DTCS := "04".
End OBD_PIDS.

(** [initializeOBDConnection]: the five set-up commands in order; an error
    of any of them is thrown on.  The pauses between them change nothing
    the hook can see. *)
Definition initializeOBDConnection {A} : M A unit :=
  fun w =>
    match characteristicRef w with
    | None => (w, Ok tt)
    | Some _ =>
        (sendOBDCommand "ATZ" ;;;
         sendOBDCommand "ATE0" ;;;
         sendOBDCommand "ATL0" ;;;
         sendOBDCommand "ATS0" ;;;
         sendOBDCommand "ATSP0" ;;;
         ret tt) w
    end.

(* ================================================================== *)
(** * The poller: [readOBDData] and the interval callback *)
(* ================================================================== *)

(** [readOBDData()].  [random1] and [random2] are the values of the two
    calls of [Math.random()], each in [0, 1).  Each read has a [try] of its
    own, whose [catch] only logs; nothing else in the body throws, so the
    outer [catch] is never taken. *)
Definition readOBDData {A} (random1 random2 : Q) : M A Partial.t :=
  let data := Partial.empty in
  data <- tryCatch
            (rpmResponse <- sendOBDCommand OBD_PIDS.ENGINE_RPM ;;
             ret (match parseOBDResponse "0C" rpmResponse with
                  | Some rpm =>
                      if gt0 rpm then Partial.set_rpm (Math_round rpm) data else data
                  | None => data
                  end))
            (fun _ => ret data) ;;
  data <- tryCatch
            (speedResponse <- sendOBDCommand OBD_PIDS.VEHICLE_SPEED ;;
             ret (match parseOBDResponse "0D" speedResponse with
                  | Some speed =>
                      if ge0 speed then Partial.set_speed (Math_round speed) data else data
                  | None => data
                  end))
            (fun _ => ret data) ;;
  data <- tryCatch
            (tempResponse <- sendOBDCommand OBD_PIDS.COOLANT_TEMP ;;
             ret (match parseOBDResponse "05" tempResponse with
                  | Some temp => Partial.set_coolantTemp (Math_round temp) data
                  | None => data
                  end))
            (fun _ => ret data) ;;
  data <- tryCatch
            (loadResponse <- sendOBDCommand OBD_PIDS.ENGINE_LOAD ;;
             ret (match parseOBDResponse "04" loadResponse with
                  | Some load =>
                      if ge0 load then Partial.set_engineLoad (Math_round load) data else data
                  | None => data
                  end))
            (fun _ => ret data) ;;
  let data := Partial.set_voltage (add (ofZ 12) (mul (Num random1) (ofZ 2))) data in
  let data :=
    if negb (truthy (Partial.fuelPressure data))
    then Partial.set_fuelPressure
           (add (ofZ 35) (Math_floor (mul (Num random2) (ofZ 10)))) data
    else data in
  ret data.

(** The object literal [completeData] of the interval callback. *)
Definition completeData (data : Partial.t) : OBDData :=
  {| rpm := orElse (Partial.rpm data) (ofZ 0);
     speed := orElse (Partial.speed data) (ofZ 0);
     coolantTemp := orElse (Partial.coolantTemp data) (ofZ 0);
     fuelPressure := orElse (Partial.fuelPressure data) (ofZ 0);
     voltage := orElse (Partial.voltage data) (Num (124 # 10));
     engineLoad := orElse (Partial.engineLoad data) (ofZ 0) |}.

(** One run of the callback that [startDataPolling] hands to [setInterval].
    [isConnected] is the state variable as the callback's closure holds it:
    the value of the render whose [connectToDevice] started the polling. *)
Definition pollTick {A} (isConnected : bool) (random1 random2 : Q) : M A unit :=
  fun w =>
    if isConnected then
      match characteristicRef w with
      | Some _ =>
          (data <- readOBDData random1 random2 ;;
           if (0 <? Partial.keys data)%nat
           then emit (OnDataReceived (completeData data))
           else ret tt) w
      | None => (w, Ok tt)
      end
    else (w, Ok tt).

(** [startDataPolling()]: the interval is armed (an earlier one cleared);
    its runs are [pollTick]s. *)
Definition startDataPolling {A} : M A unit :=
  fun w =>
    (mkWorld (adapter w) (bleManagerRef w) (characteristicRef w)
       (connectedDeviceRef w) true (isScanning w) (isConnecting w)
       (isConnected w) (events w), Ok tt).

(* ================================================================== *)
(** * Connecting: [connectToDevice] *)
(* ================================================================== *)

(** What the BLE library answers during one connection attempt:
    [bleManager.connectToDevice], [discoverAllServicesAndCharacteristics],
    then [services()] and the [characteristics()] of each service. *)
Record BleAnswers : Type := mkBleAnswers {
  connectResult : result unit;
  discoverResult : result unit;
  servicesResult : result (list (result (list Characteristic)))
}.

Definition await {A T} (r : result T) : M A T := fun w => (w, r).

(** The two nested [for] loops: the first characteristic, service by
    service, that is writable with or without response. *)
Fixpoint findTarget (services : list (result (list Characteristic)))
  : result (option Characteristic) :=
  match services with
  | [] => Ok None
  | Throw e :: _ => Throw e
  | Ok characteristics :: rest =>
      match find (fun char => isWritableWithResponse char
                              || isWritableWithoutResponse char) characteristics with
      | Some char => Ok (Some char)
      | None => findTarget rest
      end
  end.

Definition connectToDevice {A} (ble : BleAnswers) (device : Device) : M A unit :=
  fun w =>
    if negb (bleManagerRef w)
    then emit (OnError "Bluetooth manager not initialized") w
    else
      tryCatch
        (setIsConnecting true ;;;
         emit StopDeviceScan ;;;
         setIsScanning false ;;;
         await (connectResult ble) ;;;
         await (discoverResult ble) ;;;
         services <- await (servicesResult ble) ;;
         targetCharacteristic <- await (findTarget services) ;;
         match targetCharacteristic with
         | None =>
             await (Throw "Error: No writable characteristic found for OBD communication")
         | Some target =>
             setRefs target device ;;;
             setIsConnected true ;;;
             setIsConnecting false ;;;
             emit (OnConnectionChange true) ;;;
             initializeOBDConnection ;;;
             startDataPolling
         end)
        (fun error =>
           setIsConnecting false ;;;
           emit (OnError ("Connection failed: " ++ error))) w.

(* ================================================================== *)
(** * Overlapping calls of [sendOBDCommand] *)
(* ================================================================== *)

(** A call of [sendOBDCommand] in flight.  Between its write and its read
    the call is suspended for a second, and other callbacks of the hook run. *)
Inductive Call : Type :=
| Called (command : string)
| Waiting
| Settled (r : result string).

(** The next piece of a call, run to its suspension or its end. *)
Definition stepCall {A} (c : Call) (w : World A) : World A * Call :=
  match c with
  | Called command =>
      match sendWrite command w with
      | (w', Ok _) => (w', Waiting)
      | (w', Throw e) => (w', Settled (Throw e))
      end
  | Waiting =>
      match sendRead w with
      | (w', r) => (w', Settled r)
      end
  | Settled r => (w, Settled r)
  end.

(** Two calls run by the event loop; the schedule says whose piece is next
    ([false]: the first call, [true]: the second). *)
Fixpoint runCalls {A} (schedule : list bool) (c1 c2 : Call) (w : World A)
  : World A * Call * Call :=
  match schedule with
  | [] => (w, c1, c2)
  | false :: rest => let (w', c1') := stepCall c1 w in runCalls rest c1' c2 w'
  | true :: rest => let (w', c2') := stepCall c2 w in runCalls rest c1 c2' w'
  end.

(* ================================================================== *)
(** * A concrete adapter for the examples *)
(* ================================================================== *)

(** An ELM327-like adapter: it keeps the last command written to it and, on
    a read, answers that command from a fixed table; the writes it refuses
    throw. *)
Module Elm.

Section Behaviour.

Variable refuses : string -> bool.
Variable answer : string -> string.

(** The state: the last command written. *)
Definition write (lastCommand commandWithCR : string) : string * result unit :=
  if refuses commandWithCR
  then (lastCommand, Throw "BleError: Operation was rejected")
  else (commandWithCR, Ok tt).

Definition read (lastCommand : string) : string * result (option string) :=
  (lastCommand, Ok (Some (answer lastCommand))).

Definition adapter : Adapter := mkAdapter string write read.

(** A connected hook talking to the adapter. *)
Definition connected : World adapter :=
  mkWorld ("" : Dev adapter) true
    (Some (mkCharacteristic "fff1" true false))
    (Some (mkDevice "AA:BB" (Some "OBDII")))
    true false false true [].

(** A hook before any connection. *)
Definition idle : World adapter :=
  mkWorld ("" : Dev adapter) true None None false false false false [].

End Behaviour.

Definition PROMPT : string := CR ++ CR ++ ">".

(** Replies with the echo still on, as after a reset. *)
Definition echoing (commandWithCR : string) : string :=
  if (commandWithCR =? "010C" ++ CR)%string then "010C" ++ CR ++ "41 0C 1A F8 " ++ PROMPT
  else if (commandWithCR =? "010D" ++ CR)%string then "010D" ++ CR ++ "41 0D 00 " ++ PROMPT
  else commandWithCR ++ "OK" ++ PROMPT.

Definition noData (commandWithCR : string) : string := "NO DATA" ++ PROMPT.

(** Engine idling at 750 rpm, vehicle at rest. *)
Definition idling (commandWithCR : string) : string :=
  if (commandWithCR =? "010C" ++ CR)%string then "41 0C 0B B8 " ++ PROMPT
  else if (commandWithCR =? "010D" ++ CR)%string then "41 0D 00 " ++ PROMPT
  else "NO DATA" ++ PROMPT.


(** Ignition on, engine stopped. *)
Definition stopped (commandWithCR : string) : string :=
  if (commandWithCR =? "010C" ++ CR)%string then "41 0C 00 00 " ++ PROMPT
  else if (commandWithCR =? "010D" ++ CR)%string then "41 0D 00 " ++ PROMPT
  else "NO DATA" ++ PROMPT.

Definition never (commandWithCR : string) : bool := false.

(** The write of the reset command is refused. *)
Definition refusesReset (commandWithCR : string) : bool :=
  (commandWithCR =? "ATZ" ++ CR)%string.

End Elm.

(* ================================================================== *)
(** * Vocabulary of the statements *)
(* ================================================================== *)

(** Every character of [s] is in [[0-9A-F]]. *)
Fixpoint allHex (s : string) : bool :=
  match s with
  | EmptyString => true
  | String c r => isHexDigit c && allHex r
  end.

(** [needle] occurs somewhere in [s]. *)
Fixpoint occurs (needle s : string) : bool :=
  prefix needle s
  || match s with
     | EmptyString => false
     | String _ r => occurs needle r
     end.

(** The number of hexadecimal digits [parseOBDResponse] asks for after the
    marker, for the PIDs it knows. *)
Definition requiredDigits (pid : string) : option nat :=
  if (pid =? "0C")%string then Some 4%nat
  else if (pid =? "0D")%string || (pid =? "05")%string
          || (pid =? "0A")%string || (pid =? "04")%string then Some 2%nat
  else None.

(** Every byte of a text has its top bit clear. *)
Fixpoint sevenBit (s : string) : bool :=
  match s with
  | EmptyString => true
  | String c r => (N_of_ascii c <? 128)%N && sevenBit r
  end.

(** The pieces a call still has to run. *)
Definition pieces (c : Call) : nat :=
  match c with
  | Called _ => 2
  | Waiting => 1
  | Settled _ => 0
  end.

(** The call has not thrown. *)
Definition unrejected (c : Call) : Prop :=
  match c with
  | Settled (Throw _) => False
  | _ => True
  end.

(** How often the schedule runs the call [b]. *)
Definition turns (b : bool) (schedule : list bool) : nat :=
  List.length (filter (Bool.eqb b) schedule).

(** Both refs of the hook are set. *)
Definition active {A} (w : World A) : Prop :=
  characteristicRef w <> None /\ connectedDeviceRef w <> None.

(** What one guarded read contributes: [f] of the response, or the data as
    they were when the command threw. *)
Definition attempt {T} (r : result string) (f : string -> T) (data : T) : T :=
  match r with
  | Ok response => f response
  | Throw _ => data
  end.

(** The reply failed to give a value for the PID: the command threw, or the
    decoder returned [null]. *)
Definition undecoded (pid : string) (r : result string) : Prop :=
  match r with
  | Ok response => parseOBDResponse pid response = None
  | Throw _ => True
  end.

(** The four exchanges of a polling cycle that starts in [w], each in the
    world the one before left behind. *)
Definition rpmExchange {A} (w : World A) :=
  sendOBDCommand OBD_PIDS.ENGINE_RPM w.
Definition speedExchange {A} (w : World A) :=
  sendOBDCommand OBD_PIDS.VEHICLE_SPEED (fst (rpmExchange w)).
Definition tempExchange {A} (w : World A) :=
  sendOBDCommand OBD_PIDS.COOLANT_TEMP (fst (speedExchange w)).
Definition loadExchange {A} (w : World A) :=
  sendOBDCommand OBD_PIDS.ENGINE_LOAD (fst (tempExchange w)).

(** [w'] is [w] but for the state of the adapter. *)
Definition sameHook {A} (w w' : World A) : Prop :=
  exists d, w' = withAdapter d w.

(** The hook at the moment [connectToDevice] starts the handshake, having
    found the writable characteristic [target]. *)
Definition reportedConnected {A} (target : Characteristic) (device : Device)
    (w : World A) : World A :=
  mkWorld (adapter w) (bleManagerRef w) (Some target) (Some device)
    (dataPollingRef w) false false true
    (events w ++ [SetIsConnecting true; StopDeviceScan; SetIsScanning false;
                  SetIsConnected true; SetIsConnecting false;
                  OnConnectionChange true]).

Section CycleData.

Context {A : Adapter}.
Variable w : World A.
Variables random1 random2 : Q.

(** The data after each of the four guarded reads of a cycle that starts in
    [w]. *)
Definition afterRpm : Partial.t :=
  attempt (snd (rpmExchange w))
    (fun response =>
       match parseOBDResponse "0C" response with
       | Some rpm =>
           if gt0 rpm then Partial.set_rpm (Math_round rpm) Partial.empty
           else Partial.empty
       | None => Partial.empty
       end)
    Partial.empty.

Definition afterSpeed : Partial.t :=
  attempt (snd (speedExchange w))
    (fun response =>
       match parseOBDResponse "0D" response with
       | Some speed =>
           if ge0 speed then Partial.set_speed (Math_round speed) afterRpm
           else afterRpm
       | None => afterRpm
       end)
    afterRpm.

Definition afterTemp : Partial.t :=
  attempt (snd (tempExchange w))
    (fun response =>
       match parseOBDResponse "05" response with
       | Some temp => Partial.set_coolantTemp (Math_round temp) afterSpeed
       | None => afterSpeed
       end)
    afterSpeed.

Definition afterLoad : Partial.t :=
  attempt (snd (loadExchange w))
    (fun response =>
       match parseOBDResponse "04" response with
       | Some load =>
           if ge0 load then Partial.set_engineLoad (Math_round load) afterTemp
           else afterTemp
       | None => afterTemp
       end)
    afterTemp.

(** The data a cycle returns. *)
Definition cycleData : Partial.t :=
  Partial.set_fuelPressure
    (add (ofZ 35) (Math_floor (mul (Num random2) (ofZ 10))))
    (Partial.set_voltage (add (ofZ 12) (mul (Num random1) (ofZ 2))) afterLoad).

End CycleData.

(* ================================================================== *)
(** * The rest of the hook: scanning, permissions, disconnecting, codes *)
(* ================================================================== *)

(** ** Scanning *)

Definition ELM327_NAMES : list string :=
  ["OBDII"; "ELM327"; "OBD-II"; "V-LINK"; "KONNWEI"; "VEEPEAK"; "BAFX"].

(** The device object the BLE library hands to the scan listener.  Names
    are strings of 8-bit code units, as everywhere in this file. *)
Record Peripheral : Type := mkPeripheral {
  peripheralId : string;
  peripheralName : option string;
  peripheralRssi : option Z
}.

(** An entry of [availableDevices]: a [Device] with its [rssi]. *)
Record Found : Type := mkFound {
  found : Device;
  rssi : option Z
}.

(** [ELM327_NAMES.some(name => deviceName.includes(name))], [deviceName]
    being the upper-cased name. *)
Definition isOBDDevice (deviceName : string) : bool :=
  existsb (fun name => occurs name deviceName) ELM327_NAMES.

(** The updater the scan listener passes to [setAvailableDevices] for a
    device whose name marks an adapter. *)
Definition addDevice (device : Peripheral) (prev : list Found) : list Found :=
  match find (fun d => (id (found d) =? peripheralId device)%string) prev with
  | Some _ => prev
  | None =>
      (prev ++ [mkFound (mkDevice (peripheralId device) (peripheralName device))
                  (peripheralRssi device)])%list
  end.

(** The refs and state the claims' functions do not touch, beside the ones
    they do. *)
Record Session (A : Adapter) : Type := mkSession {
  hook : World A;
  scanTimeoutRef : bool;
  availableDevices : list Found
}.
Arguments mkSession {A}.
Arguments hook {A}.
Arguments scanTimeoutRef {A}.
Arguments availableDevices {A}.

(** A function of the hook run inside the session. *)
Definition onHook {A T} (m : M A T) (s : Session A) : Session A * result T :=
  let (w, r) := m (hook s) in
  (mkSession w (scanTimeoutRef s) (availableDevices s), r).

(** One call of the listener given to [startDeviceScan]: [error] is the
    message of the error it reports, if any. *)
Definition scanListener {A} (error : option string) (device : option Peripheral)
    (s : Session A) : Session A :=
  match error with
  | Some message =>
      fst (onHook (setIsScanning false ;;;
                   emit (OnError ("Scan failed: " ++ message))) s)
  | None =>
      match device with
      | Some d =>
          match peripheralName d with
          | Some name =>
              if negb (name =? "")%string && isOBDDevice (toUpperCase name)
              then mkSession (hook s) (scanTimeoutRef s)
                     (addDevice d (availableDevices s))
              else s
          | None => s
          end
      | None => s
      end
  end.

(** The callback of the 15-second timer that ends the scan. *)
Definition scanTimeout {A} (s : Session A) : Session A :=
  if bleManagerRef (hook s)
  then fst (onHook (emit StopDeviceScan ;;; setIsScanning false) s)
  else s.

(** ** Permissions *)

Inductive Platform : Type :=
| web
| ios
| android (version : Z).

Definition ACCESS_FINE_LOCATION := "android.permission.ACCESS_FINE_LOCATION".
Definition GRANTED := "granted".

(** The permissions [requestBluetoothPermissions] asks for on Android. *)
Definition androidPermissions (version : Z) : list string :=
  if (31 <=? version)%Z
  then [ACCESS_FINE_LOCATION; "android.permission.BLUETOOTH_SCAN";
        "android.permission.BLUETOOTH_CONNECT"]
  else [ACCESS_FINE_LOCATION].

(** [requestBluetoothPermissions()].  [requestMultiple] is the answer of
    [PermissionsAndroid.requestMultiple]: the statuses it returns, permission
    by permission, or the error it throws. *)
Definition requestBluetoothPermissions {A} (platform : Platform)
    (requestMultiple : list string -> result (list (string * string))) : M A bool :=
  match platform with
  | web =>
      emit (OnError "Bluetooth is not supported on web platform") ;;; ret false
  | android version =>
      tryCatch
        (granted <- await (requestMultiple (androidPermissions version)) ;;
         let allGranted :=
           forallb (fun permission => (snd permission =? GRANTED)%string) granted in
         if negb allGranted
         then emit (OnError "Bluetooth permissions are required to connect to OBD-II adapters")
              ;;; ret false
         else ret true)
        (fun _ => emit (OnError "Failed to request Bluetooth permissions") ;;; ret false)
  | ios => ret true
  end.

(** ** Disconnecting *)

Definition clearConnectedDeviceRef {A} : M A unit :=
  fun w =>
    (mkWorld (adapter w) (bleManagerRef w) (characteristicRef w) None
       (dataPollingRef w) (isScanning w) (isConnecting w) (isConnected w)
       (events w), Ok tt).

Definition clearCharacteristicRef {A} : M A unit :=
  fun w =>
    (mkWorld (adapter w) (bleManagerRef w) None (connectedDeviceRef w)
       (dataPollingRef w) (isScanning w) (isConnecting w) (isConnected w)
       (events w), Ok tt).

Definition clearDataPolling {A} : M A unit :=
  fun w =>
    (mkWorld (adapter w) (bleManagerRef w) (characteristicRef w)
       (connectedDeviceRef w) false (isScanning w) (isConnecting w)
       (isConnected w) (events w), Ok tt).

(** [disconnect()].  [cancelConnection] is the outcome of
    [connectedDevice.cancelConnection()]; whatever the body throws is logged
    by its [catch] and goes no further. *)
Definition disconnect {A} (cancelConnection : result unit) (s : Session A)
  : Session A :=
  let s1 := fst (onHook clearDataPolling s) in
  let s2 := mkSession (hook s1) false (availableDevices s1) in
  let s3 := if bleManagerRef (hook s2)
            then fst (onHook (emit StopDeviceScan) s2) else s2 in
  match (match connectedDeviceRef (hook s3) with
         | Some _ => cancelConnection
         | None => Ok tt
         end) with
  | Throw _ => s3
  | Ok _ =>
      let s4 := fst (onHook (clearConnectedDeviceRef ;;;
                             setIsConnected false ;;;
                             clearCharacteristicRef) s3) in
      let s5 := mkSession (hook s4) (scanTimeoutRef s4) [] in
      fst (onHook (emit (OnConnectionChange false)) s5)
  end.

(** The listener [initializeBleManager] gives to [onStateChange]. *)
Definition stateListener {A} (state : string) (cancelConnection : result unit)
    (s : Session A) : Session A :=
  if (state =? "PoweredOff")%string
  then disconnect cancelConnection
         (fst (onHook (emit (OnError "Bluetooth was turned off")) s))
  else s.

(** ** Starting a scan *)






(** ** Reading and clearing the stored codes *)

(** [readDTCCodes()].  The result is the argument of [onDTCReceived], [None]
    when the callback is not called. *)
Definition readDTCCodes {A} : M A (option (list DTCCode)) :=
  fun w =>
    match characteristicRef w with
    | None => (emit (OnError "No active OBD connection") ;;; ret None) w
    | Some _ =>
        tryCatch
          (response <- sendOBDCommand OBD_PIDS.READ_DTCS ;;
           ret (Some (parseDTCCodes response)))
          (fun _ => ret (Some [])) w
    end.

(** [clearDTCCodes()].  The result says whether the timer that reads the
    codes again three seconds later was set. *)
Definition clearDTCCodes {A} : M A bool :=
  fun w =>
    match characteristicRef w with
    | None => (emit (OnError "No active OBD connection") ;;; ret false) w
    | Some _ =>
        tryCatch
          (sendOBDCommand OBD_PIDS.CLEAR_DTCS ;;; ret true)
          (fun _ => emit (OnError "Failed to clear diagnostic codes") ;;; ret false) w
    end.

(** ** The list of codes on the screen ([src/app/(tabs)/data.tsx]) *)

Section Unique.

(** The merged array holds stored rows and received codes; both carry a
    [code]. *)
Variable T : Type.
Variable codeOf : T -> string.

(** [self.findIndex(c => c.code === k)], [None] for [-1]. *)
Fixpoint findIndex (k : string) (self : list T) : option nat :=
  match self with
  | [] => None
  | c :: rest =>
      if (codeOf c =? k)%string then Some 0%nat
      else option_map S (findIndex k rest)
  end.

(** [all.filter((code, index, self) => index === self.findIndex(...))],
    the elements from [index] on. *)
Fixpoint keepFirst (self : list T) (index : nat) (all : list T) : list T :=
  match all with
  | [] => []
  | c :: rest =>
      let tail := keepFirst self (S index) rest in
      match findIndex (codeOf c) self with
      | Some i => if (i =? index)%nat then c :: tail else tail
      | None => tail
      end
  end.

Definition uniqueDTCCodes (allDTCCodes : list T) : list T :=
  keepFirst allDTCCodes 0 allDTCCodes.

End Unique.

(** ** An adapter that keeps a record of what is written to it *)

(** Any adapter, with the list of the commands written to it so far (the
    refused ones included) beside its state. *)
Definition recording (A : Adapter) : Adapter :=
  mkAdapter (Dev A * list string)
    (fun s commandWithCR =>
       let (d, r) := writeWithResponse A (fst s) commandWithCR in
       ((d, (snd s ++ [commandWithCR])%list), r))
    (fun s => let (d, r) := read A (fst s) in ((d, snd s), r)).

Definition written {A} (w : World (recording A)) : list string :=
  snd (adapter w).

(** The five commands of the handshake, as they go over the link. *)
Definition handshake : list string :=
  ["ATZ" ++ CR; "ATE0" ++ CR; "ATL0" ++ CR; "ATS0" ++ CR; "ATSP0" ++ CR].

(** The four requests of a polling cycle. *)
Definition cycleRequests : list string :=
  ["010C" ++ CR; "010D" ++ CR; "0105" ++ CR; "0104" ++ CR].

(** ** Vocabulary of the further statements *)

(** Every character of a text is matched by [\s]. *)
Definition allWhitespace (s : string) : bool :=
  String.eqb (removeWhitespace s) EmptyString.

(** What a trouble code handed to [onDTCReceived] looks like. *)
Definition surfaced (d : DTCCode) : Prop :=
  code d <> "P0000"
  /\ (length (code d) = 5%nat \/ length (code d) = 6%nat)
  /\ (exists letter, In letter ["P"; "C"; "B"; "U"] /\ prefix letter (code d) = true)
  /\ description d = getDTCDescription (code d)
  /\ severity d = getDTCSeverity (code d).

(** A captured group is two bytes in upper-case hexadecimal. *)
Definition isGroup (g : string) : Prop :=
  exists F S, (0 <= F < 256)%Z /\ (0 <= S < 256)%Z /\ g = (hex2 F ++ hex2 S)%string.

(** Commands sent one after the other, up to the first that throws. *)
Fixpoint sendAll {A} (commands : list string) : M A unit :=
  match commands with
  | [] => ret tt
  | command :: rest => sendOBDCommand command ;;; sendAll rest
  end.

Definition withCR (command : string) : string := command ++ CR.

(** The hook after the exchanges of [commands], made one after the other. *)
Fixpoint exchanged {A} (commands : list string) (w : World A) : World A :=
  match commands with
  | [] => w
  | command :: rest => exchanged rest (fst (sendOBDCommand command w))
  end.

(** Every exchange of [commands], made one after the other, returns. *)
Fixpoint allReturn {A} (commands : list string) (w : World A) : bool :=
  match commands with
  | [] => true
  | command :: rest =>
      match snd (sendOBDCommand command w) with
      | Ok _ => allReturn rest (fst (sendOBDCommand command w))
      | Throw _ => false
      end
  end.

(** An adapter that refuses the third command of the handshake. *)
Definition refusesLineFeedsOff (commandWithCR : string) : bool :=
  (commandWithCR =? "ATL0" ++ CR)%string.

(** A connected hook talking to the example adapter, the link recorded. *)
Definition recordedElm (refuses : string -> bool) (answer : string -> string)
  : World (recording (Elm.adapter refuses answer)) :=
  mkWorld (("", []) : Dev (recording (Elm.adapter refuses answer))) true
    (Some (mkCharacteristic "fff1" true false))
    (Some (mkDevice "AA:BB" (Some "OBDII")))
    false false false true [].

(** The field is absent, or holds a whole number between [lo] and [hi]. *)
Definition wholeWithin (lo hi : Z) (o : option number) : Prop :=
  o = None \/ exists n, o = Some (ofZ n) /\ (lo <= n <= hi)%Z.

(** The test of the inner loop of [connectToDevice]. *)
Definition writable (char : Characteristic) : bool :=
  isWritableWithResponse char || isWritableWithoutResponse char.

(** The service answered, and none of its characteristics is writable. *)
Definition unusable (service : result (list Characteristic)) : Prop :=
  exists characteristics,
    service = Ok characteristics /\ Forall (fun c => writable c = false) characteristics.

(** The error that ends a connection attempt before a characteristic is
    chosen, if there is one. *)
Definition linkFailure (ble : BleAnswers) : option string :=
  match connectResult ble with
  | Throw e => Some e
  | Ok _ =>
      match discoverResult ble with
      | Throw e => Some e
      | Ok _ =>
          match servicesResult ble with
          | Throw e => Some e
          | Ok services =>
              match findTarget services with
              | Throw e => Some e
              | Ok None =>
                  Some "Error: No writable characteristic found for OBD communication"
              | Ok (Some _) => None
              end
          end
      end
  end.

(** The characteristic a connection attempt chooses, if it gets that far. *)
Definition linkTarget (ble : BleAnswers) : option Characteristic :=
  match connectResult ble, discoverResult ble, servicesResult ble with
  | Ok _, Ok _, Ok services =>
      match findTarget services with
      | Ok (Some target) => Some target
      | _ => None
      end
  | _, _, _ => None
  end.

(** No [onError] in a trace. *)
Definition noError (trace : list Event) : Prop :=
  forall error, ~ In (OnError error) trace.

(** What [disconnect] adds to the trace when it runs to its end. *)
Definition disconnectTrace (bleManager : bool) : list Event :=
  ((if bleManager then [StopDeviceScan] else [])
   ++ [SetIsConnected false; OnConnectionChange false])%list.

(** The listener calls of a scan, in the order they arrive. *)
Fixpoint scanAll {A} (calls : list (option string * option Peripheral))
    (s : Session A) : Session A :=
  match calls with
  | [] => s
  | (error, device) :: rest => scanAll rest (scanListener error device s)
  end.

(** An entry of the device list has a name that marks an adapter. *)
Definition namedAdapter (d : Found) : Prop :=
  exists deviceName,
    name (found d) = Some deviceName
    /\ deviceName <> EmptyString
    /\ isOBDDevice (toUpperCase deviceName) = true.

Definition foundIds (devices : list Found) : list string :=
  map (fun d => id (found d)) devices.

(** The permissions are in hand: never on the web, always on iOS, on Android
    when the request returns and every status it returns is [granted]. *)
Definition permitted (platform : Platform)
    (requestMultiple : list string -> result (list (string * string))) : bool :=
  match platform with
  | web => false
  | ios => true
  | android version =>
      match requestMultiple (androidPermissions version) with
      | Ok granted => forallb (fun p => (snd p =? GRANTED)%string) granted
      | Throw _ => false
      end
  end.



(* ================================================================== *)
(** * Facts about the primitives *)
(* ================================================================== *)

Lemma append_assoc (a b c : string) : ((a ++ b) ++ c = a ++ (b ++ c))%string.
Proof. induction a as [|x a IH]; simpl; [reflexivity | now rewrite IH]. Qed.

Lemma append_length (a b : string) : length (a ++ b) = (length a + length b)%nat.
Proof. induction a as [|x a IH]; simpl; [reflexivity | now rewrite IH]. Qed.

Lemma isHexDigit_hexVal (c : ascii) :
  isHexDigit c = true -> exists v, hexVal c = Some v /\ (0 <= v < 16)%Z.
Proof.
  destruct c as [[] [] [] [] [] [] [] []]; vm_compute; intros H;
    try discriminate H;
    (eexists; split; [reflexivity | split; [intros E; discriminate E | reflexivity]]).
Qed.

Lemma hexVal_hexChar (d : Z) : (0 <= d < 16)%Z -> hexVal (hexChar d) = Some d.
Proof.
  intros H.
  assert (E : exists n : nat, (n < 16)%nat /\ d = Z.of_nat n).
  { exists (Z.to_nat d). split; lia. }
  destruct E as [n [Hn ->]].
  do 16 (destruct n as [|n]; [reflexivity|]). lia.
Qed.

Lemma isHexDigit_hexChar (d : Z) : (0 <= d < 16)%Z -> isHexDigit (hexChar d) = true.
Proof.
  intros H.
  assert (E : exists n : nat, (n < 16)%nat /\ d = Z.of_nat n).
  { exists (Z.to_nat d). split; lia. }
  destruct E as [n [Hn ->]].
  do 16 (destruct n as [|n]; [reflexivity|]). lia.
Qed.

Lemma substr_two (a b : ascii) (r : string) :
  substr (String a (String b r)) 0 2 = String a (String b EmptyString).
Proof. unfold substr. simpl. now destruct r. Qed.

Lemma parseInt16_two (a b : ascii) (va vb : Z) :
  hexVal a = Some va -> hexVal b = Some vb ->
  parseInt16 (String a (String b EmptyString)) = Some (16 * va + vb)%Z.
Proof.
  intros Ha Hb. unfold parseInt16. simpl. rewrite Ha, Hb. f_equal; lia.
Qed.

Lemma parseInt16_hex2 (n : Z) : (0 <= n < 256)%Z -> parseInt16 (hex2 n) = Some n.
Proof.
  intros H. unfold hex2.
  rewrite (parseInt16_two _ _ (n / 16) (n mod 16)).
  - f_equal. pose proof (Z.div_mod n 16). lia.
  - apply hexVal_hexChar. split; [apply Z.div_pos; lia | apply Z.div_lt_upper_bound; lia].
  - apply hexVal_hexChar. apply Z.mod_pos_bound. lia.
Qed.

Lemma allHex_hex2 (n : Z) : (0 <= n < 256)%Z -> allHex (hex2 n) = true.
Proof.
  intros H. unfold hex2. simpl.
  rewrite !isHexDigit_hexChar; [reflexivity | |].
  - apply Z.mod_pos_bound. lia.
  - split; [apply Z.div_pos; lia | apply Z.div_lt_upper_bound; lia].
Qed.

Lemma allHex_app (a b : string) : allHex (a ++ b) = allHex a && allHex b.
Proof.
  induction a as [|x a IH]; simpl; [reflexivity|].
  rewrite IH. now rewrite andb_assoc.
Qed.

(** ** The greedy run of hexadecimal digits *)

Lemma takeHex_allHex (s : string) : allHex (takeHex s) = true.
Proof.
  induction s as [|c s IH]; simpl; [reflexivity|].
  destruct (isHexDigit c) eqn:E; simpl; [now rewrite E | reflexivity].
Qed.

Lemma takeHex_prefix (s : string) : exists rest, s = (takeHex s ++ rest)%string.
Proof.
  induction s as [|c s [rest IH]]; simpl.
  - now exists EmptyString.
  - destruct (isHexDigit c).
    + exists rest. simpl. now rewrite <- IH.
    + now exists (String c s).
Qed.

Lemma takeHex_app (d s : string) :
  allHex d = true -> takeHex (d ++ s) = (d ++ takeHex s)%string.
Proof.
  induction d as [|c d IH]; simpl; [reflexivity|].
  intros H. apply andb_true_iff in H as [Hc Hd].
  rewrite Hc. now rewrite IH.
Qed.

(** ** The match of the response pattern *)

Lemma matchPidAt_sound (s d : string) :
  matchPidAt s = Some d ->
  exists x y rest,
    s = String "4" (String "1" (String x (String y (d ++ rest)))) /\
    isHexDigit x = true /\ isHexDigit y = true /\
    allHex d = true /\ d <> EmptyString.
Proof.
  destruct s as [|c1 [|c2 [|x [|y rest]]]]; simpl; try discriminate.
  destruct (Ascii.eqb c1 "4") eqn:E1; simpl; [|discriminate].
  destruct (Ascii.eqb c2 "1") eqn:E2; simpl; [|discriminate].
  destruct (isHexDigit x) eqn:Ex; simpl; [|discriminate].
  destruct (isHexDigit y) eqn:Ey; simpl; [|discriminate].
  apply Ascii.eqb_eq in E1, E2. subst c1 c2.
  pose proof (takeHex_allHex rest) as Hall.
  destruct (takeHex_prefix rest) as [tl Htl].
  destruct (takeHex rest) as [|h t] eqn:Et; [discriminate|].
  intros H. injection H as <-.
  exists x, y, tl. repeat split; try assumption.
  - now rewrite <- Htl.
  - discriminate.
Qed.

Lemma matchPid_sound (s d : string) :
  matchPid s = Some d ->
  exists pre x y rest,
    s = (pre ++ String "4" (String "1" (String x (String y (d ++ rest)))))%string /\
    isHexDigit x = true /\ isHexDigit y = true /\
    allHex d = true /\ d <> EmptyString.
Proof.
  induction s as [|c s IH].
  - simpl. discriminate.
  - intros H.
    change (matchPid (String c s))
      with (match matchPidAt (String c s) with
            | Some dataBytes => Some dataBytes
            | None => matchPid s
            end) in H.
    destruct (matchPidAt (String c s)) as [d'|] eqn:E.
    + injection H as ->.
      destruct (matchPidAt_sound _ _ E) as (x & y & rest & Hs & Hx & Hy & Hd & Hne).
      exists EmptyString, x, y, rest. now repeat split.
    + destruct (IH H) as (pre & x & y & rest & Hs & Hx & Hy & Hd & Hne).
      exists (String c pre), x, y, rest. simpl. rewrite Hs. now repeat split.
Qed.

Lemma matchPidAt_other (c : ascii) (s : string) :
  Ascii.eqb c "4" = false -> matchPidAt (String c s) = None.
Proof.
  intros H. destruct s as [|c2 [|x [|y rest]]]; simpl; try reflexivity.
  now rewrite H.
Qed.

(** A prefix without the character [4] holds no match. *)
Lemma matchPid_skip (pre s : string) :
  occurs "4" pre = false -> matchPid (pre ++ s) = matchPid s.
Proof.
  induction pre as [|c pre IH]; [reflexivity|].
  intros H. simpl in H.
  apply orb_false_iff in H as [H1 H2].
  assert (Hc : Ascii.eqb c "4" = false).
  { destruct (Ascii.eqb c "4") eqn:E; [|reflexivity].
    apply Ascii.eqb_eq in E. subst c. simpl in H1.
    destruct pre; discriminate H1. }
  change (matchPid (String c pre ++ s))
    with (match matchPidAt (String c (pre ++ s)) with
          | Some dataBytes => Some dataBytes
          | None => matchPid (pre ++ s)
          end).
  rewrite (matchPidAt_other _ _ Hc). now apply IH.
Qed.

Lemma matchPid_marker (x y : ascii) (d s : string) :
  isHexDigit x = true -> isHexDigit y = true ->
  allHex d = true -> d <> EmptyString ->
  matchPid (String "4" (String "1" (String x (String y (d ++ s)))))
  = Some (d ++ takeHex s)%string.
Proof.
  intros Hx Hy Hd Hne.
  cbn [matchPid matchPidAt]. rewrite Hx, Hy. cbn [Ascii.eqb Bool.eqb andb].
  rewrite (takeHex_app _ _ Hd).
  destruct d as [|h t]; [contradiction|]. reflexivity.
Qed.

(** A piece of two characters read out of a run of hexadecimal digits is a
    byte. *)
Lemma byteAt_numeric (d : string) (start : nat) :
  allHex d = true -> (start + 2 <= length d)%nat ->
  exists z, byteAt d start = ofZ z /\ (0 <= z < 256)%Z.
Proof.
  revert d. induction start as [|n IH]; intros d Hd Hlen.
  - destruct d as [|a [|b r]]; simpl in Hlen; try lia.
    simpl in Hd. apply andb_true_iff in Hd as [Ha Hd].
    apply andb_true_iff in Hd as [Hb _].
    destruct (isHexDigit_hexVal _ Ha) as (va & Eva & Hva).
    destruct (isHexDigit_hexVal _ Hb) as (vb & Evb & Hvb).
    exists (16 * va + vb)%Z. split; [|lia].
    unfold byteAt. rewrite substr_two.
    now rewrite (parseInt16_two _ _ _ _ Eva Evb).
  - destruct d as [|a r]; simpl in Hlen; [lia|].
    simpl in Hd. apply andb_true_iff in Hd as [_ Hd].
    destruct (IH r Hd ltac:(lia)) as (z & Ez & Hz).
    exists z. split; [|exact Hz]. exact Ez.
Qed.

(* ================================================================== *)
(** * The PID decoder *)
(* ================================================================== *)

Lemma substr_second (a b c d : ascii) (r : string) :
  substr (String a (String b (String c (String d r)))) 2 2
  = String c (String d EmptyString).
Proof. unfold substr. simpl. now destruct r. Qed.

(** What [parseOBDResponse] computes from the captured digits. *)
Lemma parseOBDResponse_matched (pid response dataBytes : string) :
  matchPid (cleanResponse response) = Some dataBytes ->
  allHex dataBytes = true ->
  forall n, requiredDigits pid = Some n ->
  if (n <=? length dataBytes)%nat
  then exists q, parseOBDResponse pid response = Some (Num q)
  else parseOBDResponse pid response = None.
Proof.
  intros Hm Hhex n Hn. unfold parseOBDResponse. rewrite Hm.
  unfold requiredDigits in Hn.
  destruct (pid =? "0C")%string.
  { injection Hn as <-.
    destruct (4 <=? length dataBytes)%nat eqn:L; [|reflexivity].
    apply Nat.leb_le in L.
    destruct (byteAt_numeric dataBytes 0 Hhex ltac:(lia)) as (a & -> & _).
    destruct (byteAt_numeric dataBytes 2 Hhex ltac:(lia)) as (b & -> & _).
    eexists. reflexivity. }
  destruct (pid =? "0D")%string.
  { injection Hn as <-.
    destruct (2 <=? length dataBytes)%nat eqn:L; [|reflexivity].
    apply Nat.leb_le in L.
    destruct (byteAt_numeric dataBytes 0 Hhex ltac:(lia)) as (a & -> & _).
    eexists. reflexivity. }
  destruct (pid =? "05")%string.
  { injection Hn as <-.
    destruct (2 <=? length dataBytes)%nat eqn:L; [|reflexivity].
    apply Nat.leb_le in L.
    destruct (byteAt_numeric dataBytes 0 Hhex ltac:(lia)) as (a & -> & _).
    eexists. reflexivity. }
  destruct (pid =? "0A")%string.
  { injection Hn as <-.
    destruct (2 <=? length dataBytes)%nat eqn:L; [|reflexivity].
    apply Nat.leb_le in L.
    destruct (byteAt_numeric dataBytes 0 Hhex ltac:(lia)) as (a & -> & _).
    eexists. reflexivity. }
  destruct (pid =? "04")%string.
  { injection Hn as <-.
    destruct (2 <=? length dataBytes)%nat eqn:L; [|reflexivity].
    apply Nat.leb_le in L.
    destruct (byteAt_numeric dataBytes 0 Hhex ltac:(lia)) as (a & -> & _).
    eexists. reflexivity. }
  discriminate Hn.
Qed.

Lemma parseOBDResponse_unknown (pid response : string) :
  requiredDigits pid = None -> parseOBDResponse pid response = None.
Proof.
  unfold requiredDigits, parseOBDResponse. intros H.
  destruct (matchPid (cleanResponse response)); [|reflexivity].
  destruct (pid =? "0C")%string; [discriminate|].
  destruct (pid =? "0D")%string; [discriminate|].
  destruct (pid =? "05")%string; [discriminate|].
  destruct (pid =? "0A")%string; [discriminate|].
  destruct (pid =? "04")%string; [discriminate|].
  reflexivity.
Qed.

(** A value of [parseOBDResponse] comes with a marker in the normalised
    response: [41], any two hexadecimal digits, and at least the digits the
    PID needs. *)
Lemma parseOBDResponse_sound (pid response : string) (v : number) :
  parseOBDResponse pid response = Some v ->
  (exists q, v = Num q) /\
  exists n pre x y data rest,
    requiredDigits pid = Some n /\
    cleanResponse response
    = (pre ++ String "4" (String "1" (String x (String y (data ++ rest)))))%string /\
    isHexDigit x = true /\ isHexDigit y = true /\
    allHex data = true /\ (n <= length data)%nat.
Proof.
  intros H.
  destruct (requiredDigits pid) as [n|] eqn:Hn.
  2:{ rewrite (parseOBDResponse_unknown _ _ Hn) in H. discriminate. }
  destruct (matchPid (cleanResponse response)) as [d|] eqn:Hm.
  2:{ unfold parseOBDResponse in H. rewrite Hm in H. discriminate. }
  destruct (matchPid_sound _ _ Hm) as (pre & x & y & rest & Hs & Hx & Hy & Hd & _).
  pose proof (parseOBDResponse_matched pid response d Hm Hd n Hn) as P.
  destruct (n <=? length d)%nat eqn:L.
  - destruct P as [q Hq]. rewrite Hq in H. injection H as <-.
    split; [now exists q|].
    exists n, pre, x, y, d, rest. apply Nat.leb_le in L. now repeat split.
  - rewrite P in H. discriminate.
Qed.

(** C4, as the code has it.  [parseOBDResponse] is a total function (it
    never raises).  It returns a value only when the normalised response
    contains [41], two hexadecimal digits of any value (the echo of the PID
    is not compared with the PID asked for) and at least the number of data
    digits the PID needs; the value is then a number, never [NaN].  It
    returns [null] when no such marker occurs, which covers an absent marker,
    too few data digits and an unknown PID.  When the leftmost [41] of the
    response starts such a marker, a number is returned. *)
Theorem parseOBDResponse_marker (pid response : string) :
  (forall v, parseOBDResponse pid response = Some v ->
     (exists q, v = Num q) /\
     exists n pre x y data rest,
       requiredDigits pid = Some n /\
       cleanResponse response
       = (pre ++ String "4" (String "1" (String x (String y (data ++ rest)))))%string /\
       isHexDigit x = true /\ isHexDigit y = true /\
       allHex data = true /\ (n <= length data)%nat)
  /\
  ((forall n pre x y data rest,
       requiredDigits pid = Some n ->
       isHexDigit x = true -> isHexDigit y = true ->
       allHex data = true -> (n <= length data)%nat ->
       cleanResponse response
       <> (pre ++ String "4" (String "1" (String x (String y (data ++ rest)))))%string) ->
   parseOBDResponse pid response = None)
  /\
  (forall n pre x y data rest,
     requiredDigits pid = Some n ->
     occurs "4" pre = false ->
     isHexDigit x = true -> isHexDigit y = true ->
     allHex data = true -> (n <= length data)%nat ->
     cleanResponse response
     = (pre ++ String "4" (String "1" (String x (String y (data ++ rest)))))%string ->
     exists q, parseOBDResponse pid response = Some (Num q)).
Proof.
  split; [|split].
  - intros v H. exact (parseOBDResponse_sound pid response v H).
  - intros Habsent.
    destruct (parseOBDResponse pid response) as [v|] eqn:H; [|reflexivity].
    destruct (parseOBDResponse_sound pid response v H)
      as (_ & n & pre & x & y & data & rest & Hn & Hs & Hx & Hy & Hd & Hl).
    now elim (Habsent n pre x y data rest).
  - intros n pre x y data rest Hn Hpre Hx Hy Hd Hl Hs.
    assert (Hne : data <> EmptyString).
    { intros ->. simpl in Hl. unfold requiredDigits in Hn.
      destruct (pid =? "0C")%string; [injection Hn as <-; lia|].
      destruct ((pid =? "0D")%string || (pid =? "05")%string
                || (pid =? "0A")%string || (pid =? "04")%string);
        [injection Hn as <-; lia | discriminate]. }
    assert (Hm : matchPid (cleanResponse response) = Some (data ++ takeHex rest)%string).
    { rewrite Hs, (matchPid_skip _ _ Hpre). now apply matchPid_marker. }
    assert (Hall : allHex (data ++ takeHex rest) = true).
    { now rewrite allHex_app, Hd, takeHex_allHex. }
    pose proof (parseOBDResponse_matched pid response _ Hm Hall n Hn) as P.
    assert (L : (n <=? length (data ++ takeHex rest))%nat = true).
    { apply Nat.leb_le. rewrite append_length. lia. }
    now rewrite L in P.
Qed.

(** C4, witness: a speed reply with its marker in front. *)
Lemma parseOBDResponse_marker_witness :
  exists q, parseOBDResponse "0D" "41 0D 3C" = Some (Num q).
Proof.
  apply (proj2 (proj2 (parseOBDResponse_marker "0D" "41 0D 3C"))
           2%nat EmptyString "0"%char "D"%char "3C" EmptyString);
    reflexivity || (simpl; lia).
Defined.

(** C4, as stated, fails: asked for the engine speed (PID 0C), the decoder
    takes a reply that echoes PID 0D for it, although the marker [41 0C]
    occurs nowhere in the response. *)
Lemma parseOBDResponse_ignores_pid_echo :
  parseOBDResponse "0C" "41 0D 1A F8" = Some (Num (6904 # 4))
  /\ occurs "410C" (cleanResponse "41 0D 1A F8") = false.
Proof. split; vm_compute; reflexivity. Qed.

(** C9.  For an engine-speed reply whose normalised text has the marker
    [41 0C] (with no [4] before it) followed by the data bytes [A] and [B],
    the decoder returns [((A*256)+B)/4]. *)
Theorem parseOBDResponse_rpm (A B : Z) (response pre rest : string) :
  (0 <= A < 256)%Z -> (0 <= B < 256)%Z ->
  occurs "4" pre = false ->
  cleanResponse response = (pre ++ "410C" ++ hex2 A ++ hex2 B ++ rest)%string ->
  parseOBDResponse "0C" response
  = Some (Num ((inject_Z A * 256 + inject_Z B) / 4)).
Proof.
  intros HA HB Hpre Hs.
  assert (Hm : matchPid (cleanResponse response)
               = Some ((hex2 A ++ hex2 B) ++ takeHex rest)%string).
  { rewrite Hs, (matchPid_skip _ _ Hpre).
    change ("410C" ++ hex2 A ++ hex2 B ++ rest)%string
      with (String "4" (String "1" (String "0" (String "C"
              (hex2 A ++ hex2 B ++ rest)))))%string.
    rewrite <- append_assoc. apply matchPid_marker; try reflexivity.
    - now rewrite allHex_app, !allHex_hex2.
    - discriminate. }
  unfold parseOBDResponse. rewrite Hm.
  change ("0C" =? "0C")%string with true. cbv iota.
  change ((hex2 A ++ hex2 B) ++ takeHex rest)%string
    with (String (hexChar (A / 16)) (String (hexChar (A mod 16))
          (String (hexChar (B / 16)) (String (hexChar (B mod 16)) (takeHex rest))))).
  change (4 <=? length (String (hexChar (A / 16)) (String (hexChar (A mod 16))
          (String (hexChar (B / 16)) (String (hexChar (B mod 16)) (takeHex rest))))))%nat
    with true.
  cbv iota. unfold byteAt.
  rewrite substr_two, substr_second.
  change (String (hexChar (A / 16)) (String (hexChar (A mod 16)) EmptyString)) with (hex2 A).
  change (String (hexChar (B / 16)) (String (hexChar (B mod 16)) EmptyString)) with (hex2 B).
  rewrite (parseInt16_hex2 A HA), (parseInt16_hex2 B HB).
  reflexivity.
Qed.

(** C9, witness: the data bytes [1A F8] give 1726. *)
Lemma parseOBDResponse_rpm_witness :
  parseOBDResponse "0C" "41 0C 1A F8"
  = Some (Num ((inject_Z 26 * 256 + inject_Z 248) / 4))
  /\ ((inject_Z 26 * 256 + inject_Z 248) / 4 == 1726)%Q.
Proof.
  split.
  - apply (parseOBDResponse_rpm 26 248 "41 0C 1A F8" EmptyString EmptyString);
      [lia | lia | reflexivity | reflexivity].
  - reflexivity.
Defined.

(* ================================================================== *)
(** * The trouble-code parser *)
(* ================================================================== *)

Lemma prefix_empty (s : string) : prefix EmptyString s = true.
Proof. now destruct s. Qed.

Lemma dtcMatches_no_43 (s : string) : occurs "43" s = false -> dtcMatches s = [].
Proof.
  induction s as [|c1 r IH]; [reflexivity|].
  intros H. cbn [occurs] in H. apply orb_false_iff in H as [Hp Ho].
  specialize (IH Ho).
  destruct r as [|c2 [|a [|b [|c [|d rest]]]]]; try exact IH.
  cbn [dtcMatches].
  destruct (Ascii.eqb c1 "4") eqn:E1; [|exact IH].
  destruct (Ascii.eqb c2 "3") eqn:E2; [|exact IH].
  apply Ascii.eqb_eq in E1, E2. subst c1 c2.
  simpl in Hp. discriminate Hp.
Qed.

Lemma dtcMatches_group (a b c d : ascii) (rest : string) :
  allHex (String a (String b (String c (String d EmptyString)))) = true ->
  dtcMatches (String "4" (String "3" (String a (String b (String c (String d rest))))))
  = String a (String b (String c (String d EmptyString))) :: dtcMatches rest.
Proof.
  simpl. intros H.
  destruct (isHexDigit a); [|discriminate].
  destruct (isHexDigit b); [|discriminate].
  destruct (isHexDigit c); [|discriminate].
  destruct (isHexDigit d); [|discriminate].
  reflexivity.
Qed.

(** C7, as stated, fails: of the two groups [01 06] and [01 71] only the
    first is decoded, although the second is a code of its own. *)
Lemma parseDTCCodes_misses_second_group :
  map code (parseDTCCodes "43 01 06 01 71") = ["P0106"]
  /\ map code (surface "0171") = ["P0171"].
Proof. split; vm_compute; reflexivity. Qed.

(** ** One group *)

Lemma showInt_length (d : Z) :
  (0 <= d < 16)%Z ->
  length (showInt d) = if (d <? 10)%Z then 1%nat else 2%nat.
Proof.
  intros H.
  assert (E : exists n : nat, (n < 16)%nat /\ d = Z.of_nat n).
  { exists (Z.to_nat d). split; lia. }
  destruct E as [n [Hn ->]].
  do 16 (destruct n as [|n]; [reflexivity|]). lia.
Qed.

(** The string [convertHexToDTC] builds from a group of two bytes. *)
Lemma convertHexToDTC_group (F S : Z) :
  (0 <= F < 256)%Z -> (0 <= S < 256)%Z ->
  convertHexToDTC (hex2 F ++ hex2 S)
  = Some (nth (Z.to_nat (F / 64)) ["P"; "C"; "B"; "U"] "undefined"
          ++ showInt ((F mod 64) / 16) ++ showInt (F mod 16) ++ hex2 S)%string.
Proof.
  intros HF HS. unfold convertHexToDTC.
  change (hex2 F ++ hex2 S)%string
    with (String (hexChar (F / 16)) (String (hexChar (F mod 16))
          (String (hexChar (S / 16)) (String (hexChar (S mod 16)) EmptyString)))).
  rewrite substr_two, substr_second.
  change (String (hexChar (F / 16)) (String (hexChar (F mod 16)) EmptyString)) with (hex2 F).
  change (String (hexChar (S / 16)) (String (hexChar (S mod 16)) EmptyString)) with (hex2 S).
  rewrite (parseInt16_hex2 F HF), (parseInt16_hex2 S HS).
  cbn [option_map showNumber].
  assert (K : (Z.to_nat (F / 64) < 4)%nat).
  { assert (0 <= F / 64 < 4)%Z
      by (split; [apply Z.div_pos; lia | apply Z.div_lt_upper_bound; lia]).
    lia. }
  destruct (Z.to_nat (F / 64)) as [|[|[|[|k]]]]; try reflexivity. lia.
Qed.

Lemma convertHexToDTC_length (F S : Z) (dtcCode : string) :
  (0 <= F < 256)%Z -> (0 <= S < 256)%Z ->
  convertHexToDTC (hex2 F ++ hex2 S) = Some dtcCode ->
  length dtcCode = if (F mod 16 <? 10)%Z then 5%nat else 6%nat.
Proof.
  intros HF HS E. rewrite (convertHexToDTC_group F S HF HS) in E.
  injection E as <-.
  rewrite !append_length.
  assert (H4 : (0 <= (F mod 64) / 16 < 4)%Z).
  { pose proof (Z.mod_pos_bound F 64 ltac:(lia)).
    split; [apply Z.div_pos; lia | apply Z.div_lt_upper_bound; lia]. }
  rewrite (showInt_length ((F mod 64) / 16)) by lia.
  rewrite (showInt_length (F mod 16)) by (apply Z.mod_pos_bound; lia).
  replace ((F mod 64) / 16 <? 10)%Z with true by (symmetry; apply Z.ltb_lt; lia).
  assert (K : (Z.to_nat (F / 64) < 4)%nat).
  { assert (0 <= F / 64 < 4)%Z
      by (split; [apply Z.div_pos; lia | apply Z.div_lt_upper_bound; lia]).
    lia. }
  unfold hex2.
  destruct (Z.to_nat (F / 64)) as [|[|[|[|k]]]]; [| | | |lia];
    destruct (F mod 16 <? 10)%Z; reflexivity.
Qed.

(** C6 at the failing input: the group [0A 80], whose third digit is [A].
    The digit is written in decimal, [10], and the code has six characters,
    [P01080], where the five characters [P0A80] are due.  In general the
    code of a group is the category letter, [(F mod 64) div 16], [F mod 16]
    and the two hexadecimal digits of [S], the two numbers in decimal: five
    characters when [F mod 16] is below ten, six otherwise.  The group
    [01 06] gives [P0106], and the empty slot [00 00] is dropped. *)
Theorem convertHexToDTC_decimal_third_digit :
  convertHexToDTC "0A80" = Some "P01080"
  /\ map code (parseDTCCodes "43 0A 80") = ["P01080"]
  /\ (forall F S dtcCode,
        (0 <= F < 256)%Z -> (0 <= S < 256)%Z ->
        convertHexToDTC (hex2 F ++ hex2 S) = Some dtcCode ->
        dtcCode
        = (nth (Z.to_nat (F / 64)) ["P"; "C"; "B"; "U"] "undefined"
           ++ showInt ((F mod 64) / 16) ++ showInt (F mod 16) ++ hex2 S)%string
        /\ length dtcCode = if (F mod 16 <? 10)%Z then 5%nat else 6%nat)
  /\ map code (parseDTCCodes "43 01 06") = ["P0106"]
  /\ convertHexToDTC "0000" = Some "P0000"
  /\ parseDTCCodes "43 00 00" = [].
Proof.
  split; [vm_compute; reflexivity|].
  split; [vm_compute; reflexivity|].
  split.
  - intros F S dtcCode HF HS E. split.
    + rewrite (convertHexToDTC_group F S HF HS) in E. now injection E.
    + exact (convertHexToDTC_length F S dtcCode HF HS E).
  - repeat split; vm_compute; reflexivity.
Qed.

(* ================================================================== *)
(** * The command channel *)
(* ================================================================== *)

Lemma asciiSlice_sevenBit (s : string) : sevenBit s = true -> asciiSlice s = s.
Proof.
  induction s as [|c s IH]; simpl; [reflexivity|].
  intros H. apply andb_true_iff in H as [Hc Hs].
  rewrite (IH Hs). f_equal.
  destruct c as [[] [] [] [] [] [] [] []];
    try reflexivity; vm_compute in Hc; discriminate Hc.
Qed.

(** C8, as the code has it.  On an active connection whose write and read
    succeed, [sendOBDCommand] returns the text of the value read, decoded as
    ASCII and otherwise untouched: for a response of 7-bit characters the
    caller gets the raw response itself, echo and prompt included. *)
Theorem sendOBDCommand_returns_raw (A : Adapter) (w : World A) (command : string)
    (c : Characteristic) (dv : Device) (d1 d2 : Dev A) (value : option string) :
  characteristicRef w = Some c ->
  connectedDeviceRef w = Some dv ->
  writeWithResponse A (adapter w) (command ++ CR) = (d1, Ok tt) ->
  read A d1 = (d2, Ok value) ->
  sendOBDCommand command w
  = (withAdapter d2 w,
     Ok (asciiSlice (match value with Some v => v | None => "" end)))
  /\ (forall raw, value = Some raw -> sevenBit raw = true ->
      snd (sendOBDCommand command w) = Ok raw).
Proof.
  intros Hc Hd Hw Hr.
  assert (E : sendOBDCommand command w
              = (withAdapter d2 w,
                 Ok (asciiSlice (match value with Some v => v | None => "" end)))).
  { unfold sendOBDCommand, bind, sendWrite, sendRead.
    rewrite Hc, Hd, Hw. cbn. rewrite Hc, Hr. reflexivity. }
  split; [exact E|].
  intros raw -> H7. rewrite E. cbn. now rewrite (asciiSlice_sevenBit _ H7).
Qed.

(** C8, witness: the reply to [010C] of an adapter whose echo is on. *)
Lemma sendOBDCommand_returns_raw_witness :
  snd (sendOBDCommand "010C" (Elm.connected Elm.never Elm.echoing))
  = Ok ("010C" ++ CR ++ "41 0C 1A F8 " ++ Elm.PROMPT)%string.
Proof.
  refine (proj2 (sendOBDCommand_returns_raw (Elm.adapter Elm.never Elm.echoing)
                   (Elm.connected Elm.never Elm.echoing) "010C"
                   (mkCharacteristic "fff1" true false)
                   (mkDevice "AA:BB" (Some "OBDII"))
                   ("010C" ++ CR)%string
                   ("010C" ++ CR)%string
                   (Some ("010C" ++ CR ++ "41 0C 1A F8 " ++ Elm.PROMPT)%string)
                   eq_refl eq_refl eq_refl eq_refl) _ eq_refl eq_refl).
Defined.

(** C8, as stated, fails: the text [sendOBDCommand] returns still starts
    with the echoed command and still ends with the prompt [>]. *)
Lemma sendOBDCommand_keeps_echo_and_prompt :
  exists text,
    snd (sendOBDCommand "010C" (Elm.connected Elm.never Elm.echoing)) = Ok text
    /\ prefix ("010C" ++ CR) text = true
    /\ occurs ">" text = true.
Proof. eexists. repeat split. Qed.

(** ** Two calls in flight *)

Section Overlap.

Context {A : Adapter}.

(** The characteristic accepts every write and answers every read. *)
Hypothesis write_ok : forall d s, exists d', writeWithResponse A d s = (d', Ok tt).
Hypothesis read_ok : forall d, exists d' v, read A d = (d', Ok v).

Lemma stepCall_progress (c : Call) (w : World A) :
  active w -> unrejected c ->
  active (fst (stepCall c w))
  /\ unrejected (snd (stepCall c w))
  /\ pieces (snd (stepCall c w)) = Nat.pred (pieces c).
Proof.
  intros [Hc Hd] Hu.
  destruct c as [command| |r]; cbn [stepCall].
  - unfold sendWrite.
    destruct (characteristicRef w) as [ch|] eqn:Ec; [|contradiction].
    destruct (connectedDeviceRef w) as [dv|] eqn:Ed; [|contradiction].
    destruct (write_ok (adapter w) (command ++ CR)) as [d' ->].
    cbn. unfold active. cbn. rewrite Ec, Ed. repeat split; discriminate.
  - unfold sendRead.
    destruct (characteristicRef w) as [ch|] eqn:Ec; [|contradiction].
    destruct (read_ok (adapter w)) as (d' & v & ->).
    cbn. unfold active. cbn. rewrite Ec. repeat split; [discriminate | assumption].
  - cbn. repeat split; assumption.
Qed.

Lemma runCalls_settle (schedule : list bool) :
  forall (c1 c2 : Call) (w : World A),
    active w -> unrejected c1 -> unrejected c2 ->
    (pieces c1 <= turns false schedule)%nat ->
    (pieces c2 <= turns true schedule)%nat ->
    exists w' text1 text2,
      runCalls schedule c1 c2 w = (w', Settled (Ok text1), Settled (Ok text2)).
Proof.
  induction schedule as [|b schedule IH]; intros c1 c2 w Hw H1 H2 L1 L2.
  - cbn in L1, L2.
    destruct c1 as [?| |[t1|?]]; cbn in L1, H1; try lia; try contradiction.
    destruct c2 as [?| |[t2|?]]; cbn in L2, H2; try lia; try contradiction.
    now exists w, t1, t2.
  - destruct b; cbn [runCalls].
    + destruct (stepCall_progress c2 w Hw H2) as (Hw' & H2' & P).
      destruct (stepCall c2 w) as [w' c2']. cbn in Hw', H2', P.
      unfold turns in L1, L2. cbn in L1, L2.
      apply IH; try assumption; unfold turns; lia.
    + destruct (stepCall_progress c1 w Hw H1) as (Hw' & H1' & P).
      destruct (stepCall c1 w) as [w' c1']. cbn in Hw', H1', P.
      unfold turns in L1, L2. cbn in L1, L2.
      apply IH; try assumption; unfold turns; lia.
Qed.

End Overlap.

(** Run without interruption, the pieces of a call are the call. *)
Lemma stepCall_twice (A : Adapter) (command : string) (w : World A) :
  let (w1, c1) := stepCall (Called command) w in
  stepCall c1 w1
  = (fst (sendOBDCommand command w), Settled (snd (sendOBDCommand command w))).
Proof.
  unfold sendOBDCommand, bind. cbn [stepCall].
  destruct (sendWrite command w) as [w1 [[]|e]]; cbn [stepCall fst snd].
  - now destruct (sendRead w1).
  - reflexivity.
Qed.

(** The second call begun while the first waits: both reads come after
    both writes. *)
Lemma runCalls_overlap (A : Adapter) (w : World A) (command1 command2 : string)
    (c : Characteristic) (dv : Device) (d1 d2 d3 d4 : Dev A)
    (value1 value2 : option string) :
  characteristicRef w = Some c -> connectedDeviceRef w = Some dv ->
  writeWithResponse A (adapter w) (command1 ++ CR) = (d1, Ok tt) ->
  writeWithResponse A d1 (command2 ++ CR) = (d2, Ok tt) ->
  read A d2 = (d3, Ok value1) ->
  read A d3 = (d4, Ok value2) ->
  runCalls [false; true; false; true] (Called command1) (Called command2) w
  = (withAdapter d4 w,
     Settled (Ok (asciiSlice (match value1 with Some v => v | None => "" end))),
     Settled (Ok (asciiSlice (match value2 with Some v => v | None => "" end)))).
Proof.
  intros Hc Hd W1 W2 R1 R2.
  cbn [runCalls stepCall]. unfold sendWrite. rewrite Hc, Hd, W1.
  cbn [stepCall]. unfold sendWrite. cbn. rewrite Hc, Hd, W2.
  cbn [stepCall]. unfold sendRead. cbn. rewrite Hc, R1.
  cbn [stepCall]. unfold sendRead. cbn. rewrite Hc, R2.
  reflexivity.
Qed.

(** C5, as the code has it.  [sendOBDCommand] keeps no record of a call in
    flight.  On an active connection whose characteristic accepts every
    write and answers every read, two calls whose pieces the event loop
    interleaves in any order both run to their end and both return a text:
    the second is not rejected.  When the second call begins while the first
    waits, both commands are written before either response is read, and the
    first call returns what the adapter gives to the first read after the
    second command. *)
Theorem sendOBDCommand_overlap_not_rejected (A : Adapter) (w : World A)
    (command1 command2 : string) :
  (forall schedule,
     (forall d s, exists d', writeWithResponse A d s = (d', Ok tt)) ->
     (forall d, exists d' v, read A d = (d', Ok v)) ->
     characteristicRef w <> None -> connectedDeviceRef w <> None ->
     (2 <= turns false schedule)%nat -> (2 <= turns true schedule)%nat ->
     exists w' text1 text2,
       runCalls schedule (Called command1) (Called command2) w
       = (w', Settled (Ok text1), Settled (Ok text2)))
  /\
  (forall c dv d1 d2 d3 d4 value1 value2,
     characteristicRef w = Some c -> connectedDeviceRef w = Some dv ->
     writeWithResponse A (adapter w) (command1 ++ CR) = (d1, Ok tt) ->
     writeWithResponse A d1 (command2 ++ CR) = (d2, Ok tt) ->
     read A d2 = (d3, Ok value1) ->
     read A d3 = (d4, Ok value2) ->
     runCalls [false; true; false; true] (Called command1) (Called command2) w
     = (withAdapter d4 w,
        Settled (Ok (asciiSlice (match value1 with Some v => v | None => "" end))),
        Settled (Ok (asciiSlice (match value2 with Some v => v | None => "" end))))).
Proof.
  split.
  - intros schedule Hwr Hrd Hc Hd L1 L2.
    apply (runCalls_settle Hwr Hrd); cbn; try exact I; try assumption.
    now split.
  - intros c dv d1 d2 d3 d4 value1 value2. apply runCalls_overlap.
Qed.

(** C5, witness: the poller's engine-speed and vehicle-speed reads, the
    second begun while the first waits. *)
Lemma sendOBDCommand_overlap_not_rejected_witness :
  exists w' text1 text2,
    runCalls [false; true; false; true] (Called "010C") (Called "010D")
      (Elm.connected Elm.never Elm.echoing)
    = (w', Settled (Ok text1), Settled (Ok text2)).
Proof.
  apply (proj1 (sendOBDCommand_overlap_not_rejected
                  (Elm.adapter Elm.never Elm.echoing)
                  (Elm.connected Elm.never Elm.echoing) "010C" "010D")).
  - intros d s. eexists. reflexivity.
  - intros d. eexists. eexists. reflexivity.
  - discriminate.
  - discriminate.
  - cbn. lia.
  - cbn. lia.
Defined.

(** C5, as stated, fails: the second of two overlapping calls is not
    rejected but returns a text, and the call already in flight gets the
    reply to the second command instead of the one it gets when it runs
    alone. *)
Lemma sendOBDCommand_overlap_corrupts :
  snd (runCalls [false; true; false; true] (Called "010C") (Called "010D")
         (Elm.connected Elm.never Elm.echoing))
  = Settled (Ok ("010D" ++ CR ++ "41 0D 00 " ++ Elm.PROMPT)%string)
  /\ snd (fst (runCalls [false; true; false; true] (Called "010C") (Called "010D")
                 (Elm.connected Elm.never Elm.echoing)))
     = Settled (Ok ("010D" ++ CR ++ "41 0D 00 " ++ Elm.PROMPT)%string)
  /\ snd (sendOBDCommand "010C" (Elm.connected Elm.never Elm.echoing))
     = Ok ("010C" ++ CR ++ "41 0C 1A F8 " ++ Elm.PROMPT)%string.
Proof. repeat split. Qed.

(* ================================================================== *)
(** * The poller *)
(* ================================================================== *)

Lemma bind_tryCatch_send (A : Adapter) (T U : Type) (command : string)
    (f : string -> T) (data : T) (k : T -> M A U) (w : World A) :
  bind (tryCatch (response <- sendOBDCommand command ;; ret (f response))
                 (fun _ => ret data)) k w
  = k (attempt (snd (sendOBDCommand command w)) f data)
      (fst (sendOBDCommand command w)).
Proof.
  unfold bind at 1. unfold tryCatch. unfold bind at 1.
  destruct (sendOBDCommand command w) as [w' [response|e]]; reflexivity.
Qed.

Section Cycle.

Context {A : Adapter}.
Variable w : World A.
Variables random1 random2 : Q.

Lemma afterLoad_fuelPressure : Partial.fuelPressure (afterLoad w) = None.
Proof.
  unfold afterLoad, afterTemp, afterSpeed, afterRpm, attempt.
  repeat match goal with
         | |- context [match ?x with _ => _ end] => destruct x; cbn
         end; reflexivity.
Qed.

Lemma readOBDData_cycleData :
  readOBDData random1 random2 w
  = (fst (loadExchange w), Ok (cycleData w random1 random2)).
Proof.
  unfold readOBDData. rewrite bind_tryCatch_send. cbv beta.
  rewrite bind_tryCatch_send. cbv beta.
  rewrite bind_tryCatch_send. cbv beta.
  rewrite bind_tryCatch_send. cbv beta.
  fold (rpmExchange w). fold (afterRpm w).
  fold (speedExchange w). fold (afterSpeed w).
  fold (tempExchange w). fold (afterTemp w).
  fold (loadExchange w). fold (afterLoad w).
  cbv zeta.
  unfold Partial.set_voltage at 1. cbn [Partial.fuelPressure].
  rewrite afterLoad_fuelPressure. reflexivity.
Qed.

End Cycle.

Section Fields.

Context {A : Adapter}.
Variable w : World A.
Variables random1 random2 : Q.

Ltac cases :=
  repeat match goal with
         | |- context [match ?x with _ => _ end] => destruct x; cbn
         end.

Lemma cycleData_rpm : Partial.rpm (cycleData w random1 random2) = Partial.rpm (afterRpm w).
Proof.
  unfold cycleData, afterLoad, afterTemp, afterSpeed, attempt. cbn.
  cases; reflexivity.
Qed.

Lemma cycleData_speed :
  Partial.speed (cycleData w random1 random2) = Partial.speed (afterSpeed w).
Proof.
  unfold cycleData, afterLoad, afterTemp, attempt. cbn.
  cases; reflexivity.
Qed.

Lemma cycleData_coolantTemp :
  Partial.coolantTemp (cycleData w random1 random2) = Partial.coolantTemp (afterTemp w).
Proof.
  unfold cycleData, afterLoad, attempt. cbn.
  cases; reflexivity.
Qed.

Lemma cycleData_engineLoad :
  Partial.engineLoad (cycleData w random1 random2) = Partial.engineLoad (afterLoad w).
Proof. reflexivity. Qed.

Lemma afterRpm_undecoded :
  undecoded "0C" (snd (rpmExchange w)) -> Partial.rpm (afterRpm w) = None.
Proof.
  unfold afterRpm, attempt, undecoded.
  destruct (snd (rpmExchange w)) as [response|e]; [|reflexivity].
  now intros ->.
Qed.




End Fields.

(** The exchanges of a cycle leave the refs and the trace alone. *)
Lemma sendOBDCommand_frame (A : Adapter) (command : string) (w : World A) :
  events (fst (sendOBDCommand command w)) = events w
  /\ characteristicRef (fst (sendOBDCommand command w)) = characteristicRef w.
Proof.
  unfold sendOBDCommand, bind, sendWrite, sendRead.
  destruct (characteristicRef w) as [c|] eqn:Ec; [|cbn; rewrite ?Ec; now split].
  destruct (connectedDeviceRef w) as [d|]; [|cbn; rewrite ?Ec; now split].
  destruct (writeWithResponse A (adapter w) (command ++ CR)) as [d1 [[]|e]]; cbn;
    [|cbn; rewrite ?Ec; now split].
  rewrite Ec. destruct (read A d1) as [d2 r]. cbn. rewrite ?Ec. now split.
Qed.

Lemma loadExchange_events (A : Adapter) (w : World A) :
  events (fst (loadExchange w)) = events w.
Proof.
  unfold loadExchange, tempExchange, speedExchange, rpmExchange.
  now rewrite !(proj1 (sendOBDCommand_frame _ _ _)).
Qed.

(** With a characteristic set and [isConnected] true, every run of the
    interval callback ends in one call of [onDataReceived]. *)
Lemma pollTick_emits (A : Adapter) (w : World A) (random1 random2 : Q) :
  characteristicRef w <> None ->
  events (fst (pollTick true random1 random2 w))
  = (events w ++ [OnDataReceived (completeData (cycleData w random1 random2))])%list.
Proof.
  intros Hc. unfold pollTick.
  destruct (characteristicRef w) as [c|]; [|contradiction].
  unfold bind. rewrite readOBDData_cycleData.
  assert (K : (0 <? Partial.keys (cycleData w random1 random2))%nat = true).
  { apply Nat.ltb_lt. unfold Partial.keys, cycleData. cbn. lia. }
  rewrite K. cbn. now rewrite loadExchange_events.
Qed.

Lemma gt0_zero (q : Q) : (q == 0)%Q -> gt0 (Num q) = false.
Proof.
  intros H. unfold gt0.
  assert (L : Qle_bool q 0 = true) by (apply Qle_bool_iff; rewrite H; apply Qle_refl).
  now rewrite L.
Qed.

(** C10.  Every cycle returns its data, and the data hold an [rpm] field
    exactly when the engine-speed command returned a response that decodes to
    a value above zero, the field being that value rounded.  A response that
    decodes to zero leaves the field out, as a failed read does. *)
Theorem readOBDData_rpm_positive_only (A : Adapter) (w : World A)
    (random1 random2 : Q) :
  exists w' data,
    readOBDData random1 random2 w = (w', Ok data)
    /\ (forall x,
          Partial.rpm data = Some x <->
          exists response rpm,
            snd (sendOBDCommand OBD_PIDS.ENGINE_RPM w) = Ok response
            /\ parseOBDResponse "0C" response = Some rpm
            /\ gt0 rpm = true /\ x = Math_round rpm)
    /\ (forall response q,
          snd (sendOBDCommand OBD_PIDS.ENGINE_RPM w) = Ok response ->
          parseOBDResponse "0C" response = Some (Num q) -> (q == 0)%Q ->
          Partial.rpm data = None)
    /\ (undecoded "0C" (snd (sendOBDCommand OBD_PIDS.ENGINE_RPM w)) ->
        Partial.rpm data = None).
Proof.
  exists (fst (loadExchange w)), (cycleData w random1 random2).
  split; [apply readOBDData_cycleData|].
  rewrite cycleData_rpm.
  split; [|split].
  - intros x. unfold afterRpm, attempt, rpmExchange.
    destruct (snd (sendOBDCommand OBD_PIDS.ENGINE_RPM w)) as [response|e].
    + destruct (parseOBDResponse "0C" response) as [rpm|] eqn:P.
      * destruct (gt0 rpm) eqn:G; cbn.
        -- split.
           ++ intros H. injection H as <-. now exists response, rpm.
           ++ intros (r' & rpm' & Hr & Hp & Hg & ->).
              injection Hr as <-. rewrite P in Hp. now injection Hp as <-.
        -- split; [discriminate|].
           intros (r' & rpm' & Hr & Hp & Hg & _).
           injection Hr as <-. rewrite P in Hp. injection Hp as <-.
           rewrite G in Hg. discriminate.
      * cbn. split; [discriminate|].
        intros (r' & rpm' & Hr & Hp & _).
        injection Hr as <-. rewrite P in Hp. discriminate.
    + cbn. split; [discriminate|]. intros (r' & rpm' & Hr & _). discriminate.
  - intros response q Hr Hp Hq. unfold afterRpm, attempt, rpmExchange.
    rewrite Hr, Hp, (gt0_zero _ Hq). reflexivity.
  - apply afterRpm_undecoded.
Qed.

(** C10, witness: with the engine stopped the reply [41 0C 00 00] decodes
    to zero, and the cycle's data have no [rpm] field. *)
Lemma readOBDData_rpm_positive_only_witness :
  exists w' data,
    readOBDData (1 # 2) (1 # 2) (Elm.connected Elm.never Elm.stopped) = (w', Ok data)
    /\ Partial.rpm data = None.
Proof.
  destruct (readOBDData_rpm_positive_only _
              (Elm.connected Elm.never Elm.stopped) (1 # 2) (1 # 2))
    as (w' & data & E & _ & Z & _).
  exists w', data. split; [exact E|].
  apply (Z ("41 0C 00 00 " ++ Elm.PROMPT)%string (0 # 4)); reflexivity.
Defined.




(** C1 at the failing input: the adapter answers [NO DATA] to every
    request, the callback runs with [isConnected] true and a characteristic
    set.  None of the four tracked PIDs gives a value, and still one snapshot
    is handed to [onDataReceived], all its decoded fields at their default. *)
Theorem pollTick_emits_with_nothing_decoded (random1 random2 : Q) :
  undecoded "0C" (snd (rpmExchange (Elm.connected Elm.never Elm.noData)))
  /\ undecoded "0D" (snd (speedExchange (Elm.connected Elm.never Elm.noData)))
  /\ undecoded "05" (snd (tempExchange (Elm.connected Elm.never Elm.noData)))
  /\ undecoded "04" (snd (loadExchange (Elm.connected Elm.never Elm.noData)))
  /\ exists data,
       events (fst (pollTick true random1 random2
                      (Elm.connected Elm.never Elm.noData)))
       = [OnDataReceived data]
       /\ rpm data = ofZ 0 /\ speed data = ofZ 0
       /\ coolantTemp data = ofZ 0 /\ engineLoad data = ofZ 0.
Proof.
  repeat match goal with |- _ /\ _ => split end;
    try (vm_compute; reflexivity).
  eexists. split.
  - rewrite pollTick_emits by discriminate. reflexivity.
  - repeat split; vm_compute; reflexivity.
Qed.

(* ================================================================== *)
(** * Connecting *)
(* ================================================================== *)

Lemma sameHook_refl (A : Adapter) (w : World A) : sameHook w w.
Proof. exists (adapter w). now destruct w. Qed.

Lemma sameHook_trans (A : Adapter) (w1 w2 w3 : World A) :
  sameHook w1 w2 -> sameHook w2 w3 -> sameHook w1 w3.
Proof. intros [d ->] [d' ->]. now exists d'. Qed.

Lemma bind_sameHook (A : Adapter) (T U : Type) (m : M A T) (k : T -> M A U) :
  (forall w, sameHook w (fst (m w))) ->
  (forall v w, sameHook w (fst (k v w))) ->
  forall w, sameHook w (fst (bind m k w)).
Proof.
  intros Hm Hk w. unfold bind. specialize (Hm w).
  destruct (m w) as [w' [v|e]]; cbn in *; [|exact Hm].
  exact (sameHook_trans _ _ _ _ Hm (Hk v w')).
Qed.

Lemma sendOBDCommand_sameHook (A : Adapter) (command : string) (w : World A) :
  sameHook w (fst (sendOBDCommand command w)).
Proof.
  revert w. apply bind_sameHook.
  - intros w. unfold sendWrite.
    destruct (characteristicRef w); [|apply sameHook_refl].
    destruct (connectedDeviceRef w); [|apply sameHook_refl].
    destruct (writeWithResponse A (adapter w) (command ++ CR)) as [d1 r].
    now exists d1.
  - intros _ w. unfold sendRead.
    destruct (characteristicRef w); [|apply sameHook_refl].
    destruct (read A (adapter w)) as [d2 r]. now exists d2.
Qed.

Lemma initializeOBDConnection_sameHook (A : Adapter) (w : World A) :
  sameHook w (fst (initializeOBDConnection w)).
Proof.
  unfold initializeOBDConnection.
  destruct (characteristicRef w); [|apply sameHook_refl].
  revert w.
  repeat (apply bind_sameHook; [intros w; apply sendOBDCommand_sameHook | intros _]).
  intros w. apply sameHook_refl.
Qed.

(** Whenever a writable characteristic is found, the connected state is set
    and [onConnectionChange(true)] fired before the handshake; a handshake
    that throws leaves the connected state set and is reported through
    [onError] alone. *)
Lemma connectToDevice_handshake_failure (A : Adapter) (w : World A)
    (ble : BleAnswers) (device : Device)
    (services : list (result (list Characteristic)))
    (target : Characteristic) (e : string) :
  bleManagerRef w = true ->
  connectResult ble = Ok tt -> discoverResult ble = Ok tt ->
  servicesResult ble = Ok services -> findTarget services = Ok (Some target) ->
  snd (initializeOBDConnection (reportedConnected target device w)) = Throw e ->
  isConnected (fst (connectToDevice ble device w)) = true
  /\ dataPollingRef (fst (connectToDevice ble device w)) = dataPollingRef w
  /\ events (fst (connectToDevice ble device w))
     = (events w
        ++ [SetIsConnecting true; StopDeviceScan; SetIsScanning false;
            SetIsConnected true; SetIsConnecting false; OnConnectionChange true;
            SetIsConnecting false; OnError ("Connection failed: " ++ e)])%list.
Proof.
  intros Hb Hc Hd Hs Ht He.
  pose proof (initializeOBDConnection_sameHook A (reportedConnected target device w))
    as [d Hw].
  revert He Hw. unfold connectToDevice.
  generalize (@initializeOBDConnection A) as init. intros init He Hw.
  rewrite Hb. cbn [negb].
  unfold tryCatch, bind, await, setIsConnecting, setIsScanning, setIsConnected,
    setRefs, emit.
  cbn. rewrite Hc, Hd, Hs, Ht. cbn.
  rewrite <- !app_assoc. cbn [app].
  fold (reportedConnected target device w).
  destruct (init (reportedConnected target device w)) as [w2 r].
  cbn in Hw, He. subst w2 r. cbn.
  rewrite <- !app_assoc. repeat split.
Qed.

(** C2 at the failing input: the link comes up with a writable
    characteristic, and the adapter refuses the first command of the
    handshake.  The connected state is set and [onConnectionChange(true)] is
    fired before the handshake starts; its failure is reported through
    [onError] only, the connected state stays set and the polling is never
    started. *)
Theorem connectToDevice_connected_before_handshake :
  events (fst (connectToDevice
                 (mkBleAnswers (Ok tt) (Ok tt)
                    (Ok [Ok [mkCharacteristic "fff1" true false]]))
                 (mkDevice "AA:BB" (Some "OBDII"))
                 (Elm.idle Elm.refusesReset Elm.echoing)))
  = [SetIsConnecting true; StopDeviceScan; SetIsScanning false;
     SetIsConnected true; SetIsConnecting false; OnConnectionChange true;
     SetIsConnecting false;
     OnError "Connection failed: BleError: Operation was rejected"]
  /\ isConnected (fst (connectToDevice
                         (mkBleAnswers (Ok tt) (Ok tt)
                            (Ok [Ok [mkCharacteristic "fff1" true false]]))
                         (mkDevice "AA:BB" (Some "OBDII"))
                         (Elm.idle Elm.refusesReset Elm.echoing)))
     = true
  /\ dataPollingRef (fst (connectToDevice
                            (mkBleAnswers (Ok tt) (Ok tt)
                               (Ok [Ok [mkCharacteristic "fff1" true false]]))
                            (mkDevice "AA:BB" (Some "OBDII"))
                            (Elm.idle Elm.refusesReset Elm.echoing)))
     = false.
Proof. repeat split. Qed.

(* ================================================================== *)
(** * Further properties of the decoder *)
(* ================================================================== *)

Lemma isWhitespace_upper (c : ascii) : isWhitespace (upper c) = isWhitespace c.
Proof. destruct c as [[] [] [] [] [] [] [] []]; reflexivity. Qed.

Lemma upper_upper (c : ascii) : upper (upper c) = upper c.
Proof. destruct c as [[] [] [] [] [] [] [] []]; reflexivity. Qed.

Lemma removeWhitespace_app (a b : string) :
  removeWhitespace (a ++ b) = (removeWhitespace a ++ removeWhitespace b)%string.
Proof.
  induction a as [|c a IH]; simpl; [reflexivity|].
  destruct (isWhitespace c); simpl; now rewrite IH.
Qed.

Lemma toUpperCase_app (a b : string) :
  toUpperCase (a ++ b) = (toUpperCase a ++ toUpperCase b)%string.
Proof. induction a as [|c a IH]; simpl; [reflexivity | now rewrite IH]. Qed.

Lemma toUpperCase_idempotent (s : string) : toUpperCase (toUpperCase s) = toUpperCase s.
Proof.
  induction s as [|c s IH]; simpl; [reflexivity|]. now rewrite upper_upper, IH.
Qed.

Lemma removeWhitespace_toUpperCase (s : string) :
  removeWhitespace (toUpperCase s) = toUpperCase (removeWhitespace s).
Proof.
  induction s as [|c s IH]; simpl; [reflexivity|].
  rewrite isWhitespace_upper. destruct (isWhitespace c); simpl; now rewrite IH.
Qed.

Lemma removeWhitespace_idempotent (s : string) :
  removeWhitespace (removeWhitespace s) = removeWhitespace s.
Proof.
  induction s as [|c s IH]; simpl; [reflexivity|].
  destruct (isWhitespace c) eqn:E; simpl; [exact IH | now rewrite E, IH].
Qed.

Lemma cleanResponse_blanks (a blanks b : string) :
  allWhitespace blanks = true ->
  cleanResponse (a ++ blanks ++ b) = cleanResponse (a ++ b).
Proof.
  unfold allWhitespace, cleanResponse. intros H. apply String.eqb_eq in H.
  now rewrite !removeWhitespace_app, H.
Qed.

Lemma cleanResponse_case (response : string) :
  cleanResponse (toUpperCase response) = cleanResponse response.
Proof.
  unfold cleanResponse.
  now rewrite removeWhitespace_toUpperCase, toUpperCase_idempotent.
Qed.

Lemma cleanResponse_idempotent (response : string) :
  cleanResponse (cleanResponse response) = cleanResponse response.
Proof.
  unfold cleanResponse.
  now rewrite removeWhitespace_toUpperCase, removeWhitespace_idempotent,
    toUpperCase_idempotent.
Qed.

(** Both parsers read a response up to blanks and letter case: white space
    put anywhere into a response, upper-casing it, or normalising it
    beforehand changes neither the value decoded for a PID nor the trouble
    codes found. *)
Theorem parsers_ignore_blanks_and_case (pid a blanks b : string) :
  (allWhitespace blanks = true ->
   parseOBDResponse pid (a ++ blanks ++ b) = parseOBDResponse pid (a ++ b)
   /\ parseDTCCodes (a ++ blanks ++ b) = parseDTCCodes (a ++ b))
  /\ parseOBDResponse pid (toUpperCase a) = parseOBDResponse pid a
  /\ parseDTCCodes (toUpperCase a) = parseDTCCodes a
  /\ parseOBDResponse pid (cleanResponse a) = parseOBDResponse pid a
  /\ parseDTCCodes (cleanResponse a) = parseDTCCodes a.
Proof.
  unfold parseOBDResponse, parseDTCCodes.
  rewrite cleanResponse_case, cleanResponse_idempotent.
  repeat split; intros; now rewrite ?cleanResponse_blanks.
Qed.

Lemma parsers_ignore_blanks_and_case_witness :
  parseOBDResponse "0C" ("41 0C" ++ (CR ++ " ") ++ "1A F8")
  = parseOBDResponse "0C" ("41 0C" ++ "1A F8")
  /\ parseDTCCodes ("41 0C" ++ (CR ++ " ") ++ "1A F8")
     = parseDTCCodes ("41 0C" ++ "1A F8").
Proof.
  apply (proj1 (parsers_ignore_blanks_and_case "0C" "41 0C" (CR ++ " ") "1A F8")).
  reflexivity.
Defined.

(** The bytes behind a decoded value. *)
Lemma parseOBDResponse_bytes (pid response : string) (v : number) :
  parseOBDResponse pid response = Some v ->
  (pid = "0C" /\ exists a b, (0 <= a < 256)%Z /\ (0 <= b < 256)%Z
                  /\ v = Num ((inject_Z a * 256 + inject_Z b) / 4))
  \/ (pid = "0D" /\ exists a, (0 <= a < 256)%Z /\ v = ofZ a)
  \/ (pid = "05" /\ exists a, (0 <= a < 256)%Z
                    /\ v = Num ((inject_Z a - 40) * 9 / 5 + 32))
  \/ (pid = "0A" /\ exists a, (0 <= a < 256)%Z /\ v = Num (inject_Z a * 3))
  \/ (pid = "04" /\ exists a, (0 <= a < 256)%Z
                    /\ v = ofZ (Qfloor (inject_Z a * 100 / 255 + (1 # 2)))).
Proof.
  unfold parseOBDResponse.
  destruct (matchPid (cleanResponse response)) as [d|] eqn:Hm; [|discriminate].
  destruct (matchPid_sound _ _ Hm) as (_ & _ & _ & _ & _ & _ & _ & Hhex & _).
  destruct (pid =? "0C")%string eqn:E0.
  { apply String.eqb_eq in E0.
    destruct (4 <=? length d)%nat eqn:L; [|discriminate].
    apply Nat.leb_le in L.
    destruct (byteAt_numeric d 0 Hhex ltac:(lia)) as (a & -> & Ha).
    destruct (byteAt_numeric d 2 Hhex ltac:(lia)) as (b & -> & Hb).
    intros H. injection H as <-. left. split; [exact E0|]. now exists a, b. }
  destruct (pid =? "0D")%string eqn:E1.
  { apply String.eqb_eq in E1.
    destruct (2 <=? length d)%nat eqn:L; [|discriminate].
    apply Nat.leb_le in L.
    destruct (byteAt_numeric d 0 Hhex ltac:(lia)) as (a & -> & Ha).
    intros H. injection H as <-. right; left. split; [exact E1|]. now exists a. }
  destruct (pid =? "05")%string eqn:E2.
  { apply String.eqb_eq in E2.
    destruct (2 <=? length d)%nat eqn:L; [|discriminate].
    apply Nat.leb_le in L.
    destruct (byteAt_numeric d 0 Hhex ltac:(lia)) as (a & -> & Ha).
    intros H. injection H as <-. right; right; left. split; [exact E2|]. now exists a. }
  destruct (pid =? "0A")%string eqn:E3.
  { apply String.eqb_eq in E3.
    destruct (2 <=? length d)%nat eqn:L; [|discriminate].
    apply Nat.leb_le in L.
    destruct (byteAt_numeric d 0 Hhex ltac:(lia)) as (a & -> & Ha).
    intros H. injection H as <-. right; right; right; left.
    split; [exact E3|]. now exists a. }
  destruct (pid =? "04")%string eqn:E4.
  { apply String.eqb_eq in E4.
    destruct (2 <=? length d)%nat eqn:L; [|discriminate].
    apply Nat.leb_le in L.
    destruct (byteAt_numeric d 0 Hhex ltac:(lia)) as (a & -> & Ha).
    intros H. injection H as <-. right; right; right; right.
    split; [exact E4|]. now exists a. }
  discriminate.
Qed.

Lemma Qfloor_fraction (n : Z) (d : positive) : Qfloor (n # d) = (n / Zpos d)%Z.
Proof. reflexivity. Qed.

Lemma parseOBDResponse_bounds (pid response : string) (v : number) :
  parseOBDResponse pid response = Some v ->
  exists q,
    v = Num q
    /\ (pid = "0C" -> 0 <= q <= 65535 # 4)
    /\ (pid = "0D" -> 0 <= q <= 255)
    /\ (pid = "05" -> -40 <= q <= 419)
    /\ (pid = "0A" -> 0 <= q <= 765)
    /\ (pid = "04" -> 0 <= q <= 100).
Proof.
  intros H.
  destruct (parseOBDResponse_bytes _ _ _ H)
    as [(-> & a & b & Ha & Hb & ->)
       |[(-> & a & Ha & ->)
        |[(-> & a & Ha & ->)
         |[(-> & a & Ha & ->)
          |(-> & a & Ha & ->)]]]];
    eexists; (split; [reflexivity|]);
    repeat match goal with |- _ /\ _ => split end;
    intros E; try discriminate E; clear E;
    split; unfold Qle; cbn; try lia.
  - assert (0 <= (a * 100 * 1 * 2 + 255) / 510)%Z by (apply Z.div_pos; lia).
    lia.
  - assert ((a * 100 * 1 * 2 + 255) / 510 < 101)%Z
      by (apply Z.div_lt_upper_bound; lia).
    lia.
Qed.

(** Whatever the response, a decoded value is a number within the bounds of
    its formula: the engine speed between 0 and 16383.75 rpm, the vehicle
    speed between 0 and 255, the coolant temperature between -40 and 419
    degrees Fahrenheit, the fuel pressure between 0 and 765, the engine load
    between 0 and 100 percent. *)
Theorem parseOBDResponse_range (pid response : string) (v : number) :
  parseOBDResponse pid response = Some v ->
  exists q,
    v = Num q
    /\ (pid = "0C" -> 0 <= q <= 65535 # 4)
    /\ (pid = "0D" -> 0 <= q <= 255)
    /\ (pid = "05" -> -40 <= q <= 419)
    /\ (pid = "0A" -> 0 <= q <= 765)
    /\ (pid = "04" -> 0 <= q <= 100).
Proof. apply parseOBDResponse_bounds. Qed.

Lemma parseOBDResponse_range_witness :
  exists q,
    Num (6904 # 4) = Num q
    /\ ("0C" = "0C" -> 0 <= q <= 65535 # 4)
    /\ ("0C" = "0D" -> 0 <= q <= 255)
    /\ ("0C" = "05" -> -40 <= q <= 419)
    /\ ("0C" = "0A" -> 0 <= q <= 765)
    /\ ("0C" = "04" -> 0 <= q <= 100).
Proof.
  apply (parseOBDResponse_range "0C" "41 0C 1A F8"). reflexivity.
Defined.

(** A reply whose marker is followed by the data byte [A] decodes, by PID, to
    the vehicle speed [A], the fuel pressure [A*3] and the engine load
    [round(A*100/255)].  For the coolant temperature it gives a number whose
    [Math.round], which is what [readOBDData] stores, is
    [round((A-40)*9/5+32)]; the number itself is the whole number
    [(A-40)/5*9+32] when [A-40] is a multiple of 5.  (For the other bytes
    the quotient by 5 is rounded to a double and is not stated here.) *)
Theorem parseOBDResponse_single_byte (A : Z) (response pre rest : string)
    (x y : ascii) :
  (0 <= A < 256)%Z ->
  occurs "4" pre = false ->
  isHexDigit x = true -> isHexDigit y = true ->
  cleanResponse response
  = (pre ++ String "4" (String "1" (String x (String y (hex2 A ++ rest)))))%string ->
  parseOBDResponse "0D" response = Some (ofZ A)
  /\ (exists t,
        parseOBDResponse "05" response = Some (Num t)
        /\ Math_round (Num t)
           = ofZ (Qfloor ((inject_Z A - 40) * 9 / 5 + 32 + (1 # 2)))
        /\ (((A - 40) mod 5 = 0)%Z -> t == inject_Z ((A - 40) / 5 * 9 + 32)))
  /\ parseOBDResponse "0A" response = Some (Num (inject_Z A * 3))
  /\ parseOBDResponse "04" response
     = Some (ofZ (Qfloor (inject_Z A * 100 / 255 + (1 # 2)))).
Proof.
  intros HA Hpre Hx Hy Hs.
  assert (Hm : matchPid (cleanResponse response) = Some (hex2 A ++ takeHex rest)%string).
  { rewrite Hs, (matchPid_skip _ _ Hpre).
    apply matchPid_marker; try assumption; [now apply allHex_hex2 | discriminate]. }
  assert (Hb : byteAt (hex2 A ++ takeHex rest) 0 = ofZ A).
  { unfold byteAt.
    change (hex2 A ++ takeHex rest)%string
      with (String (hexChar (A / 16)) (String (hexChar (A mod 16)) (takeHex rest))).
    rewrite substr_two.
    change (String (hexChar (A / 16)) (String (hexChar (A mod 16)) EmptyString))
      with (hex2 A).
    now rewrite (parseInt16_hex2 A HA). }
  unfold parseOBDResponse. rewrite Hm.
  change (2 <=? length (hex2 A ++ takeHex rest))%nat with true.
  cbn [String.eqb Ascii.eqb Bool.eqb]. rewrite Hb.
  split; [reflexivity|]. split; [|split; reflexivity].
  exists ((inject_Z A - 40) * 9 / 5 + 32).
  split; [reflexivity|]. split; [reflexivity|].
  intros Hmod.
  assert (E : A = (5 * ((A - 40) / 5) + 40)%Z)
    by (pose proof (Z.div_mod (A - 40) 5 ltac:(lia)); lia).
  rewrite E at 1.
  rewrite !inject_Z_plus, !inject_Z_mult. field.
Qed.

Lemma parseOBDResponse_single_byte_witness :
  (parseOBDResponse "0D" "41 04 FF" = Some (ofZ 255)
   /\ (exists t,
         parseOBDResponse "05" "41 04 FF" = Some (Num t)
         /\ Math_round (Num t)
            = ofZ (Qfloor ((inject_Z 255 - 40) * 9 / 5 + 32 + (1 # 2)))
         /\ (((255 - 40) mod 5 = 0)%Z -> t == inject_Z ((255 - 40) / 5 * 9 + 32)))
   /\ parseOBDResponse "0A" "41 04 FF" = Some (Num (inject_Z 255 * 3))
   /\ parseOBDResponse "04" "41 04 FF"
      = Some (ofZ (Qfloor (inject_Z 255 * 100 / 255 + (1 # 2)))))
  /\ Qfloor ((inject_Z 255 - 40) * 9 / 5 + 32 + (1 # 2)) = 419%Z
  /\ Qfloor (inject_Z 255 * 100 / 255 + (1 # 2)) = 100%Z.
Proof.
  split.
  - apply (parseOBDResponse_single_byte 255 "41 04 FF" EmptyString EmptyString
             "0"%char "4"%char); try reflexivity. lia.
  - split; reflexivity.
Defined.

(* ================================================================== *)
(** * Further properties of the trouble codes *)
(* ================================================================== *)

Lemma hexChar_of_digit (c : ascii) :
  isHexDigit c = true -> exists v, (0 <= v < 16)%Z /\ c = hexChar v.
Proof.
  intros H. exists (match hexVal c with Some v => v | None => 0%Z end).
  destruct c as [[] [] [] [] [] [] [] []]; try discriminate H;
    vm_compute; repeat split; intros E; discriminate E.
Qed.

Lemma hex2_of_digits (a b : ascii) :
  isHexDigit a = true -> isHexDigit b = true ->
  exists n, (0 <= n < 256)%Z /\ String a (String b EmptyString) = hex2 n.
Proof.
  intros Ha Hb.
  destruct (hexChar_of_digit a Ha) as (va & Hva & ->).
  destruct (hexChar_of_digit b Hb) as (vb & Hvb & ->).
  exists (16 * va + vb)%Z. split; [lia|].
  unfold hex2.
  replace ((16 * va + vb) / 16)%Z with va
    by (apply (Z.div_unique _ _ va vb); lia).
  replace ((16 * va + vb) mod 16)%Z with vb
    by (apply (Z.mod_unique _ _ va vb); lia).
  reflexivity.
Qed.

(** ** The first group of a response *)

Lemma prefix_append (a t : string) : prefix a (a ++ t) = true.
Proof.
  induction a as [|x a IH]; simpl; [now destruct t|].
  destruct (ascii_dec x x) as [_|N]; [exact IH | now elim N].
Qed.

(** Only the byte [00] gives a code that starts like the empty slot. *)
Lemma emptySlot_first_byte (F : Z) :
  (0 <= F < 256)%Z ->
  prefix (nth (Z.to_nat (F / 64)) ["P"; "C"; "B"; "U"] "undefined"
          ++ showInt ((F mod 64) / 16) ++ showInt (F mod 16)) "P0000" = true ->
  F = 0%Z.
Proof.
  intros HF H.
  assert (K : forallb
                (fun n : nat =>
                   implb (prefix (nth (Z.to_nat (Z.of_nat n / 64))
                                    ["P"; "C"; "B"; "U"] "undefined"
                                  ++ showInt ((Z.of_nat n mod 64) / 16)
                                  ++ showInt (Z.of_nat n mod 16)) "P0000")
                         (n =? 0)%nat)
                (seq 0 256) = true) by (vm_compute; reflexivity).
  rewrite forallb_forall in K.
  specialize (K (Z.to_nat F)).
  rewrite Z2Nat.id in K by lia.
  rewrite H in K. cbn [implb] in K.
  assert (I : In (Z.to_nat F) (seq 0 256)) by (apply in_seq; lia).
  apply K, Nat.eqb_eq in I. lia.
Qed.

Lemma emptySlot_group (F S : Z) :
  (0 <= F < 256)%Z -> (0 <= S < 256)%Z ->
  (nth (Z.to_nat (F / 64)) ["P"; "C"; "B"; "U"] "undefined"
   ++ showInt ((F mod 64) / 16) ++ showInt (F mod 16) ++ hex2 S)%string = "P0000"
  <-> F = 0%Z /\ S = 0%Z.
Proof.
  intros HF HS. split.
  - intros E.
    assert (F0 : F = 0%Z).
    { apply (emptySlot_first_byte F HF).
      rewrite <- E.
      set (letter := nth (Z.to_nat (F / 64)) ["P"; "C"; "B"; "U"] "undefined").
      set (second := showInt ((F mod 64) / 16)). set (third := showInt (F mod 16)).
      replace (letter ++ second ++ third ++ hex2 S)%string
        with ((letter ++ second ++ third) ++ hex2 S)%string
        by (now rewrite !append_assoc).
      apply prefix_append. }
    subst F. split; [reflexivity|].
    change (String "P" (String "0" (String "0" (hex2 S))) = "P0000") in E.
    injection E as E1 E2.
    pose proof (parseInt16_hex2 S HS) as P. unfold hex2 in P.
    rewrite E1, E2 in P. vm_compute in P. now injection P.
  - intros [-> ->]. reflexivity.
Qed.

(** C7, as the code has it.  In a response that is [43] followed by a first
    2-byte group and any further text, the codec decodes the group that
    directly follows the [43]: for the bytes [F] and [S] of the group it
    surfaces one trouble code, made of the category letter, the two numbers
    [(F mod 64) div 16] and [F mod 16] and the two hexadecimal digits of [S],
    with the description and the severity of that code, unless the code is
    the empty slot [P0000], which is the group [00 00] and no other.  The
    rest is searched for a further [43] with four hexadecimal digits behind
    it, so where the rest holds no [43] not one of the later groups is
    decoded. *)
Theorem parseDTCCodes_first_group (response group1 rest : string) :
  cleanResponse response = ("43" ++ group1 ++ rest)%string ->
  length group1 = 4%nat -> allHex group1 = true ->
  exists (F S : Z) (dtcCode : string) (first : list DTCCode),
    (0 <= F < 256)%Z /\ (0 <= S < 256)%Z
    /\ group1 = (hex2 F ++ hex2 S)%string
    /\ dtcCode = (nth (Z.to_nat (F / 64)) ["P"; "C"; "B"; "U"] "undefined"
                  ++ showInt ((F mod 64) / 16) ++ showInt (F mod 16) ++ hex2 S)%string
    /\ first = (if (dtcCode =? "P0000")%string then []
                else [mkDTCCode dtcCode (getDTCDescription dtcCode)
                        (getDTCSeverity dtcCode)])
    /\ (dtcCode = "P0000" <-> F = 0%Z /\ S = 0%Z)
    /\ parseDTCCodes response = (first ++ flat_map surface (dtcMatches rest))%list
    /\ (occurs "43" rest = false -> parseDTCCodes response = first).
Proof.
  intros Hs Hl Hh.
  destruct group1 as [|a [|b [|c [|d [|e g]]]]]; try discriminate Hl.
  assert (Hd : isHexDigit a = true /\ isHexDigit b = true
               /\ isHexDigit c = true /\ isHexDigit d = true).
  { cbn [allHex] in Hh.
    destruct (isHexDigit a); [|discriminate]. destruct (isHexDigit b); [|discriminate].
    destruct (isHexDigit c); [|discriminate]. destruct (isHexDigit d); [|discriminate].
    now repeat split. }
  destruct Hd as (Ha & Hb & Hc & Hd).
  destruct (hex2_of_digits a b Ha Hb) as (F & HF & EF).
  destruct (hex2_of_digits c d Hc Hd) as (S & HS & ES).
  assert (G : String a (String b (String c (String d EmptyString)))
              = (hex2 F ++ hex2 S)%string).
  { change (String a (String b (String c (String d EmptyString))))
      with (String a (String b EmptyString) ++ String c (String d EmptyString))%string.
    now rewrite EF, ES. }
  assert (E : parseDTCCodes response
              = (surface (String a (String b (String c (String d EmptyString))))
                 ++ flat_map surface (dtcMatches rest))%list).
  { unfold parseDTCCodes. rewrite Hs.
    change ("43" ++ String a (String b (String c (String d EmptyString))) ++ rest)%string
      with (String "4" (String "3" (String a (String b (String c (String d rest)))))).
    now rewrite (dtcMatches_group _ _ _ _ _ Hh). }
  pose proof (emptySlot_group F S HF HS) as Slot.
  remember (nth (Z.to_nat (F / 64)) ["P"; "C"; "B"; "U"] "undefined"
            ++ showInt ((F mod 64) / 16) ++ showInt (F mod 16) ++ hex2 S)%string
    as dtcCode eqn:Ecode.
  assert (Sf : surface (String a (String b (String c (String d EmptyString))))
               = if (dtcCode =? "P0000")%string then []
                 else [mkDTCCode dtcCode (getDTCDescription dtcCode)
                         (getDTCSeverity dtcCode)]).
  { unfold surface. rewrite G, (convertHexToDTC_group F S HF HS), <- Ecode.
    assert (N : (dtcCode =? "")%string = false).
    { apply String.eqb_neq. intros Z0.
      pose proof (convertHexToDTC_length F S dtcCode HF HS) as L.
      rewrite (convertHexToDTC_group F S HF HS), <- Ecode in L.
      specialize (L eq_refl). rewrite Z0 in L.
      destruct (F mod 16 <? 10)%Z; discriminate L. }
    rewrite N. cbn [negb andb].
    now destruct (dtcCode =? "P0000")%string. }
  exists F, S, dtcCode, (surface (String a (String b (String c (String d EmptyString))))).
  repeat match goal with |- _ /\ _ => split end;
    try assumption; try tauto.
  intros Hno. rewrite E, (dtcMatches_no_43 _ Hno). simpl. apply app_nil_r.
Qed.

(** C7, witness: three groups, of which only the first is decoded, to the
    code [P0106]. *)
Lemma parseDTCCodes_first_group_witness :
  exists (F S : Z) (dtcCode : string) (first : list DTCCode),
    (0 <= F < 256)%Z /\ (0 <= S < 256)%Z
    /\ "0106" = (hex2 F ++ hex2 S)%string
    /\ dtcCode = (nth (Z.to_nat (F / 64)) ["P"; "C"; "B"; "U"] "undefined"
                  ++ showInt ((F mod 64) / 16) ++ showInt (F mod 16) ++ hex2 S)%string
    /\ first = (if (dtcCode =? "P0000")%string then []
                else [mkDTCCode dtcCode (getDTCDescription dtcCode)
                        (getDTCSeverity dtcCode)])
    /\ (dtcCode = "P0000" <-> F = 0%Z /\ S = 0%Z)
    /\ parseDTCCodes "43 01 06 01 71 03 00"
       = (first ++ flat_map surface (dtcMatches "01710300"))%list
    /\ (occurs "43" "01710300" = false
        -> parseDTCCodes "43 01 06 01 71 03 00" = first).
Proof.
  apply (parseDTCCodes_first_group "43 01 06 01 71 03 00" "0106" "01710300");
    reflexivity.
Defined.

Lemma dtcMatches_bounded (n : nat) :
  forall s, (length s <= n)%nat ->
    Forall isGroup (dtcMatches s)
    /\ (6 * List.length (dtcMatches s) <= length s)%nat.
Proof.
  induction n as [|n IH]; intros s Hl.
  - destruct s; [|simpl in Hl; lia]. simpl. split; [constructor | lia].
  - destruct s as [|c1 r]; [simpl; split; [constructor | lia]|].
    simpl in Hl.
    assert (Hr : Forall isGroup (dtcMatches r)
                 /\ (6 * List.length (dtcMatches r) <= length (String c1 r))%nat).
    { destruct (IH r ltac:(lia)) as [F L]. split; [exact F | simpl; lia]. }
    destruct r as [|c2 [|a [|b [|c [|d rest]]]]]; try exact Hr.
    cbn [dtcMatches].
    destruct (Ascii.eqb c1 "4" && Ascii.eqb c2 "3" && isHexDigit a && isHexDigit b
              && isHexDigit c && isHexDigit d) eqn:E; [|exact Hr].
    repeat (apply andb_true_iff in E as [E ?]).
    destruct (IH rest ltac:(simpl in Hl; lia)) as [F L].
    split.
    + constructor; [|exact F].
      destruct (hex2_of_digits a b) as (x & Hx & Ex); try assumption.
      destruct (hex2_of_digits c d) as (y & Hy & Ey); try assumption.
      exists x, y. repeat split; try lia.
      unfold hex2 in *. injection Ex as -> ->. injection Ey as -> ->. reflexivity.
    + cbn [List.length length]. lia.
Qed.

Lemma surface_surfaced (g : string) : isGroup g -> Forall surfaced (surface g).
Proof.
  intros (F & S & HF & HS & ->). unfold surface.
  pose proof (convertHexToDTC_group F S HF HS) as E.
  destruct (convertHexToDTC (hex2 F ++ hex2 S)) as [dtcCode|] eqn:C; [|constructor].
  pose proof (convertHexToDTC_length F S dtcCode HF HS C) as L.
  destruct (negb (dtcCode =? "")%string && negb (dtcCode =? "P0000")%string) eqn:G;
    [|constructor].
  apply andb_true_iff in G as [_ G]. apply negb_true_iff, String.eqb_neq in G.
  constructor; [|constructor].
  unfold surfaced. cbn [code description severity].
  repeat split; try assumption.
  - destruct (F mod 16 <? 10)%Z; [left | right]; exact L.
  - injection E as ->.
    assert (K : (Z.to_nat (F / 64) < 4)%nat).
    { assert (0 <= F / 64 < 4)%Z
        by (split; [apply Z.div_pos; lia | apply Z.div_lt_upper_bound; lia]).
      lia. }
    destruct (Z.to_nat (F / 64)) as [|[|[|[|k]]]]; [| | | |lia].
    + exists "P". split; [simpl; tauto|]. simpl. apply prefix_empty.
    + exists "C". split; [simpl; tauto|]. simpl. apply prefix_empty.
    + exists "B". split; [simpl; tauto|]. simpl. apply prefix_empty.
    + exists "U". split; [simpl; tauto|]. simpl. apply prefix_empty.
Qed.

Lemma surface_length (g : string) : (List.length (surface g) <= 1)%nat.
Proof.
  unfold surface. destruct (convertHexToDTC g) as [c|]; [|simpl; lia].
  destruct (negb (c =? "")%string && negb (c =? "P0000")%string); simpl; lia.
Qed.

Lemma parseDTCCodes_wellformed (response : string) :
  Forall surfaced (parseDTCCodes response)
  /\ (6 * List.length (parseDTCCodes response) <= length (cleanResponse response))%nat.
Proof.
  unfold parseDTCCodes.
  destruct (dtcMatches_bounded _ (cleanResponse response) (le_n _)) as [F L].
  split.
  - clear L. induction F as [|g gs Hg _ IH]; simpl; [constructor|].
    apply Forall_app. split; [now apply surface_surfaced | exact IH].
  - assert (B : (List.length (flat_map surface (dtcMatches (cleanResponse response)))
                 <= List.length (dtcMatches (cleanResponse response)))%nat).
    { clear. induction (dtcMatches (cleanResponse response)) as [|g gs IH];
        simpl; [lia|].
      rewrite length_app. pose proof (surface_length g). lia. }
    lia.
Qed.

(** Whatever the response, the codes [parseDTCCodes] returns are well
    formed: none is the empty slot [P0000], each starts with one of the
    letters P, C, B, U and has five or six characters, each carries the
    description and the severity the tables give for its code; and there is
    at most one code for every six characters of the normalised response. *)
Theorem parseDTCCodes_surfaced (response : string) :
  Forall surfaced (parseDTCCodes response)
  /\ (6 * List.length (parseDTCCodes response) <= length (cleanResponse response))%nat.
Proof. apply parseDTCCodes_wellformed. Qed.

(** The two tables of the codec agree: a code rated high or medium has a
    description of its own in the table, and a code that [convertHexToDTC]
    makes of a group of two bytes and that the table does not know gets the
    generic description, which quotes the code, and the severity low.  (The
    second half is about the codes the decoder produces: a category letter
    followed by digits, so none of them names an inherited member of the
    object that holds the table.) *)
Theorem severity_and_description (c : string) :
  (getDTCSeverity c <> low ->
   exists d, lookup c descriptions = Some d /\ getDTCDescription c = d)
  /\ (forall F S : Z,
        (0 <= F < 256)%Z -> (0 <= S < 256)%Z ->
        convertHexToDTC (hex2 F ++ hex2 S) = Some c ->
        lookup c descriptions = None ->
        getDTCDescription c = ("Diagnostic trouble code: " ++ c)%string
        /\ getDTCSeverity c = low).
Proof.
  assert (K : getDTCSeverity c <> low ->
              exists d, lookup c descriptions = Some d /\ getDTCDescription c = d).
  { unfold getDTCSeverity, includes. cbn [existsb].
    repeat match goal with
           | |- context [(c =? ?k)%string] =>
               destruct (String.eqb_spec c k) as [->|?];
               [intros _; eexists; split; reflexivity|]
           end.
    cbn. intros H. now elim H. }
  split; [exact K|].
  intros F S _ _ _ N. split.
  - unfold getDTCDescription. now rewrite N.
  - destruct (getDTCSeverity c) eqn:Sv; [reflexivity| |].
    + destruct K as (d & E & _); [discriminate | rewrite N in E; discriminate].
    + destruct K as (d & E & _); [discriminate | rewrite N in E; discriminate].
Qed.

Lemma severity_and_description_witness :
  (exists d, lookup "P0300" descriptions = Some d /\ getDTCDescription "P0300" = d)
  /\ getDTCDescription "P0106" = ("Diagnostic trouble code: " ++ "P0106")%string
  /\ getDTCSeverity "P0106" = low.
Proof.
  split.
  - apply (proj1 (severity_and_description "P0300")). discriminate.
  - apply (proj2 (severity_and_description "P0106") 1%Z 6%Z);
      try reflexivity; lia.
Defined.

Section UniqueFacts.

Variable T : Type.
Variable codeOf : T -> string.

Lemma findIndex_Some (k : string) (self : list T) (i : nat) :
  findIndex T codeOf k self = Some i ->
  exists c, nth_error self i = Some c /\ codeOf c = k.
Proof.
  revert i. induction self as [|c rest IH]; intros i; simpl; [discriminate|].
  destruct (String.eqb_spec (codeOf c) k) as [E|N].
  - intros H. injection H as <-. now exists c.
  - destruct (findIndex T codeOf k rest) as [j|]; [|discriminate].
    intros H. injection H as <-. exact (IH j eq_refl).
Qed.

Lemma findIndex_In (k : string) (self : list T) :
  In k (map codeOf self) -> exists i, findIndex T codeOf k self = Some i.
Proof.
  induction self as [|c rest IH]; simpl; [tauto|].
  intros H. destruct (String.eqb_spec (codeOf c) k) as [E|N]; [now exists 0%nat|].
  destruct H as [H|H]; [contradiction|].
  destruct (IH H) as [i ->]. now exists (S i).
Qed.

Lemma keepFirst_sound (self all : list T) :
  forall index c,
    In c (keepFirst T codeOf self index all) ->
    exists i, (index <= i)%nat
              /\ findIndex T codeOf (codeOf c) self = Some i
              /\ nth_error all (i - index) = Some c.
Proof.
  induction all as [|a rest IH]; intros index c; simpl; [tauto|].
  assert (Tail : In c (keepFirst T codeOf self (S index) rest) ->
                 exists i, (index <= i)%nat
                           /\ findIndex T codeOf (codeOf c) self = Some i
                           /\ nth_error (a :: rest) (i - index) = Some c).
  { intros H. destruct (IH _ _ H) as (i & Hi & F & N).
    exists i. repeat split; [lia | exact F|].
    replace (i - index)%nat with (S (i - S index)) by lia. exact N. }
  destruct (findIndex T codeOf (codeOf a) self) as [j|] eqn:F; [|exact Tail].
  destruct (Nat.eqb_spec j index) as [->|]; [|exact Tail].
  intros [<-|H]; [|exact (Tail H)].
  exists index. repeat split; [lia | exact F|].
  now rewrite Nat.sub_diag.
Qed.

Lemma keepFirst_NoDup (self all : list T) :
  forall index, NoDup (map codeOf (keepFirst T codeOf self index all)).
Proof.
  induction all as [|a rest IH]; intros index; simpl; [constructor|].
  destruct (findIndex T codeOf (codeOf a) self) as [j|] eqn:F; [|apply IH].
  destruct (Nat.eqb_spec j index) as [->|]; [|apply IH].
  simpl. constructor; [|apply IH].
  intros H. apply in_map_iff in H as (c & E & H).
  destruct (keepFirst_sound _ _ _ _ H) as (i & Hi & F' & _).
  rewrite E, F in F'. injection F' as <-. lia.
Qed.

Lemma keepFirst_complete (self all : list T) :
  forall index j c,
    nth_error all j = Some c ->
    findIndex T codeOf (codeOf c) self = Some (index + j)%nat ->
    In c (keepFirst T codeOf self index all).
Proof.
  induction all as [|a rest IH]; intros index j c; [now destruct j|].
  destruct j as [|j]; simpl.
  - intros H F. injection H as ->. rewrite Nat.add_0_r in F. rewrite F.
    rewrite Nat.eqb_refl. now left.
  - intros H F.
    assert (In c (keepFirst T codeOf self (S index) rest)).
    { apply (IH (S index) j c H).
      now replace (S index + j)%nat with (index + S j)%nat by lia. }
    destruct (findIndex T codeOf (codeOf a) self) as [i|]; [|assumption].
    destruct (i =? index)%nat; [now right | assumption].
Qed.

Lemma keepFirst_NoDup_id (pre all : list T) :
  NoDup (map codeOf (pre ++ all)) ->
  keepFirst T codeOf (pre ++ all) (List.length pre) all = all.
Proof.
  revert pre. induction all as [|a rest IH]; intros pre N; [reflexivity|].
  simpl.
  assert (F : findIndex T codeOf (codeOf a) (pre ++ a :: rest)
              = Some (List.length pre)).
  { clear IH. induction pre as [|p pre IHp]; simpl.
    - now rewrite String.eqb_refl.
    - simpl in N. inversion N as [|? ? Hn Hrest]; subst.
      destruct (String.eqb_spec (codeOf p) (codeOf a)) as [E|_].
      + elim Hn. rewrite E, map_app. apply in_or_app. right. now left.
      + now rewrite (IHp Hrest). }
  rewrite F, Nat.eqb_refl. f_equal.
  specialize (IH (pre ++ [a])%list).
  rewrite <- app_assoc, length_app, Nat.add_1_r in IH. exact (IH N).
Qed.

(** The list of codes the screen shows, [uniqueDTCCodes], holds every code
    of the merged list once: no two of its entries share a code, its codes
    are those of the merged list, every entry is the first one of the merged
    list with its code (so a stored row wins over a received code), and a
    list without repeated codes is left as it is. *)
Theorem uniqueDTCCodes_first_of_each (all : list T) :
  NoDup (map codeOf (uniqueDTCCodes T codeOf all))
  /\ (forall k, In k (map codeOf (uniqueDTCCodes T codeOf all))
                <-> In k (map codeOf all))
  /\ (forall c, In c (uniqueDTCCodes T codeOf all) ->
        exists i, findIndex T codeOf (codeOf c) all = Some i
                  /\ nth_error all i = Some c)
  /\ (NoDup (map codeOf all) -> uniqueDTCCodes T codeOf all = all)
  /\ uniqueDTCCodes T codeOf (uniqueDTCCodes T codeOf all)
     = uniqueDTCCodes T codeOf all.
Proof.
  unfold uniqueDTCCodes.
  assert (S : forall c, In c (keepFirst T codeOf all 0 all) ->
                exists i, findIndex T codeOf (codeOf c) all = Some i
                          /\ nth_error all i = Some c).
  { intros c H. destruct (keepFirst_sound _ _ _ _ H) as (i & _ & F & N).
    exists i. split; [exact F|]. now rewrite Nat.sub_0_r in N. }
  assert (I : forall l, NoDup (map codeOf l) -> keepFirst T codeOf l 0 l = l).
  { intros l N. exact (keepFirst_NoDup_id [] l N). }
  split; [apply keepFirst_NoDup|].
  split; [|split; [exact S|split; [apply I|apply I, keepFirst_NoDup]]].
  intros k. split.
  - intros H. apply in_map_iff in H as (c & <- & H).
    destruct (S c H) as (i & _ & N). apply in_map. exact (nth_error_In _ _ N).
  - intros H. destruct (findIndex_In k all H) as [i F].
    destruct (findIndex_Some _ _ _ F) as (c & N & <-).
    apply in_map. exact (keepFirst_complete all all 0 i c N F).
Qed.

End UniqueFacts.

Lemma uniqueDTCCodes_first_of_each_witness :
  uniqueDTCCodes DTCCode code (parseDTCCodes "43 01 71 43 03 00")
  = parseDTCCodes "43 01 71 43 03 00".
Proof.
  apply (proj1 (proj2 (proj2 (proj2
           (uniqueDTCCodes_first_of_each DTCCode code
              (parseDTCCodes "43 01 71 43 03 00")))))).
  vm_compute. repeat constructor; simpl; intuition discriminate.
Defined.

(* ================================================================== *)
(** * Further properties of the command channel *)
(* ================================================================== *)

Section Recorded.

Context {A : Adapter}.

Lemma sendOBDCommand_written (command : string) (w : World (recording A)) :
  active w ->
  written (fst (sendOBDCommand command w)) = (written w ++ [withCR command])%list
  /\ active (fst (sendOBDCommand command w)).
Proof.
  intros [Hc Hd]. unfold sendOBDCommand, bind, sendWrite, sendRead, active, written.
  destruct (characteristicRef w) as [c|] eqn:Ec; [|contradiction].
  destruct (connectedDeviceRef w) as [dv|] eqn:Ed; [|contradiction].
  cbn [writeWithResponse read recording].
  destruct (writeWithResponse A (fst (adapter w)) (command ++ CR)) as [d1 [[]|e]];
    cbn; rewrite ?Ec, ?Ed; cbn.
  - destruct (read A d1) as [d2 r]. cbn. rewrite ?Ec, ?Ed.
    repeat split; discriminate.
  - repeat split; discriminate.
Qed.

Lemma sendAll_written (commands : list string) :
  forall w : World (recording A),
    active w ->
    exists k,
      (k <= List.length commands)%nat
      /\ written (fst (sendAll commands w))
         = (written w ++ map withCR (firstn k commands))%list
      /\ (snd (sendAll commands w) = Ok tt -> k = List.length commands)
      /\ (forall e, snd (sendAll commands w) = Throw e -> (1 <= k)%nat).
Proof.
  induction commands as [|command rest IH]; intros w Hw.
  - exists 0%nat. cbn. rewrite app_nil_r. repeat split; try lia. discriminate.
  - destruct (sendOBDCommand_written command w Hw) as [Hwr Hact].
    cbn [sendAll]. unfold bind.
    destruct (sendOBDCommand command w) as [w1 [text|e]] eqn:E; cbn in Hwr, Hact.
    + destruct (IH w1 Hact) as (k & Hk & Hlog & Hok & Hth).
      exists (S k). cbn [List.length firstn map].
      rewrite Hlog, Hwr, <- app_assoc. repeat split; try lia.
      intros H. now rewrite (Hok H).
    + exists 1%nat. cbn. rewrite Hwr. destruct rest; cbn; repeat split; try lia;
        discriminate.
Qed.

End Recorded.

(** [sendOBDCommand] puts each command on the link once, with a carriage
    return behind it, whether or not the exchange then succeeds; without a
    characteristic or a connected device it throws 'No active OBD connection'
    and writes nothing. *)
Theorem sendOBDCommand_writes_once (A : Adapter) (w : World (recording A))
    (command : string) :
  (characteristicRef w <> None -> connectedDeviceRef w <> None ->
   written (fst (sendOBDCommand command w)) = (written w ++ [withCR command])%list)
  /\ (characteristicRef w = None \/ connectedDeviceRef w = None ->
      sendOBDCommand command w = (w, Throw "Error: No active OBD connection")).
Proof.
  split.
  - intros Hc Hd. now apply sendOBDCommand_written.
  - unfold sendOBDCommand, bind, sendWrite.
    intros [H|H]; rewrite H; [reflexivity|].
    now destruct (characteristicRef w).
Qed.

Lemma sendOBDCommand_writes_once_witness :
  written (fst (sendOBDCommand "010C" (recordedElm Elm.never Elm.noData)))
  = (written (recordedElm Elm.never Elm.noData) ++ [withCR "010C"])%list.
Proof.
  apply (proj1 (sendOBDCommand_writes_once (Elm.adapter Elm.never Elm.noData)
                  (recordedElm Elm.never Elm.noData) "010C"));
    discriminate.
Defined.

Lemma sendAll_first_throw (A : Adapter) (before : list string) :
  forall (command : string) (rest : list string) (e : string) (w : World A),
    allReturn before w = true ->
    snd (sendOBDCommand command (exchanged before w)) = Throw e ->
    sendAll (before ++ command :: rest) w
    = (fst (sendOBDCommand command (exchanged before w)), Throw e).
Proof.
  induction before as [|c before IH]; intros command rest e w Hr Ht.
  - cbn [app sendAll exchanged] in *. unfold bind.
    destruct (sendOBDCommand command w) as [w1 [text|e1]]; cbn in Ht;
      [discriminate | now injection Ht as ->].
  - cbn [app sendAll exchanged allReturn] in *. unfold bind.
    destruct (sendOBDCommand c w) as [w1 [text|e1]]; cbn [fst snd] in *;
      [|discriminate].
    now apply IH.
Qed.

Lemma sendAll_all_return (A : Adapter) (commands : list string) :
  forall w : World A,
    allReturn commands w = true ->
    sendAll commands w = (exchanged commands w, Ok tt).
Proof.
  induction commands as [|c commands IH]; intros w Hr; [reflexivity|].
  cbn [sendAll exchanged allReturn] in *. unfold bind.
  destruct (sendOBDCommand c w) as [w1 [text|e1]]; cbn [fst snd] in *;
    [|discriminate].
  now apply IH.
Qed.

(** The handshake writes its five commands in the fixed order reset, echo
    off, line feeds off, spaces off, automatic protocol, each exactly once,
    and stops at the first command whose exchange throws: when the exchanges
    of the commands before it returned and its own throws, the handshake ends
    in the state that exchange left, throws the same error on, and what has
    gone over the link is the commands up to that one and nothing behind it.
    When all five exchanges return, the handshake returns with all five
    written. *)
Theorem initializeOBDConnection_order (A : Adapter) (w : World (recording A)) :
  characteristicRef w <> None -> connectedDeviceRef w <> None ->
  (forall (before : list string) (command : string) (rest : list string)
          (e : string),
      ["ATZ"; "ATE0"; "ATL0"; "ATS0"; "ATSP0"] = (before ++ command :: rest)%list ->
      allReturn before w = true ->
      snd (sendOBDCommand command (exchanged before w)) = Throw e ->
      initializeOBDConnection w
      = (fst (sendOBDCommand command (exchanged before w)), Throw e)
      /\ written (fst (initializeOBDConnection w))
         = (written w ++ map withCR (before ++ [command]))%list)
  /\ (allReturn ["ATZ"; "ATE0"; "ATL0"; "ATS0"; "ATSP0"] w = true ->
      initializeOBDConnection w
      = (exchanged ["ATZ"; "ATE0"; "ATL0"; "ATS0"; "ATSP0"] w, Ok tt)
      /\ written (fst (initializeOBDConnection w)) = (written w ++ handshake)%list)
  /\ exists k,
       (k <= 5)%nat
       /\ written (fst (initializeOBDConnection w))
          = (written w ++ firstn k handshake)%list
       /\ (snd (initializeOBDConnection w) = Ok tt -> k = 5%nat)
       /\ (forall e, snd (initializeOBDConnection w) = Throw e -> (1 <= k)%nat).
Proof.
  intros Hc Hd.
  assert (E : initializeOBDConnection w
              = sendAll ["ATZ"; "ATE0"; "ATL0"; "ATS0"; "ATSP0"] w).
  { unfold initializeOBDConnection. now destruct (characteristicRef w). }
  assert (W : forall (commands : list string) (v : World (recording A)),
            active v ->
            written (exchanged commands v) = (written v ++ map withCR commands)%list
            /\ active (exchanged commands v)).
  { induction commands as [|c commands IH]; intros v Hv.
    - cbn. now rewrite app_nil_r.
    - destruct (sendOBDCommand_written c v Hv) as [Hw Ha].
      destruct (IH _ Ha) as [Hw' Ha']. cbn [exchanged map].
      split; [|exact Ha']. now rewrite Hw', Hw, <- app_assoc. }
  split; [|split].
  - intros before command rest e Hsplit Hr Ht.
    rewrite E, Hsplit, (sendAll_first_throw _ before command rest e w Hr Ht).
    split; [reflexivity|]. cbn [fst].
    destruct (W before w (conj Hc Hd)) as [Hw Ha].
    destruct (sendOBDCommand_written command _ Ha) as [Hw' _].
    now rewrite Hw', Hw, map_app, <- app_assoc.
  - intros Hr. rewrite E, (sendAll_all_return _ _ w Hr).
    split; [reflexivity|]. cbn [fst].
    now destruct (W ["ATZ"; "ATE0"; "ATL0"; "ATS0"; "ATSP0"] w (conj Hc Hd)).
  - rewrite E.
    destruct (sendAll_written ["ATZ"; "ATE0"; "ATL0"; "ATS0"; "ATSP0"] w
                (conj Hc Hd)) as (k & Hk & Hlog & Hok & Hth).
    exists k. rewrite Hlog.
    change handshake with (map withCR ["ATZ"; "ATE0"; "ATL0"; "ATS0"; "ATSP0"]).
    rewrite firstn_map. repeat split; assumption.
Qed.

(** An adapter that refuses the third command: the first two go through,
    the third is written and throws, the last two are never sent. *)
Lemma initializeOBDConnection_order_witness :
  initializeOBDConnection (recordedElm refusesLineFeedsOff Elm.echoing)
  = (fst (sendOBDCommand "ATL0"
            (exchanged ["ATZ"; "ATE0"] (recordedElm refusesLineFeedsOff Elm.echoing))),
     Throw "BleError: Operation was rejected")
  /\ written (fst (initializeOBDConnection (recordedElm refusesLineFeedsOff Elm.echoing)))
     = (written (recordedElm refusesLineFeedsOff Elm.echoing)
        ++ map withCR (["ATZ"; "ATE0"] ++ ["ATL0"]))%list.
Proof.
  apply (proj1 (initializeOBDConnection_order
                  (Elm.adapter refusesLineFeedsOff Elm.echoing)
                  (recordedElm refusesLineFeedsOff Elm.echoing)
                  ltac:(discriminate) ltac:(discriminate))
           ["ATZ"; "ATE0"] "ATL0" ["ATS0"; "ATSP0"]
           "BleError: Operation was rejected");
    reflexivity.
Defined.

(** A polling cycle on an active connection puts the four requests 010C,
    010D, 0105, 0104 on the link in this order, each once, whatever the
    adapter answers and whichever of them fail: a failed read never ends the
    cycle, and neither the fuel pressure (010A) nor the battery voltage (0142)
    is ever requested. *)
Theorem readOBDData_requests (A : Adapter) (w : World (recording A))
    (random1 random2 : Q) :
  characteristicRef w <> None -> connectedDeviceRef w <> None ->
  written (fst (readOBDData random1 random2 w)) = (written w ++ cycleRequests)%list.
Proof.
  intros Hc Hd. rewrite readOBDData_cycleData. cbn [fst].
  unfold loadExchange, tempExchange, speedExchange, rpmExchange.
  pose proof (sendOBDCommand_written OBD_PIDS.ENGINE_RPM w (conj Hc Hd)) as [L1 A1].
  pose proof (sendOBDCommand_written OBD_PIDS.VEHICLE_SPEED _ A1) as [L2 A2].
  pose proof (sendOBDCommand_written OBD_PIDS.COOLANT_TEMP _ A2) as [L3 A3].
  pose proof (sendOBDCommand_written OBD_PIDS.ENGINE_LOAD _ A3) as [L4 _].
  rewrite L4, L3, L2, L1, <- !app_assoc. reflexivity.
Qed.

Lemma readOBDData_requests_witness :
  written (fst (readOBDData (1 # 2) (1 # 2) (recordedElm Elm.never Elm.noData)))
  = (written (recordedElm Elm.never Elm.noData) ++ cycleRequests)%list.
Proof.
  apply (readOBDData_requests (Elm.adapter Elm.never Elm.noData)
           (recordedElm Elm.never Elm.noData)); discriminate.
Defined.

(* ================================================================== *)
(** * Further properties of the poller *)
(* ================================================================== *)

Lemma Math_round_within (q lo hi : Q) (zlo zhi : Z) :
  lo <= q <= hi ->
  Qfloor (lo + (1 # 2)) = zlo -> Qfloor (hi + (1 # 2)) = zhi ->
  exists n, Math_round (Num q) = ofZ n /\ (zlo <= n <= zhi)%Z.
Proof.
  intros [Hl Hh] <- <-. exists (Qfloor (q + (1 # 2))). split; [reflexivity|].
  split; apply Qfloor_resp_le; apply Qplus_le_l; assumption.
Qed.

Lemma orElse_within (lo hi : Z) (o : option number) :
  wholeWithin lo hi o -> (lo <= 0 <= hi)%Z ->
  exists n, orElse o (ofZ 0) = ofZ n /\ (lo <= n <= hi)%Z.
Proof.
  intros [->|(n & -> & Hn)] H0; [now exists 0%Z|].
  unfold orElse. destruct (truthy (Some (ofZ n))); [now exists n | now exists 0%Z].
Qed.

Section Ranges.

Context {A : Adapter}.
Variable w : World A.
Variables random1 random2 : Q.

Ltac decoded pid :=
  match goal with
  | |- context [parseOBDResponse pid ?r] =>
      let P := fresh "P" in
      destruct (parseOBDResponse pid r) as [v|] eqn:P;
      [destruct (parseOBDResponse_bounds _ _ _ P) as (q & -> & R0C & R0D & R05 & R0A & R04)|]
  end.

Lemma afterRpm_within : wholeWithin 0 16384 (Partial.rpm (afterRpm w)).
Proof.
  unfold afterRpm, attempt.
  destruct (snd (rpmExchange w)) as [response|e]; [|now left].
  decoded "0C"; [|now left].
  destruct (gt0 (Num q)); [|now left]. right. cbn [Partial.rpm Partial.set_rpm].
  destruct (Math_round_within q 0 (65535 # 4) 0 16384 (R0C eq_refl) eq_refl eq_refl)
    as (n & -> & Hn).
  now exists n.
Qed.

Lemma afterSpeed_within : wholeWithin 0 255 (Partial.speed (afterSpeed w)).
Proof.
  assert (E : Partial.speed (afterRpm w) = None).
  { unfold afterRpm, attempt.
    repeat match goal with
           | |- context [match ?x with _ => _ end] => destruct x; cbn
           end; reflexivity. }
  unfold afterSpeed, attempt.
  destruct (snd (speedExchange w)) as [response|e]; [|now left].
  decoded "0D"; [|now left].
  destruct (ge0 (Num q)); [|now left]. right. cbn [Partial.speed Partial.set_speed].
  destruct (Math_round_within q 0 255 0 255 (R0D eq_refl) eq_refl eq_refl)
    as (n & -> & Hn).
  now exists n.
Qed.

Lemma afterTemp_within : wholeWithin (-40) 419 (Partial.coolantTemp (afterTemp w)).
Proof.
  assert (E : Partial.coolantTemp (afterSpeed w) = None).
  { unfold afterSpeed, afterRpm, attempt.
    repeat match goal with
           | |- context [match ?x with _ => _ end] => destruct x; cbn
           end; reflexivity. }
  unfold afterTemp, attempt.
  destruct (snd (tempExchange w)) as [response|e]; [|now left].
  decoded "05"; [|now left].
  right. cbn [Partial.coolantTemp Partial.set_coolantTemp].
  destruct (Math_round_within q (-40) 419 (-40) 419 (R05 eq_refl) eq_refl eq_refl)
    as (n & -> & Hn).
  now exists n.
Qed.

Lemma afterLoad_within : wholeWithin 0 100 (Partial.engineLoad (afterLoad w)).
Proof.
  assert (E : Partial.engineLoad (afterTemp w) = None).
  { unfold afterTemp, afterSpeed, afterRpm, attempt.
    repeat match goal with
           | |- context [match ?x with _ => _ end] => destruct x; cbn
           end; reflexivity. }
  unfold afterLoad, attempt.
  destruct (snd (loadExchange w)) as [response|e]; [|now left].
  decoded "04"; [|now left].
  destruct (ge0 (Num q)); [|now left]. right.
  cbn [Partial.engineLoad Partial.set_engineLoad].
  destruct (Math_round_within q 0 100 0 100 (R04 eq_refl) eq_refl eq_refl)
    as (n & -> & Hn).
  now exists n.
Qed.

End Ranges.

Lemma truthy_positive (q : Q) : 0 < q -> truthy (Some (Num q)) = true.
Proof.
  intros H. unfold truthy. destruct (Qeq_bool q 0) eqn:E; [|reflexivity].
  apply Qeq_bool_iff in E. rewrite E in H. now apply Qlt_irrefl in H.
Qed.

(** Every snapshot a polling cycle hands to [onDataReceived] is within
    bounds, whatever the adapter answered: the engine speed is a whole number
    from 0 to 16384, the vehicle speed from 0 to 255, the coolant temperature
    from -40 to 419, the engine load from 0 to 100; the voltage lies between
    12 and 14 (both ends included: the sum is rounded to a double, which can
    reach 14) and the fuel pressure is a whole number from 35 to 44.  These
    two are the simulated values that [readOBDData] put into the data, so
    their defaults [12.4] and [0] are never used. *)
Theorem snapshot_within_bounds (A : Adapter) (w : World A) (random1 random2 : Q) :
  0 <= random1 < 1 -> 0 <= random2 < 1 ->
  characteristicRef w <> None ->
  exists partial data,
    snd (readOBDData random1 random2 w) = Ok partial
    /\ data = completeData partial
    /\ events (fst (pollTick true random1 random2 w))
       = (events w ++ [OnDataReceived data])%list
    /\ (exists n, rpm data = ofZ n /\ (0 <= n <= 16384)%Z)
    /\ (exists n, speed data = ofZ n /\ (0 <= n <= 255)%Z)
    /\ (exists n, coolantTemp data = ofZ n /\ (-40 <= n <= 419)%Z)
    /\ (exists n, engineLoad data = ofZ n /\ (0 <= n <= 100)%Z)
    /\ (exists v, voltage data = Num v /\ 12 <= v <= 14)
    /\ (exists k, fuelPressure data = Num (35 + inject_Z k) /\ (0 <= k <= 9)%Z)
    /\ Partial.voltage partial = Some (voltage data)
    /\ Partial.fuelPressure partial = Some (fuelPressure data).
Proof.
  intros [L1 U1] [L2 U2] Hc.
  exists (cycleData w random1 random2), (completeData (cycleData w random1 random2)).
  split; [now rewrite readOBDData_cycleData|].
  split; [reflexivity|].
  split; [now apply pollTick_emits|].
  unfold completeData. cbn [rpm speed coolantTemp engineLoad voltage fuelPressure].
  rewrite cycleData_rpm, cycleData_speed, cycleData_coolantTemp, cycleData_engineLoad.
  assert (V : 12 <= 12 + random1 * 2 <= 14).
  { split.
    - rewrite <- (Qplus_0_r 12) at 1. apply Qplus_le_r.
      apply Qmult_le_0_compat; [exact L1 | discriminate].
    - apply Qlt_le_weak.
      setoid_replace 14 with (12 + 1 * 2) by reflexivity.
      apply Qplus_lt_r. apply Qmult_lt_r; [reflexivity | exact U1]. }
  assert (K : (0 <= Qfloor (random2 * 10) <= 9)%Z).
  { split.
    - change 0%Z with (Qfloor 0). apply Qfloor_resp_le.
      apply Qmult_le_0_compat; [exact L2 | discriminate].
    - assert (Qfloor (random2 * 10) < 10)%Z; [|lia].
      rewrite Zlt_Qlt. apply Qle_lt_trans with (random2 * 10); [apply Qfloor_le|].
      setoid_replace (inject_Z 10) with (1 * 10) by reflexivity.
      apply Qmult_lt_r; [reflexivity | exact U2]. }
  assert (Ev : orElse (Partial.voltage (cycleData w random1 random2)) (Num (124 # 10))
               = Num (12 + random1 * 2)
               /\ Partial.voltage (cycleData w random1 random2)
                  = Some (Num (12 + random1 * 2))).
  { unfold cycleData. cbn [Partial.voltage Partial.set_fuelPressure Partial.set_voltage].
    change (add (ofZ 12) (mul (Num random1) (ofZ 2))) with (Num (12 + random1 * 2)).
    split; [|reflexivity].
    unfold orElse. rewrite truthy_positive; [reflexivity|].
    apply Qlt_le_trans with 12; [reflexivity | apply V]. }
  assert (Ef : orElse (Partial.fuelPressure (cycleData w random1 random2)) (ofZ 0)
               = Num (35 + inject_Z (Qfloor (random2 * 10)))
               /\ Partial.fuelPressure (cycleData w random1 random2)
                  = Some (Num (35 + inject_Z (Qfloor (random2 * 10))))).
  { unfold cycleData. cbn [Partial.fuelPressure Partial.set_fuelPressure].
    change (add (ofZ 35) (Math_floor (mul (Num random2) (ofZ 10))))
      with (Num (35 + inject_Z (Qfloor (random2 * 10)))).
    split; [|reflexivity].
    unfold orElse. rewrite truthy_positive; [reflexivity|].
    apply Qlt_le_trans with 35; [reflexivity|].
    rewrite <- (Qplus_0_r 35) at 1. apply Qplus_le_r.
    change 0 with (inject_Z 0). rewrite <- Zle_Qle. apply K. }
  destruct Ev as [Ev Pv]. destruct Ef as [Ef Pf].
  rewrite Ev, Ef.
  repeat match goal with |- _ /\ _ => split end.
  - apply orElse_within; [apply afterRpm_within | lia].
  - apply orElse_within; [apply afterSpeed_within | lia].
  - apply orElse_within; [apply afterTemp_within | lia].
  - apply orElse_within; [apply afterLoad_within | lia].
  - exists (12 + random1 * 2). split; [reflexivity | exact V].
  - exists (Qfloor (random2 * 10)). split; [reflexivity | exact K].
  - exact Pv.
  - exact Pf.
Qed.

Lemma snapshot_within_bounds_witness :
  exists partial data,
    snd (readOBDData (1 # 2) (1 # 2) (Elm.connected Elm.never Elm.idling)) = Ok partial
    /\ data = completeData partial
    /\ events (fst (pollTick true (1 # 2) (1 # 2) (Elm.connected Elm.never Elm.idling)))
       = (events (Elm.connected Elm.never Elm.idling) ++ [OnDataReceived data])%list
    /\ (exists n, rpm data = ofZ n /\ (0 <= n <= 16384)%Z)
    /\ (exists n, speed data = ofZ n /\ (0 <= n <= 255)%Z)
    /\ (exists n, coolantTemp data = ofZ n /\ (-40 <= n <= 419)%Z)
    /\ (exists n, engineLoad data = ofZ n /\ (0 <= n <= 100)%Z)
    /\ (exists v, voltage data = Num v /\ 12 <= v <= 14)
    /\ (exists k, fuelPressure data = Num (35 + inject_Z k) /\ (0 <= k <= 9)%Z)
    /\ Partial.voltage partial = Some (voltage data)
    /\ Partial.fuelPressure partial = Some (fuelPressure data).
Proof.
  apply (snapshot_within_bounds _ (Elm.connected Elm.never Elm.idling));
    [split; [discriminate | reflexivity]
    |split; [discriminate | reflexivity]
    |discriminate].
Defined.

Lemma loadExchange_sameHook (A : Adapter) (w : World A) :
  sameHook w (fst (loadExchange w)).
Proof.
  apply sameHook_trans with (fst (tempExchange w)); [|apply sendOBDCommand_sameHook].
  apply sameHook_trans with (fst (speedExchange w)); [|apply sendOBDCommand_sameHook].
  apply sameHook_trans with (fst (rpmExchange w)); apply sendOBDCommand_sameHook.
Qed.

(** A run of the interval callback never throws and never touches the state
    of the connection: it changes at most the state of the adapter and the
    trace, to which it adds nothing or one call of [onDataReceived]; with
    [isConnected] false or no characteristic set it does nothing at all. *)
Theorem pollTick_frame (A : Adapter) (w : World A) (isConnected0 : bool)
    (random1 random2 : Q) :
  snd (pollTick isConnected0 random1 random2 w) = Ok tt
  /\ (exists d trace,
        fst (pollTick isConnected0 random1 random2 w)
        = mkWorld d (bleManagerRef w) (characteristicRef w) (connectedDeviceRef w)
            (dataPollingRef w) (isScanning w) (isConnecting w) (isConnected w)
            (events w ++ trace)
        /\ (trace = [] \/ exists data, trace = [OnDataReceived data]))
  /\ (isConnected0 = false \/ characteristicRef w = None ->
      pollTick isConnected0 random1 random2 w = (w, Ok tt)).
Proof.
  assert (Idle : forall v : World A,
            exists d trace,
              v = mkWorld d (bleManagerRef v) (characteristicRef v)
                    (connectedDeviceRef v) (dataPollingRef v) (isScanning v)
                    (isConnecting v) (isConnected v) (events v ++ trace)
              /\ (trace = [] \/ exists data, trace = [OnDataReceived data])).
  { intros v. exists (adapter v), []. rewrite app_nil_r. split; [now destruct v | now left]. }
  unfold pollTick. destruct isConnected0.
  2:{ split; [reflexivity | split; [apply Idle | reflexivity]]. }
  destruct (characteristicRef w) as [c|] eqn:Ec.
  2:{ split; [reflexivity | split; [|reflexivity]].
      pose proof (Idle w) as I. rewrite Ec in I. exact I. }
  unfold bind. rewrite readOBDData_cycleData.
  destruct (loadExchange_sameHook A w) as [d Hd].
  split; [|split].
  - destruct (0 <? Partial.keys (cycleData w random1 random2))%nat; reflexivity.
  - destruct (0 <? Partial.keys (cycleData w random1 random2))%nat; cbn; rewrite Hd; cbn.
    + exists d, [OnDataReceived (completeData (cycleData w random1 random2))].
      rewrite Ec. split; [reflexivity | right; now eexists].
    + exists d, []. unfold withAdapter. rewrite app_nil_r, Ec.
      split; [reflexivity | now left].
  - intros [H|H]; discriminate H.
Qed.

(* ================================================================== *)
(** * Further properties of connecting *)
(* ================================================================== *)

Lemma findTarget_spec (services : list (result (list Characteristic))) :
  match findTarget services with
  | Ok (Some target) =>
      exists before characteristics after,
        services = (before ++ Ok characteristics :: after)%list
        /\ Forall unusable before
        /\ find writable characteristics = Some target
  | Ok None => Forall unusable services
  | Throw e =>
      exists before after,
        services = (before ++ Throw e :: after)%list /\ Forall unusable before
  end.
Proof.
  induction services as [|[characteristics|e] rest IH]; cbn [findTarget].
  - constructor.
  - change (fun char => isWritableWithResponse char || isWritableWithoutResponse char)
      with writable.
    destruct (find writable characteristics) as [target|] eqn:F.
    + exists [], characteristics, rest. repeat split; [constructor | exact F].
    + assert (U : unusable (Ok characteristics)).
      { exists characteristics. split; [reflexivity|].
        apply Forall_forall. intros c Hc. exact (find_none _ _ F c Hc). }
      destruct (findTarget rest) as [[target|]|e].
      * destruct IH as (before & cs & after & -> & Hb & Hf).
        exists (Ok characteristics :: before), cs, after.
        repeat split; [now constructor | exact Hf].
      * now constructor.
      * destruct IH as (before & after & -> & Hb).
        exists (Ok characteristics :: before), after. split; [reflexivity | now constructor].
  - exists [], rest. split; [reflexivity | constructor].
Qed.

(** The characteristic [connectToDevice] chooses is writable, with or without
    response, and is the first such characteristic of the first service that
    has one: every service before it answered and had none.  None is chosen
    only when every service answered and none has a writable characteristic,
    and the error of a service is thrown on only when the services before it
    had none. *)
Theorem findTarget_first_writable (services : list (result (list Characteristic))) :
  (forall target,
     findTarget services = Ok (Some target) ->
     writable target = true
     /\ exists before characteristics after,
          services = (before ++ Ok characteristics :: after)%list
          /\ Forall unusable before
          /\ find writable characteristics = Some target)
  /\ (findTarget services = Ok None -> Forall unusable services)
  /\ (forall e,
        findTarget services = Throw e ->
        exists before after,
          services = (before ++ Throw e :: after)%list /\ Forall unusable before).
Proof.
  pose proof (findTarget_spec services) as S.
  repeat split.
  - rewrite H in S. destruct S as (_ & cs & _ & _ & _ & F).
    exact (proj2 (find_some _ _ F)).
  - rewrite H in S. exact S.
  - intros H. now rewrite H in S.
  - intros e H. now rewrite H in S.
Qed.

Lemma findTarget_first_writable_witness :
  writable (mkCharacteristic "fff2" false true) = true
  /\ exists before characteristics after,
       [Ok [mkCharacteristic "2a00" false false];
        Ok [mkCharacteristic "fff1" false false; mkCharacteristic "fff2" false true];
        Throw "BleError: Service not found"]
       = (before ++ Ok characteristics :: after)%list
       /\ Forall unusable before
       /\ find writable characteristics = Some (mkCharacteristic "fff2" false true).
Proof.
  apply (proj1 (findTarget_first_writable
                  [Ok [mkCharacteristic "2a00" false false];
                   Ok [mkCharacteristic "fff1" false false;
                       mkCharacteristic "fff2" false true];
                   Throw "BleError: Service not found"])).
  reflexivity.
Defined.

Lemma linkTarget_linkFailure (ble : BleAnswers) :
  match linkTarget ble with
  | Some _ => linkFailure ble = None
  | None => exists e, linkFailure ble = Some e
  end.
Proof.
  unfold linkTarget, linkFailure.
  destruct (connectResult ble); [|now eexists].
  destruct (discoverResult ble); [|now eexists].
  destruct (servicesResult ble) as [services|]; [|now eexists].
  destruct (findTarget services) as [[target|]|]; [reflexivity | now eexists | now eexists].
Qed.

Lemma connectToDevice_failed_link (A : Adapter) (w : World A)
    (ble : BleAnswers) (device : Device) :
  (forall e,
     bleManagerRef w = true -> linkFailure ble = Some e ->
     fst (connectToDevice ble device w)
     = mkWorld (adapter w) true (characteristicRef w) (connectedDeviceRef w)
         (dataPollingRef w) false false (isConnected w)
         (events w ++ [SetIsConnecting true; StopDeviceScan; SetIsScanning false;
                       SetIsConnecting false;
                       OnError ("Connection failed: " ++ e)]))
  /\ (bleManagerRef w = false ->
      fst (connectToDevice ble device w)
      = mkWorld (adapter w) false (characteristicRef w) (connectedDeviceRef w)
          (dataPollingRef w) (isScanning w) (isConnecting w) (isConnected w)
          (events w ++ [OnError "Bluetooth manager not initialized"])).
Proof.
  split.
  - intros e Hb Hf. unfold connectToDevice. rewrite Hb. cbn [negb].
    unfold linkFailure in Hf.
    unfold tryCatch, bind, await, setIsConnecting, setIsScanning, emit. cbn.
    destruct (connectResult ble) as [[]|e1].
    2:{ injection Hf as ->. cbn. now rewrite Hb, <- !app_assoc. }
    destruct (discoverResult ble) as [[]|e2].
    2:{ injection Hf as ->. cbn. now rewrite Hb, <- !app_assoc. }
    destruct (servicesResult ble) as [services|e3].
    2:{ injection Hf as ->. cbn. now rewrite Hb, <- !app_assoc. }
    destruct (findTarget services) as [[target|]|e4]; [discriminate| |];
      injection Hf as <-; cbn; now rewrite Hb, <- !app_assoc.
  - intros Hb. unfold connectToDevice. rewrite Hb. cbn. now rewrite Hb.
Qed.

(** A connection attempt that ends before a characteristic is chosen (the
    link does not come up, the discovery or a service fails, or no
    characteristic is writable) leaves the connection as it was: the refs,
    the connected state, the polling and the adapter are untouched, nothing
    is written, [onConnectionChange] is not called, and the failure is told
    once through [onError], as 'Connection failed: ' and the error.  Without
    a BLE manager the only effect is one [onError]. *)
Theorem connectToDevice_link_failure (A : Adapter) (w : World A)
    (ble : BleAnswers) (device : Device) :
  (forall e,
     bleManagerRef w = true -> linkFailure ble = Some e ->
     fst (connectToDevice ble device w)
     = mkWorld (adapter w) true (characteristicRef w) (connectedDeviceRef w)
         (dataPollingRef w) false false (isConnected w)
         (events w ++ [SetIsConnecting true; StopDeviceScan; SetIsScanning false;
                       SetIsConnecting false;
                       OnError ("Connection failed: " ++ e)]))
  /\ (bleManagerRef w = false ->
      fst (connectToDevice ble device w)
      = mkWorld (adapter w) false (characteristicRef w) (connectedDeviceRef w)
          (dataPollingRef w) (isScanning w) (isConnecting w) (isConnected w)
          (events w ++ [OnError "Bluetooth manager not initialized"])).
Proof. apply connectToDevice_failed_link. Qed.

Lemma connectToDevice_link_failure_witness :
  fst (connectToDevice (mkBleAnswers (Throw "BleError: Operation timed out") (Ok tt) (Ok []))
         (mkDevice "AA:BB" (Some "OBDII")) (Elm.idle Elm.never Elm.echoing))
  = mkWorld (adapter (Elm.idle Elm.never Elm.echoing)) true
      (characteristicRef (Elm.idle Elm.never Elm.echoing))
      (connectedDeviceRef (Elm.idle Elm.never Elm.echoing))
      (dataPollingRef (Elm.idle Elm.never Elm.echoing)) false false
      (isConnected (Elm.idle Elm.never Elm.echoing))
      (events (Elm.idle Elm.never Elm.echoing)
       ++ [SetIsConnecting true; StopDeviceScan; SetIsScanning false;
           SetIsConnecting false;
           OnError ("Connection failed: " ++ "BleError: Operation timed out")]).
Proof.
  apply (proj1 (connectToDevice_link_failure _ (Elm.idle Elm.never Elm.echoing)
                  (mkBleAnswers (Throw "BleError: Operation timed out") (Ok tt) (Ok []))
                  (mkDevice "AA:BB" (Some "OBDII"))));
    reflexivity.
Defined.

Lemma connectToDevice_connected (A : Adapter) (w : World A)
    (ble : BleAnswers) (device : Device) (target : Characteristic) :
  bleManagerRef w = true ->
  linkTarget ble = Some target ->
  snd (initializeOBDConnection (reportedConnected target device w)) = Ok tt ->
  exists d,
    connectToDevice ble device w
    = (mkWorld d true (Some target) (Some device) true false false true
         (events w ++ [SetIsConnecting true; StopDeviceScan; SetIsScanning false;
                       SetIsConnected true; SetIsConnecting false;
                       OnConnectionChange true]), Ok tt)
    /\ d = adapter (fst (initializeOBDConnection (reportedConnected target device w))).
Proof.
  intros Hb Ht Hi.
  pose proof (initializeOBDConnection_sameHook A (reportedConnected target device w))
    as [d Hw].
  exists d. revert Hi Hw. unfold connectToDevice.
  generalize (@initializeOBDConnection A) as init. intros init Hi Hw.
  rewrite Hb. cbn [negb].
  unfold linkTarget in Ht.
  destruct (connectResult ble) as [[]|]; [|discriminate].
  destruct (discoverResult ble) as [[]|]; [|discriminate].
  destruct (servicesResult ble) as [services|]; [|discriminate].
  destruct (findTarget services) as [[t|]|] eqn:F; try discriminate.
  injection Ht as ->.
  unfold tryCatch, bind, await, setIsConnecting, setIsScanning, setIsConnected,
    setRefs, emit.
  cbn. rewrite F. cbn.
  rewrite <- !app_assoc. cbn [app].
  fold (reportedConnected target device w).
  destruct (init (reportedConnected target device w)) as [w2 r].
  cbn in Hw, Hi. subst w2 r. cbn. rewrite Hb. split; reflexivity.
Qed.

(** When a writable characteristic is found and the handshake goes through,
    the attempt ends with the hook connected to that characteristic and
    device, the polling started, the scan and connecting flags down, and a
    trace of exactly the six state changes of a connection: no [onError],
    and [onConnectionChange(true)] once. *)
Theorem connectToDevice_success (A : Adapter) (w : World A)
    (ble : BleAnswers) (device : Device) (target : Characteristic) :
  bleManagerRef w = true ->
  linkTarget ble = Some target ->
  snd (initializeOBDConnection (reportedConnected target device w)) = Ok tt ->
  exists d,
    connectToDevice ble device w
    = (mkWorld d true (Some target) (Some device) true false false true
         (events w ++ [SetIsConnecting true; StopDeviceScan; SetIsScanning false;
                       SetIsConnected true; SetIsConnecting false;
                       OnConnectionChange true]), Ok tt)
    /\ d = adapter (fst (initializeOBDConnection (reportedConnected target device w))).
Proof. now apply connectToDevice_connected. Qed.

Lemma connectToDevice_success_witness :
  exists d,
    connectToDevice
      (mkBleAnswers (Ok tt) (Ok tt) (Ok [Ok [mkCharacteristic "fff1" true false]]))
      (mkDevice "AA:BB" (Some "OBDII")) (Elm.idle Elm.never Elm.echoing)
    = (mkWorld d true (Some (mkCharacteristic "fff1" true false))
         (Some (mkDevice "AA:BB" (Some "OBDII"))) true false false true
         (events (Elm.idle Elm.never Elm.echoing)
          ++ [SetIsConnecting true; StopDeviceScan; SetIsScanning false;
              SetIsConnected true; SetIsConnecting false;
              OnConnectionChange true]), Ok tt)
    /\ d = adapter (fst (initializeOBDConnection
                           (reportedConnected (mkCharacteristic "fff1" true false)
                              (mkDevice "AA:BB" (Some "OBDII"))
                              (Elm.idle Elm.never Elm.echoing)))).
Proof.
  apply (connectToDevice_success _ (Elm.idle Elm.never Elm.echoing)); reflexivity.
Defined.

Lemma linkTarget_answers (ble : BleAnswers) (target : Characteristic) :
  linkTarget ble = Some target ->
  connectResult ble = Ok tt /\ discoverResult ble = Ok tt
  /\ exists services,
       servicesResult ble = Ok services /\ findTarget services = Ok (Some target).
Proof.
  unfold linkTarget. intros H.
  destruct (connectResult ble) as [[]|]; [|discriminate].
  destruct (discoverResult ble) as [[]|]; [|discriminate].
  destruct (servicesResult ble) as [services|]; [|discriminate].
  destruct (findTarget services) as [[t|]|] eqn:F; try discriminate.
  injection H as ->. repeat split. now exists services.
Qed.

(** [connectToDevice] never throws, and every failure is reported through
    [onError]: whatever the BLE library and the adapter do, the call
    returns.  Either the attempt succeeded (a manager, a writable
    characteristic, a handshake that returned) and no [onError] was called;
    or the last callback is an [onError], the only one of the call, with
    'Bluetooth manager not initialized' when there is no manager and
    'Connection failed: ' followed by the error that ended the attempt
    otherwise, be it an error of the link or of the handshake. *)
Theorem connectToDevice_never_throws (A : Adapter) (w : World A)
    (ble : BleAnswers) (device : Device) :
  snd (connectToDevice ble device w) = Ok tt
  /\ exists added,
       events (fst (connectToDevice ble device w)) = (events w ++ added)%list
       /\ ((bleManagerRef w = true
            /\ (exists target,
                  linkTarget ble = Some target
                  /\ snd (initializeOBDConnection (reportedConnected target device w))
                     = Ok tt)
            /\ noError added)
           \/ (exists before error,
                 added = (before ++ [OnError error])%list
                 /\ noError before
                 /\ ((bleManagerRef w = false
                      /\ error = "Bluetooth manager not initialized")
                     \/ (bleManagerRef w = true
                         /\ exists e,
                              error = ("Connection failed: " ++ e)%string
                              /\ (linkFailure ble = Some e
                                  \/ exists target,
                                       linkTarget ble = Some target
                                       /\ snd (initializeOBDConnection
                                                 (reportedConnected target device w))
                                          = Throw e))))).
Proof.
  split.
  { unfold connectToDevice.
    destruct (bleManagerRef w); cbn [negb]; [|reflexivity].
    unfold tryCatch.
    match goal with
    | |- snd (match ?m with _ => _ end) = _ => destruct m as [w' [[]|e]]
    end; reflexivity. }
  destruct (bleManagerRef w) eqn:Hb.
  - pose proof (linkTarget_linkFailure ble) as D.
    destruct (linkTarget ble) as [target|] eqn:Ht.
    + destruct (snd (initializeOBDConnection (reportedConnected target device w)))
        as [[]|e] eqn:Hi.
      * destruct (connectToDevice_connected A w ble device target Hb Ht Hi)
          as (d & E & _).
        rewrite E. cbn [fst events]. eexists. split; [reflexivity|].
        left. split; [reflexivity|]. split; [now exists target|].
        intros error H. cbn in H.
        repeat (destruct H as [H|H]; [discriminate H|]). exact H.
      * destruct (linkTarget_answers ble target Ht) as (Hc & Hd & services & Hs & Hf).
        destruct (connectToDevice_handshake_failure A w ble device services target e
                    Hb Hc Hd Hs Hf Hi) as (_ & _ & E).
        rewrite E.
        exists [SetIsConnecting true; StopDeviceScan; SetIsScanning false;
                SetIsConnected true; SetIsConnecting false; OnConnectionChange true;
                SetIsConnecting false; OnError ("Connection failed: " ++ e)].
        split; [reflexivity|]. right.
        exists [SetIsConnecting true; StopDeviceScan; SetIsScanning false;
                SetIsConnected true; SetIsConnecting false; OnConnectionChange true;
                SetIsConnecting false], ("Connection failed: " ++ e)%string.
        split; [reflexivity|]. split.
        { intros error H. cbn in H.
          repeat (destruct H as [H|H]; [discriminate H|]). exact H. }
        right. split; [reflexivity|]. exists e. split; [reflexivity|].
        right. now exists target.
    + destruct D as [e He].
      rewrite (proj1 (connectToDevice_failed_link A w ble device) e Hb He).
      cbn [events].
      exists [SetIsConnecting true; StopDeviceScan; SetIsScanning false;
              SetIsConnecting false; OnError ("Connection failed: " ++ e)].
      split; [reflexivity|]. right.
      exists [SetIsConnecting true; StopDeviceScan; SetIsScanning false;
              SetIsConnecting false], ("Connection failed: " ++ e)%string.
      split; [reflexivity|]. split.
      { intros error H. cbn in H.
        repeat (destruct H as [H|H]; [discriminate H|]). exact H. }
      right. split; [reflexivity|]. exists e. split; [reflexivity|]. now left.
  - rewrite (proj2 (connectToDevice_failed_link A w ble device) Hb). cbn [events].
    exists [OnError "Bluetooth manager not initialized"].
    split; [reflexivity|]. right.
    exists [], "Bluetooth manager not initialized".
    split; [reflexivity|]. split; [intros error H; exact H|].
    left. split; reflexivity.
Qed.

(* ================================================================== *)
(** * Disconnecting *)
(* ================================================================== *)

Lemma disconnect_clean (A : Adapter) (s : Session A)
    (cancelConnection : result unit) :
  cancelConnection = Ok tt \/ connectedDeviceRef (hook s) = None ->
  disconnect cancelConnection s
  = mkSession
      (mkWorld (adapter (hook s)) (bleManagerRef (hook s)) None None false
         (isScanning (hook s)) (isConnecting (hook s)) false
         (events (hook s) ++ disconnectTrace (bleManagerRef (hook s))))
      false []
  /\ (forall command,
        sendOBDCommand command (hook (disconnect cancelConnection s))
        = (hook (disconnect cancelConnection s),
           Throw "Error: No active OBD connection"))
  /\ (forall isConnected0 random1 random2,
        pollTick isConnected0 random1 random2 (hook (disconnect cancelConnection s))
        = (hook (disconnect cancelConnection s), Ok tt)).
Proof.
  intros H.
  assert (E : disconnect cancelConnection s
              = mkSession
                  (mkWorld (adapter (hook s)) (bleManagerRef (hook s)) None None false
                     (isScanning (hook s)) (isConnecting (hook s)) false
                     (events (hook s) ++ disconnectTrace (bleManagerRef (hook s))))
                  false []).
  { unfold disconnect, disconnectTrace, onHook. cbn.
    destruct (bleManagerRef (hook s)) eqn:B; cbn; rewrite ?B;
      (destruct (connectedDeviceRef (hook s)) as [dv|] eqn:D;
       [destruct H as [->|H]; [|discriminate H]|]);
      cbn; rewrite ?B, <- ?app_assoc; reflexivity. }
  rewrite E. split; [reflexivity|]. split.
  - intros command. reflexivity.
  - intros b r1 r2. unfold pollTick. cbn. now destruct b.
Qed.

(** When the link is given up without an error (no device connected, or
    [cancelConnection] succeeds), [disconnect] leaves nothing of the
    connection: both refs are cleared, the connected state is false, the
    polling and the scan timer are cleared, the device list is empty, and
    [onConnectionChange(false)] closes the trace.  From then on
    [sendOBDCommand] throws 'No active OBD connection' without writing, and a
    run of the interval callback does nothing. *)
Theorem disconnect_releases (A : Adapter) (s : Session A)
    (cancelConnection : result unit) :
  cancelConnection = Ok tt \/ connectedDeviceRef (hook s) = None ->
  disconnect cancelConnection s
  = mkSession
      (mkWorld (adapter (hook s)) (bleManagerRef (hook s)) None None false
         (isScanning (hook s)) (isConnecting (hook s)) false
         (events (hook s) ++ disconnectTrace (bleManagerRef (hook s))))
      false []
  /\ (forall command,
        sendOBDCommand command (hook (disconnect cancelConnection s))
        = (hook (disconnect cancelConnection s),
           Throw "Error: No active OBD connection"))
  /\ (forall isConnected0 random1 random2,
        pollTick isConnected0 random1 random2 (hook (disconnect cancelConnection s))
        = (hook (disconnect cancelConnection s), Ok tt)).
Proof. apply disconnect_clean. Qed.

Lemma disconnect_releases_witness :
  disconnect (Ok tt) (mkSession (Elm.connected Elm.never Elm.idling) true [])
  = mkSession
      (mkWorld (adapter (Elm.connected Elm.never Elm.idling)) true None None false
         false false false
         (events (Elm.connected Elm.never Elm.idling) ++ disconnectTrace true))
      false [].
Proof.
  apply (proj1 (disconnect_releases _
                  (mkSession (Elm.connected Elm.never Elm.idling) true [])
                  (Ok tt) (or_introl eq_refl))).
Defined.

(** When [cancelConnection] throws, [disconnect] stops half-way: the polling
    and the scan timer are cleared and the scan is stopped, but both refs and
    the connected state stay as they were, the device list is kept, and
    neither [onConnectionChange] nor [onError] is called. *)
Theorem disconnect_cancel_throws (A : Adapter) (s : Session A)
    (device : Device) (e : string) :
  connectedDeviceRef (hook s) = Some device ->
  disconnect (Throw e) s
  = mkSession
      (mkWorld (adapter (hook s)) (bleManagerRef (hook s))
         (characteristicRef (hook s)) (Some device) false
         (isScanning (hook s)) (isConnecting (hook s)) (isConnected (hook s))
         (events (hook s)
          ++ (if bleManagerRef (hook s) then [StopDeviceScan] else [])))
      false (availableDevices s).
Proof.
  intros D. unfold disconnect, onHook. cbn.
  destruct (bleManagerRef (hook s)) eqn:B; cbn; rewrite D, ?B, ?app_nil_r; reflexivity.
Qed.

Lemma disconnect_cancel_throws_witness :
  disconnect (Throw "BleError: Device not connected")
    (mkSession (Elm.connected Elm.never Elm.idling) true [])
  = mkSession
      (mkWorld (adapter (Elm.connected Elm.never Elm.idling)) true
         (characteristicRef (Elm.connected Elm.never Elm.idling))
         (Some (mkDevice "AA:BB" (Some "OBDII"))) false false false true
         (events (Elm.connected Elm.never Elm.idling) ++ [StopDeviceScan]))
      false [].
Proof.
  apply (disconnect_cancel_throws _
           (mkSession (Elm.connected Elm.never Elm.idling) true [])
           (mkDevice "AA:BB" (Some "OBDII")) "BleError: Device not connected").
  reflexivity.
Defined.

(** The Bluetooth state listener acts on [PoweredOff] only: it then reports
    'Bluetooth was turned off' through [onError] and disconnects; every other
    state leaves the session as it is. *)
Theorem stateListener_powered_off (A : Adapter) (s : Session A) (state : string)
    (cancelConnection : result unit) :
  (state <> "PoweredOff" -> stateListener state cancelConnection s = s)
  /\ (state = "PoweredOff" ->
      cancelConnection = Ok tt \/ connectedDeviceRef (hook s) = None ->
      stateListener state cancelConnection s
      = mkSession
          (mkWorld (adapter (hook s)) (bleManagerRef (hook s)) None None false
             (isScanning (hook s)) (isConnecting (hook s)) false
             (events (hook s)
              ++ OnError "Bluetooth was turned off"
                 :: disconnectTrace (bleManagerRef (hook s))))
          false []).
Proof.
  unfold stateListener. split.
  - intros N. apply String.eqb_neq in N. now rewrite N.
  - intros -> H. cbn [String.eqb Ascii.eqb Bool.eqb].
    rewrite (proj1 (disconnect_clean A
                      (fst (onHook (emit (OnError "Bluetooth was turned off")) s))
                      cancelConnection H)).
    unfold onHook. cbn. now rewrite <- app_assoc.
Qed.

Lemma stateListener_powered_off_witness :
  stateListener "PoweredOn" (Ok tt) (mkSession (Elm.connected Elm.never Elm.idling) true [])
  = mkSession (Elm.connected Elm.never Elm.idling) true []
  /\ stateListener "PoweredOff" (Ok tt)
       (mkSession (Elm.connected Elm.never Elm.idling) true [])
     = mkSession
         (mkWorld (adapter (Elm.connected Elm.never Elm.idling)) true None None false
            false false false
            [OnError "Bluetooth was turned off"; StopDeviceScan;
             SetIsConnected false; OnConnectionChange false])
         false [].
Proof.
  split.
  - apply (proj1 (stateListener_powered_off _
                    (mkSession (Elm.connected Elm.never Elm.idling) true [])
                    "PoweredOn" (Ok tt))).
    discriminate.
  - apply (proj2 (stateListener_powered_off _
                    (mkSession (Elm.connected Elm.never Elm.idling) true [])
                    "PoweredOff" (Ok tt)) eq_refl).
    now left.
Defined.

(* ================================================================== *)
(** * Permissions and scanning *)
(* ================================================================== *)

Lemma requestBluetoothPermissions_cases (A : Adapter) (w : World A)
    (platform0 : Platform)
    (requestMultiple0 : list string -> result (list (string * string))) :
  (permitted platform0 requestMultiple0 = true ->
   requestBluetoothPermissions platform0 requestMultiple0 w = (w, Ok true))
  /\ (permitted platform0 requestMultiple0 = false ->
      exists error,
        requestBluetoothPermissions platform0 requestMultiple0 w
        = (fst (emit (OnError error) w), Ok false)).
Proof.
  unfold permitted, requestBluetoothPermissions.
  destruct platform0 as [| |version].
  - split; [discriminate | intros _; eexists; reflexivity].
  - split; [reflexivity | discriminate].
  - unfold tryCatch, bind, await.
    destruct (requestMultiple0 (androidPermissions version)) as [granted|e].
    + destruct (forallb (fun p => (snd p =? GRANTED)%string) granted);
        (split; [try discriminate; reflexivity
                |try discriminate; intros _; eexists; reflexivity]).
    + split; [discriminate | intros _; eexists; reflexivity].
Qed.

(** [requestBluetoothPermissions] never throws and changes nothing but the
    trace.  It answers true, with no callback, exactly when the permissions
    are in hand (iOS, or Android with every requested permission granted:
    the location, and from API level 31 on also the Bluetooth scan and
    connect permissions); otherwise it answers false after exactly one
    [onError]. *)
Theorem requestBluetoothPermissions_outcome (A : Adapter) (w : World A)
    (platform0 : Platform)
    (requestMultiple0 : list string -> result (list (string * string))) :
  (permitted platform0 requestMultiple0 = true ->
   requestBluetoothPermissions platform0 requestMultiple0 w = (w, Ok true))
  /\ (permitted platform0 requestMultiple0 = false ->
      exists error,
        requestBluetoothPermissions platform0 requestMultiple0 w
        = (fst (emit (OnError error) w), Ok false)).
Proof. apply requestBluetoothPermissions_cases. Qed.

Lemma requestBluetoothPermissions_outcome_witness :
  requestBluetoothPermissions (android 33)
    (fun permissions => Ok (map (fun p => (p, GRANTED)) permissions))
    (Elm.idle Elm.never Elm.echoing)
  = (Elm.idle Elm.never Elm.echoing, Ok true).
Proof.
  apply (proj1 (requestBluetoothPermissions_outcome _ (Elm.idle Elm.never Elm.echoing)
                  (android 33)
                  (fun permissions => Ok (map (fun p => (p, GRANTED)) permissions)))).
  reflexivity.
Defined.

Lemma addDevice_spec (device : Peripheral) (prev : list Found) :
  (In (peripheralId device) (foundIds prev) /\ addDevice device prev = prev)
  \/ (~ In (peripheralId device) (foundIds prev)
      /\ addDevice device prev
         = (prev ++ [mkFound (mkDevice (peripheralId device) (peripheralName device))
                       (peripheralRssi device)])%list).
Proof.
  unfold addDevice.
  destruct (find (fun d => (id (found d) =? peripheralId device)%string) prev)
    as [d|] eqn:F.
  - left. split; [|reflexivity].
    destruct (find_some _ _ F) as [Hin E]. apply String.eqb_eq in E.
    rewrite <- E. unfold foundIds.
    exact (in_map (fun x => id (found x)) prev d Hin).
  - right. split; [|reflexivity].
    intros H. unfold foundIds in H. apply in_map_iff in H as (d & E & Hin).
    pose proof (find_none _ _ F d Hin) as N. apply String.eqb_neq in N. contradiction.
Qed.

Lemma scanListener_step (A : Adapter) (error : option string)
    (device : option Peripheral) (s : Session A) :
  NoDup (foundIds (availableDevices s)) ->
  Forall namedAdapter (availableDevices s) ->
  NoDup (foundIds (availableDevices (scanListener error device s)))
  /\ Forall namedAdapter (availableDevices (scanListener error device s))
  /\ exists added,
       availableDevices (scanListener error device s)
       = (availableDevices s ++ added)%list.
Proof.
  intros N F.
  assert (Same : NoDup (foundIds (availableDevices s))
                 /\ Forall namedAdapter (availableDevices s)
                 /\ exists added, availableDevices s = (availableDevices s ++ added)%list).
  { repeat split; try assumption. exists []. now rewrite app_nil_r. }
  unfold scanListener.
  destruct error as [message|]; [exact Same|].
  destruct device as [d|]; [|exact Same].
  destruct (peripheralName d) as [deviceName|] eqn:E; [|exact Same].
  destruct (negb (deviceName =? "")%string && isOBDDevice (toUpperCase deviceName))
    eqn:G; [|exact Same].
  cbn [availableDevices].
  destruct (addDevice_spec d (availableDevices s)) as [[_ ->]|[Hn ->]]; [exact Same|].
  apply andb_true_iff in G as [G1 G2]. apply negb_true_iff, String.eqb_neq in G1.
  repeat split.
  - unfold foundIds. rewrite map_app. cbn.
    apply NoDup_app; [exact N | repeat constructor; intros [] | ].
    + intros x Hx [<-|[]]. contradiction.
  - apply Forall_app. split; [exact F|]. constructor; [|constructor].
    exists deviceName. cbn. now rewrite E.
  - now eexists.
Qed.

(** However many times the scan listener is called and in whatever order,
    the device list it builds has one entry per device identifier (a device
    advertised again is not added again, and its first entry is kept as it
    is), holds only devices whose name marks an OBD adapter, never loses or
    reorders what it held, and holds every device advertised without an error
    under a name that contains one of the known adapter names, in any letter
    case. *)
Theorem scan_one_entry_per_device (A : Adapter)
    (calls : list (option string * option Peripheral)) (s : Session A) :
  NoDup (foundIds (availableDevices s)) ->
  Forall namedAdapter (availableDevices s) ->
  NoDup (foundIds (availableDevices (scanAll calls s)))
  /\ Forall namedAdapter (availableDevices (scanAll calls s))
  /\ (exists added,
        availableDevices (scanAll calls s) = (availableDevices s ++ added)%list)
  /\ (forall d deviceName,
        In (None, Some d) calls ->
        peripheralName d = Some deviceName ->
        deviceName <> EmptyString ->
        isOBDDevice (toUpperCase deviceName) = true ->
        In (peripheralId d) (foundIds (availableDevices (scanAll calls s)))).
Proof.
  revert s. induction calls as [|[error device] rest IH]; intros s N F.
  - cbn. repeat split; try assumption; [exists []; now rewrite app_nil_r | tauto].
  - cbn [scanAll].
    destruct (scanListener_step A error device s N F) as (N1 & F1 & added1 & E1).
    destruct (IH _ N1 F1) as (N2 & F2 & (added2 & E2) & C2).
    repeat split; try assumption.
    + exists (added1 ++ added2)%list. now rewrite E2, E1, app_assoc.
    + intros d deviceName [H|H] Hname Hne Hobd.
      * injection H as -> ->.
        assert (In (peripheralId d)
                  (foundIds (availableDevices (scanListener None (Some d) s)))).
        { unfold scanListener. rewrite Hname.
          apply String.eqb_neq in Hne. rewrite Hne, Hobd. cbn.
          destruct (addDevice_spec d (availableDevices s)) as [[Hin ->]|[_ ->]];
            [exact Hin|].
          unfold foundIds. rewrite map_app. apply in_or_app. right. now left. }
        rewrite E2. unfold foundIds in *. rewrite map_app. apply in_or_app. now left.
      * exact (C2 d deviceName H Hname Hne Hobd).
Qed.

Lemma scan_one_entry_per_device_witness :
  NoDup (foundIds (availableDevices
           (scanAll [(None, Some (mkPeripheral "AA:BB" (Some "obdii v2.1") (Some (-60)%Z)));
                     (None, Some (mkPeripheral "AA:BB" (Some "obdii v2.1") (Some (-48)%Z)))]
              (mkSession (Elm.idle Elm.never Elm.echoing) true []))))
  /\ availableDevices
       (scanAll [(None, Some (mkPeripheral "AA:BB" (Some "obdii v2.1") (Some (-60)%Z)));
                 (None, Some (mkPeripheral "AA:BB" (Some "obdii v2.1") (Some (-48)%Z)))]
          (mkSession (Elm.idle Elm.never Elm.echoing) true []))
     = [mkFound (mkDevice "AA:BB" (Some "obdii v2.1")) (Some (-60)%Z)].
Proof.
  split; [|reflexivity].
  apply (scan_one_entry_per_device _
           [(None, Some (mkPeripheral "AA:BB" (Some "obdii v2.1") (Some (-60)%Z)));
            (None, Some (mkPeripheral "AA:BB" (Some "obdii v2.1") (Some (-48)%Z)))]
           (mkSession (Elm.idle Elm.never Elm.echoing) true []));
    constructor.
Defined.





(* ================================================================== *)
(** * Reading and clearing the stored codes *)
(* ================================================================== *)

(** With a characteristic set, [readDTCCodes] always ends in one call of
    [onDTCReceived] and never in [onError]: it hands over the codes parsed
    from the response to the Mode 03 request, all of them well formed, and
    the empty list when the exchange throws, so a failed read cannot be told
    from a vehicle without codes.  Without a characteristic it calls
    [onError] with 'No active OBD connection', sends nothing and does not
    call [onDTCReceived]. *)
Theorem readDTCCodes_reports (A : Adapter) (w : World A) :
  (characteristicRef w <> None ->
   exists codes,
     snd (readDTCCodes w) = Ok (Some codes)
     /\ events (fst (readDTCCodes w)) = events w
     /\ Forall surfaced codes
     /\ (forall response,
           snd (sendOBDCommand OBD_PIDS.READ_DTCS w) = Ok response ->
           codes = parseDTCCodes response)
     /\ (forall e, snd (sendOBDCommand OBD_PIDS.READ_DTCS w) = Throw e -> codes = []))
  /\ (characteristicRef w = None ->
      readDTCCodes w
      = (fst (emit (OnError "No active OBD connection") w), Ok None)).
Proof.
  unfold readDTCCodes. split.
  - intros Hc. destruct (characteristicRef w) as [c|] eqn:Ec; [|contradiction].
    unfold tryCatch, bind.
    pose proof (proj1 (sendOBDCommand_frame A OBD_PIDS.READ_DTCS w)) as Ev.
    destruct (sendOBDCommand OBD_PIDS.READ_DTCS w) as [w' [response|e]]; cbn in *.
    + exists (parseDTCCodes response). repeat split; try assumption.
      * apply parseDTCCodes_wellformed.
      * intros r H. now injection H as ->.
      * intros e H. discriminate H.
    + exists []. repeat split; try assumption.
      * constructor.
      * intros r H. discriminate H.
  - intros ->. reflexivity.
Qed.

Lemma readDTCCodes_reports_witness :
  exists codes,
    snd (readDTCCodes (Elm.connected Elm.never Elm.noData)) = Ok (Some codes)
    /\ events (fst (readDTCCodes (Elm.connected Elm.never Elm.noData)))
       = events (Elm.connected Elm.never Elm.noData)
    /\ Forall surfaced codes
    /\ (forall response,
          snd (sendOBDCommand OBD_PIDS.READ_DTCS (Elm.connected Elm.never Elm.noData))
          = Ok response ->
          codes = parseDTCCodes response)
    /\ (forall e,
          snd (sendOBDCommand OBD_PIDS.READ_DTCS (Elm.connected Elm.never Elm.noData))
          = Throw e -> codes = []).
Proof.
  apply (proj1 (readDTCCodes_reports _ (Elm.connected Elm.never Elm.noData))).
  discriminate.
Defined.

(** On an active connection [clearDTCCodes] writes the Mode 04 request once
    and nothing else.  When the exchange succeeds it calls no callback and
    sets the timer that reads the codes again; when it throws, it calls
    [onError] with 'Failed to clear diagnostic codes' and sets no timer.
    Either way it does not throw, and it never reads the codes itself. *)
Theorem clearDTCCodes_outcome (A : Adapter) (w : World (recording A)) :
  characteristicRef w <> None -> connectedDeviceRef w <> None ->
  written (fst (clearDTCCodes w)) = (written w ++ [withCR "04"])%list
  /\ (forall response,
        snd (sendOBDCommand OBD_PIDS.CLEAR_DTCS w) = Ok response ->
        snd (clearDTCCodes w) = Ok true
        /\ events (fst (clearDTCCodes w)) = events w)
  /\ (forall e,
        snd (sendOBDCommand OBD_PIDS.CLEAR_DTCS w) = Throw e ->
        snd (clearDTCCodes w) = Ok false
        /\ events (fst (clearDTCCodes w))
           = (events w ++ [OnError "Failed to clear diagnostic codes"])%list).
Proof.
  intros Hc Hd. unfold clearDTCCodes.
  destruct (characteristicRef w) as [c|] eqn:Ec; [|contradiction].
  assert (Hc' : characteristicRef w <> None) by (rewrite Ec; discriminate).
  pose proof (sendOBDCommand_written OBD_PIDS.CLEAR_DTCS w (conj Hc' Hd)) as [L _].
  pose proof (proj1 (sendOBDCommand_frame (recording A) OBD_PIDS.CLEAR_DTCS w)) as Ev.
  unfold tryCatch, bind.
  destruct (sendOBDCommand OBD_PIDS.CLEAR_DTCS w) as [w' [response|e]]; cbn in *.
  - split; [exact L|]. split.
    + intros r _. split; [reflexivity | exact Ev].
    + intros e0 H0. discriminate H0.
  - split; [exact L|]. split.
    + intros r H0. discriminate H0.
    + intros e0 _. split; [reflexivity | now rewrite Ev].
Qed.

Lemma clearDTCCodes_outcome_witness :
  written (fst (clearDTCCodes (recordedElm Elm.never Elm.echoing)))
  = (written (recordedElm Elm.never Elm.echoing) ++ [withCR "04"])%list
  /\ (forall response,
        snd (sendOBDCommand OBD_PIDS.CLEAR_DTCS (recordedElm Elm.never Elm.echoing))
        = Ok response ->
        snd (clearDTCCodes (recordedElm Elm.never Elm.echoing)) = Ok true
        /\ events (fst (clearDTCCodes (recordedElm Elm.never Elm.echoing)))
           = events (recordedElm Elm.never Elm.echoing))
  /\ (forall e,
        snd (sendOBDCommand OBD_PIDS.CLEAR_DTCS (recordedElm Elm.never Elm.echoing))
        = Throw e ->
        snd (clearDTCCodes (recordedElm Elm.never Elm.echoing)) = Ok false
        /\ events (fst (clearDTCCodes (recordedElm Elm.never Elm.echoing)))
           = (events (recordedElm Elm.never Elm.echoing)
              ++ [OnError "Failed to clear diagnostic codes"])%list).
Proof.
  apply (clearDTCCodes_outcome (Elm.adapter Elm.never Elm.echoing)
           (recordedElm Elm.never Elm.echoing)); discriminate.
Defined.
